(** * Ghost-worker detection system: biometric matcher and fraud analyzer

    A shallow embedding of [utils/biometric_matcher.py] and
    [utils/fraud_detection.py], with the properties of the specification
    stated over it.

    Conventions of the embedding.
    - A Python [str] is a [string] of ASCII characters; [None] versus a
      value is an [option].
    - A finite Python [float] is an exact number, rounding is not modelled:
      a real ([R]) in the matcher, whose scores go through a square root, and
      a rational ([Q]) in the fraud analyzer, which only compares floats and
      divides them by constants.  The entries of a template, which come from
      stored text, may also be an infinity or NaN, and are modelled with
      these.  The integer parts of a computation (edit distance, lengths,
      counts, times) are kept in [nat] and [Z] and run.
    - A naive UTC [datetime] is the number of microseconds since the epoch
      ([Z]), between [datetime.min] and [datetime.max]; a [timedelta] is a
      number of microseconds.  Arithmetic that leaves these ranges raises
      [OverflowError], as in Python.
    - [try: ... except: ...] is written with an explicit outcome type. *)

From Stdlib Require Import List String Ascii Bool Arith ZArith QArith.
From Stdlib Require Import Reals Lra Lia Permutation Sorting.Sorted.
Import ListNotations.

(* ================================================================== *)
(** * Python values shared by both modules *)
(* ================================================================== *)

Module Py.

(** Truthiness of an optional string: [None] and [""] are falsy. *)
Definition truthy_str (o : option string) : bool :=
  match o with
  | Some s => negb (String.eqb s EmptyString)
  | None => false
  end.

(** Equality of two optional strings, as [==] on [str] or [None]. *)
Definition opt_str_eqb (a b : option string) : bool :=
  match a, b with
  | Some x, Some y => String.eqb x y
  | None, None => true
  | _, _ => false
  end.

(** Exceptions that the modelled code can meet. *)
Inductive exn : Type :=
| JSONDecodeError
| ValueError
| TypeError
| OverflowError.

(** The outcome of running a block of code. *)
Inductive outcome (A : Type) : Type :=
| Return (a : A)
| Raise (e : exn).

Arguments Return {A} a.
Arguments Raise {A} e.

Definition bind {A B : Type} (m : outcome A) (k : A -> outcome B) : outcome B :=
  match m with
  | Return a => k a
  | Raise e => Raise e
  end.

(** [try: body except: handler]. *)
Definition try_except {A : Type} (body : outcome A) (handler : exn -> outcome A)
  : outcome A :=
  match body with
  | Return a => Return a
  | Raise e => handler e
  end.

(** ASCII lower-casing, [str.lower] on the ASCII range. *)
Definition lower_ascii (c : ascii) : ascii :=
  let n := nat_of_ascii c in
  if andb (Nat.leb 65 n) (Nat.leb n 90) then ascii_of_nat (n + 32) else c.

Fixpoint lower (s : string) : string :=
  match s with
  | EmptyString => EmptyString
  | String c r => String (lower_ascii c) (lower r)
  end.

(** Characters removed by [str.strip()] in the ASCII range:
    TAB, LF, VT, FF, CR, FS, GS, RS, US and the space. *)
Definition is_space (c : ascii) : bool :=
  let n := nat_of_ascii c in
  orb (andb (Nat.leb 9 n) (Nat.leb n 13))
      (andb (Nat.leb 28 n) (Nat.leb n 32)).

Fixpoint lstrip (s : string) : string :=
  match s with
  | EmptyString => EmptyString
  | String c r => if is_space c then lstrip r else s
  end.

(** [rstrip]: a trailing run of spaces is dropped. *)
Fixpoint rstrip (s : string) : string :=
  match s with
  | EmptyString => EmptyString
  | String c r =>
      match rstrip r with
      | EmptyString => if is_space c then EmptyString else String c EmptyString
      | r' => String c r'
      end
  end.

Definition strip (s : string) : string := rstrip (lstrip s).

End Py.

(* ================================================================== *)
(** * utils/biometric_matcher.py *)
(* ================================================================== *)

Module Matcher.
Import Py.

Local Open Scope R_scope.

Notation "x <- m ;; k" := (bind m (fun x => k))
  (at level 61, m at next level, right associativity).

(** ** Edit distance: the dynamic-programming matrix, row by row *)

(** Cells [1..len2] of row [i], given the character [name1[i-1]], the cells
    [1..len2] of row [i-1] ([up_cells]), [diag = matrix[i-1][j-1]] and
    [left = matrix[i][j-1]]. *)
Fixpoint fill_row (c : ascii) (name2 : string) (up_cells : list nat)
  (diag left : nat) : list nat :=
  match name2, up_cells with
  | String d rest, up :: ups =>
      let cost := if Ascii.eqb c d then 0%nat else 1%nat in
      let cell :=
        Nat.min (up + 1) (Nat.min (left + 1) (diag + cost)) in
      cell :: fill_row c rest ups up cell
  | _, _ => []
  end.

(** Row [i] from row [i-1]; [matrix[i][0] = i]. *)
Definition next_row (c : ascii) (name2 : string) (prev : list nat) : list nat :=
  match prev with
  | [] => []
  | p0 :: ups => (p0 + 1)%nat :: fill_row c name2 ups p0 (p0 + 1)%nat
  end.

(** The last row of the matrix, starting from [row]. *)
Fixpoint last_row (name1 name2 : string) (row : list nat) : list nat :=
  match name1 with
  | EmptyString => row
  | String c rest => last_row rest name2 (next_row c name2 row)
  end.

(** [matrix[len1][len2]], row [0] being [0, 1, ..., len2]. *)
Definition levenshtein (name1 name2 : string) : nat :=
  last (last_row name1 name2 (seq 0 (S (String.length name2)))) 0%nat.

(** ** calculate_name_similarity *)

Definition normalize (name : string) : string := strip (lower name).

Definition calculate_name_similarity (name1 name2 : string) : R :=
  let name1 := normalize name1 in
  let name2 := normalize name2 in
  if String.eqb name1 name2 then 100
  else
    let len1 := String.length name1 in
    let len2 := String.length name2 in
    if orb (Nat.eqb len1 0) (Nat.eqb len2 0) then 0
    else
      let distance := levenshtein name1 name2 in
      let max_len := Nat.max len1 len2 in
      (IZR (Z.of_nat max_len - Z.of_nat distance) / IZR (Z.of_nat max_len))
      * 100.

(** ** numpy on one-dimensional arrays of float64 *)

(** A float64 value: a number, an infinity or NaN.  [json.loads] reads
    [NaN], [Infinity] and [-Infinity], and a number too large for a float64
    is read as an infinity. *)
Inductive float64 : Type :=
| Finite (x : R)
| PlusInfinity
| MinusInfinity
| NotANumber.

(** [a - b] on float64. *)
Definition fsub (a b : float64) : float64 :=
  match a, b with
  | NotANumber, _ => NotANumber
  | _, NotANumber => NotANumber
  | Finite x, Finite y => Finite (x - y)
  | Finite _, PlusInfinity => MinusInfinity
  | Finite _, MinusInfinity => PlusInfinity
  | PlusInfinity, PlusInfinity => NotANumber
  | PlusInfinity, _ => PlusInfinity
  | MinusInfinity, MinusInfinity => NotANumber
  | MinusInfinity, _ => MinusInfinity
  end.

Fixpoint zip_sub (a b : list float64) : list float64 :=
  match a, b with
  | x :: a', y :: b' => fsub x y :: zip_sub a' b'
  | _, _ => []
  end.

(** [enc1 - enc2]: element-wise on equal shapes, a one-element array is
    broadcast, any other pair of shapes raises [ValueError]. *)
Definition np_sub (a b : list float64) : outcome (list float64) :=
  if Nat.eqb (List.length a) (List.length b) then Return (zip_sub a b)
  else
    match a, b with
    | [x], _ => Return (map (fun y => fsub x y) b)
    | _, [y] => Return (map (fun x => fsub x y) a)
    | _, _ => Raise ValueError
    end.

(** The value of a sum of squares and of a norm: a number that is not
    negative, [inf] or [nan]. *)
Inductive magnitude : Type :=
| Mag (x : R)
| MagInfinity
| MagNaN.

(** [x * x + acc]: NaN wins over everything, an infinity over a number. *)
Definition add_square (x : float64) (acc : magnitude) : magnitude :=
  match x, acc with
  | NotANumber, _ => MagNaN
  | _, MagNaN => MagNaN
  | Finite a, Mag s => Mag (a * a + s)
  | _, _ => MagInfinity
  end.

Definition sum_squares (v : list float64) : magnitude :=
  fold_right add_square (Mag 0) v.

(** [np.linalg.norm] of a one-dimensional array. *)
Definition norm (v : list float64) : magnitude :=
  match sum_squares v with
  | Mag s => Mag (sqrt s)
  | MagInfinity => MagInfinity
  | MagNaN => MagNaN
  end.

(** Python's [max(0, x)]. *)
Definition max0 (x : R) : R := if Rlt_dec 0 x then x else 0.

(** [max(0, (1.0 - distance) * 100)].  For an infinite distance the
    product is [-inf] and the maximum is 0; for NaN the product is NaN, the
    comparison [nan > 0] is false and the maximum is 0 again. *)
Definition similarity_of_distance (distance : magnitude) : R :=
  match distance with
  | Mag d => max0 ((1 - d) * 100)
  | MagInfinity => 0
  | MagNaN => 0
  end.

(** ** Data of the matcher *)

Record employee_data : Type := {
  emp_id : Z;
  name : option string;
  national_id : option string;
  biometric_hash : option string
}.

Record duplicate : Type := {
  employee : employee_data;
  similarity_score : R;
  matching_factors : list string
}.

Record submission : Type := {
  sub_type : option string;
  sub_hash : option string;
  photo_data : option string
}.

Record stored_template : Type := { tpl_hash : option string }.

Record match_result : Type := { is_match : bool; confidence : R }.

Section WithEnvironment.

(** The module-level flag set by the import of [face_recognition]. *)
Variable FACE_RECOGNITION_AVAILABLE : bool.

(** [np.array(json.loads(template))] for a template that holds a JSON list
    of floats, which is what [image_to_hash] writes: the one-dimensional
    float64 array of its entries, each already rounded to the float64 that
    Python reads.  For any other text the function gives the exception that
    the [try] block raises on it ([json.loads] refusing the text, or numpy
    refusing the subtraction or the norm of what was read).  Arrays of
    integers, which numpy subtracts in integer arithmetic, are not
    described by this type. *)
Variable load_encoding : string -> outcome (list float64).

(** [image_to_hash]: the template of a photo, [None] when none is produced. *)
Variable image_to_hash : string -> option string.

(** ** calculate_image_similarity *)

(** The inner [try] block of the vector mode. *)
Definition encoding_similarity (template1 template2 : string) : outcome R :=
  enc1 <- load_encoding template1 ;;
  enc2 <- load_encoding template2 ;;
  diff <- np_sub enc1 enc2 ;;
  let distance := norm diff in
  Return (similarity_of_distance distance).

Definition calculate_image_similarity (template1 template2 : option string)
  : outcome R :=
  try_except
    (if orb (negb (truthy_str template1)) (negb (truthy_str template2))
     then Return 0
     else
       match template1, template2 with
       | Some t1, Some t2 =>
           if FACE_RECOGNITION_AVAILABLE then
             try_except (encoding_similarity t1 t2) (fun _ => Return 0)
           else if String.eqb t1 t2 then Return 100
           else Return 0
       | _, _ => Return 0
       end)
    (fun _ => Return 0).

Definition threshold : R :=
  if FACE_RECOGNITION_AVAILABLE then 85 else 99.

(** ** detect_duplicate *)

(** The two lists built for one existing record. *)
Definition factors : Type := (list string * list R)%type.

Definition check_national_id (new existing : employee_data) (acc : factors)
  : factors :=
  if andb (truthy_str (national_id new)) (truthy_str (national_id existing))
  then
    if opt_str_eqb (national_id new) (national_id existing)
    then (fst acc ++ ["national_id"%string], snd acc ++ [100])
    else acc
  else acc.

Definition check_name (new existing : employee_data) (acc : factors)
  : factors :=
  if andb (truthy_str (name new)) (truthy_str (name existing)) then
    match name new, name existing with
    | Some n1, Some n2 =>
        let name_sim := calculate_name_similarity n1 n2 in
        if Rlt_dec 80 name_sim
        then (fst acc ++ ["name"%string], snd acc ++ [name_sim])
        else acc
    | _, _ => acc
    end
  else acc.

Definition check_biometric (new existing : employee_data) (acc : factors)
  : outcome factors :=
  if andb (truthy_str (biometric_hash new))
          (truthy_str (biometric_hash existing))
  then
    bio_sim <- calculate_image_similarity (biometric_hash new)
                 (biometric_hash existing) ;;
    if Rlt_dec threshold bio_sim
    then Return (fst acc ++ ["facial_recognition"%string], snd acc ++ [bio_sim])
    else Return acc
  else Return acc.

(** [sum(scores)]: a left fold from [0]. *)
Definition sum (scores : list R) : R := fold_left Rplus scores 0.

(** The body of the loop: the duplicates list after one existing record. *)
Definition scan_one (new existing : employee_data) (duplicates : list duplicate)
  : outcome (list duplicate) :=
  let acc := check_name new existing
               (check_national_id new existing ([], [])) in
  acc <- check_biometric new existing acc ;;
  match fst acc with
  | [] => Return duplicates
  | _ :: _ =>
      let overall_score := sum (snd acc) / INR (List.length (snd acc)) in
      Return (duplicates ++
              [{| employee := existing;
                  similarity_score := overall_score;
                  matching_factors := fst acc |}])
  end.

Fixpoint scan (new : employee_data) (existing_employees : list employee_data)
  (duplicates : list duplicate) : outcome (list duplicate) :=
  match existing_employees with
  | [] => Return duplicates
  | existing :: rest =>
      duplicates' <- scan_one new existing duplicates ;;
      scan new rest duplicates'
  end.

(** [list.sort(key=similarity_score, reverse=True)]: stable, highest first;
    records of equal score keep their order. *)
Fixpoint insert_desc (d : duplicate) (sorted : list duplicate) : list duplicate :=
  match sorted with
  | [] => [d]
  | x :: rest =>
      if Rlt_dec (similarity_score x) (similarity_score d)
      then d :: x :: rest
      else x :: insert_desc d rest
  end.

Definition sort_desc (l : list duplicate) : list duplicate :=
  fold_left (fun sorted d => insert_desc d sorted) l [].

Definition detect_duplicate (new_employee_data : employee_data)
  (existing_employees : list employee_data) : outcome (list duplicate) :=
  duplicates <- scan new_employee_data existing_employees [] ;;
  Return (sort_desc duplicates).

(** The filter of [register_employee] in [app.py]: an alert is created for
    the duplicates whose score exceeds 80. *)
Definition registration_alerts (duplicates : list duplicate) : list duplicate :=
  filter (fun dup => if Rlt_dec 80 (similarity_score dup) then true else false)
         duplicates.

(** ** verify_biometric *)

Definition no_match : match_result := {| is_match := false; confidence := 0 |}.

Definition verify_biometric (submitted_data : submission)
  (stored : stored_template) : outcome match_result :=
  try_except
    (if opt_str_eqb (sub_type submitted_data) (Some "fingerprint"%string) then
       if opt_str_eqb (sub_hash submitted_data) (tpl_hash stored)
       then Return {| is_match := true; confidence := 95 |}
       else Return {| is_match := false; confidence := 0 |}
     else if opt_str_eqb (sub_type submitted_data) (Some "facial"%string) then
       if andb (truthy_str (photo_data submitted_data))
               (truthy_str (tpl_hash stored))
       then
         match photo_data submitted_data with
         | Some photo =>
             let submitted_template := image_to_hash photo in
             if truthy_str submitted_template then
               similarity <- calculate_image_similarity submitted_template
                               (tpl_hash stored) ;;
               Return {| is_match :=
                           if Rlt_dec threshold similarity then true else false;
                         confidence := similarity |}
             else Return no_match
         | None => Return no_match
         end
       else Return no_match
     else Return no_match)
    (fun _ => Return no_match).

End WithEnvironment.

End Matcher.

(* ================================================================== *)
(** * utils/fraud_detection.py *)
(* ================================================================== *)

Module Fraud.
Import Py.

Local Open Scope Z_scope.

Notation "x <- m ;; k" := (bind m (fun x => k))
  (at level 61, m at next level, right associativity).

(** ** Time *)

Definition datetime : Type := Z.
Definition timedelta : Type := Z.

Definition US_PER_HOUR : Z := 3600000000.
Definition US_PER_DAY : Z := 86400000000.

(** The span of [n] days. *)
Definition timedelta_of_days (n : Z) : timedelta := n * US_PER_DAY.

(** [timedelta.max.days]: the greatest number of days of a [timedelta], in
    either direction. *)
Definition MAX_DELTA_DAYS : Z := 999999999.

(** [datetime.min], 0001-01-01 00:00:00, and [datetime.max],
    9999-12-31 23:59:59.999999, counted from the epoch. *)
Definition DATETIME_MIN : datetime := - 719162 * US_PER_DAY.
Definition DATETIME_MAX : datetime := 2932897 * US_PER_DAY - 1.

(** [timedelta(days=n)] for an [int]: [OverflowError] beyond
    [MAX_DELTA_DAYS] days. *)
Definition timedelta_days (n : Z) : outcome timedelta :=
  if Z.abs n <=? MAX_DELTA_DAYS then Return (timedelta_of_days n)
  else Raise OverflowError.

(** [t - delta] for a [datetime] and a [timedelta]: [OverflowError] when
    the result is not a [datetime]. *)
Definition datetime_sub (t : datetime) (delta : timedelta) : outcome datetime :=
  let result := t - delta in
  if andb (DATETIME_MIN <=? result) (result <=? DATETIME_MAX)
  then Return result
  else Raise OverflowError.

(** [timedelta(hours=n)], used to build inputs. *)
Definition timedelta_of_hours (n : Z) : timedelta := n * US_PER_HOUR.

(** [delta.days]: whole days, rounded towards minus infinity. *)
Definition days (delta : timedelta) : Z := delta / US_PER_DAY.

(** [delta.total_seconds() / 3600]. *)
Definition hours (delta : timedelta) : Q := Qmake delta 1 / inject_Z US_PER_HOUR.

(** [t.weekday()]: Monday is 0; the epoch was a Thursday. *)
Definition weekday (t : datetime) : Z := (t / US_PER_DAY + 3) mod 7.

(** [t.hour]. *)
Definition hour (t : datetime) : Z := (t / US_PER_HOUR) mod 24.

(** Comparisons and truthiness of float values. *)
Definition Qltb (a b : Q) : bool := negb (Qle_bool b a).
Definition truthy_float (x : option Q) : bool :=
  match x with
  | Some q => negb (Qeq_bool q 0)
  | None => false
  end.

(** ** Records of models.py, with the columns that the analyzer reads *)

Record Employee : Type := {
  id : Z;
  status : string;
  registration_date : datetime
}.

Record AttendanceLog : Type := {
  log_id : Z;
  log_employee_id : Z;
  check_in_time : datetime;
  confidence_score : option Q
}.

Record BenefitClaim : Type := {
  claim_id : Z;
  claim_employee_id : Z;
  claim_date : datetime;
  verified_by_biometric : bool
}.

Record DuplicateAlert : Type := {
  employee_id_1 : Z;
  employee_id_2 : Z;
  alert_status : string
}.

(** ** [defaultdict(list)] filled with [d[k].append(v)] *)

(** Keys are kept in the order of their first insertion, as a [dict] does. *)
Fixpoint dd_append {V : Type} (k : Z) (v : V) (d : list (Z * list V))
  : list (Z * list V) :=
  match d with
  | [] => [(k, [v])]
  | (k', vs) :: rest =>
      if Z.eqb k' k then (k', vs ++ [v]) :: rest
      else (k', vs) :: dd_append k v rest
  end.

(** [d.get(k, [])]. *)
Fixpoint dd_get {V : Type} (k : Z) (d : list (Z * list V)) : list V :=
  match d with
  | [] => []
  | (k', vs) :: rest => if Z.eqb k' k then vs else dd_get k rest
  end.

Definition group_by {V : Type} (key : V -> Z) (l : list V) : list (Z * list V) :=
  fold_left (fun d v => dd_append (key v) v d) l [].

(** ** detect_ghost_workers *)

Inductive ghost_reason : Type :=
| NoAttendanceRecords
| NoAttendanceInDays (days_threshold : Z).

Record ghost_worker : Type := {
  ghost_employee : Employee;
  reason : ghost_reason;
  days_since_registration : option Z;
  last_attendance : option datetime;
  days_since_attendance : option Z
}.

(** [max(first :: rest, key=check_in_time)]: the first of the greatest. *)
Fixpoint max_by_check_in (best : AttendanceLog) (rest : list AttendanceLog)
  : AttendanceLog :=
  match rest with
  | [] => best
  | x :: rest' =>
      if check_in_time best <? check_in_time x
      then max_by_check_in x rest'
      else max_by_check_in best rest'
  end.

Definition active : string := "active".

(** The body of the loop over employees: what is appended for one of them.
    [now] is the value of [datetime.utcnow()], read once. *)
Definition ghost_of (now : datetime) (days_threshold : Z)
  (cutoff_date : datetime)
  (attendance_map : list (Z * list AttendanceLog)) (employee : Employee)
  : list ghost_worker :=
  if negb (String.eqb (status employee) active) then []
  else
    let attendances := dd_get (id employee) attendance_map in
    if registration_date employee <? cutoff_date then
      match attendances with
      | [] =>
          [{| ghost_employee := employee;
              reason := NoAttendanceRecords;
              days_since_registration :=
                Some (days (now - registration_date employee));
              last_attendance := None;
              days_since_attendance := None |}]
      | a :: rest =>
          let last := max_by_check_in a rest in
          if check_in_time last <? cutoff_date then
            [{| ghost_employee := employee;
                reason := NoAttendanceInDays days_threshold;
                days_since_registration := None;
                last_attendance := Some (check_in_time last);
                days_since_attendance :=
                  Some (days (now - check_in_time last)) |}]
          else []
      end
    else [].

(** [days_threshold] is an [int], as the route that calls the function
    passes it.  The cutoff is computed once, before the loop, and the call
    ends there with [OverflowError] when it is not a [datetime]. *)
Definition detect_ghost_workers (now : datetime) (employees : list Employee)
  (attendance_logs : list AttendanceLog) (days_threshold : Z)
  : outcome (list ghost_worker) :=
  let attendance_map := group_by log_employee_id attendance_logs in
  delta <- timedelta_days days_threshold ;;
  cutoff_date <- datetime_sub now delta ;;
  Return
    (fold_left
       (fun ghost_workers employee =>
          ghost_workers
          ++ ghost_of now days_threshold cutoff_date attendance_map employee)
       employees []).

(** ** detect_duplicate_claims *)

Record suspicious_claim : Type := {
  sc_employee_id : Z;
  sc_claims : BenefitClaim * BenefitClaim;
  time_difference_hours : Q;
  sc_window : Q
}.

(** [sorted(claims, key=claim_date)]: stable, earliest first. *)
Fixpoint insert_by_date (c : BenefitClaim) (sorted : list BenefitClaim)
  : list BenefitClaim :=
  match sorted with
  | [] => [c]
  | x :: rest =>
      if claim_date c <? claim_date x then c :: x :: rest
      else x :: insert_by_date c rest
  end.

Definition sorted_by_date (claims : list BenefitClaim) : list BenefitClaim :=
  fold_left (fun sorted c => insert_by_date c sorted) claims [].

(** The body of [for i in range(len(claims) - 1)]. *)
Definition check_pair (time_window_hours : Q) (employee_id : Z)
  (claims : list BenefitClaim) (i : nat) : list suspicious_claim :=
  match nth_error claims i, nth_error claims (i + 1) with
  | Some c, Some c' =>
      let time_diff := claim_date c' - claim_date c in
      let hours_diff := hours time_diff in
      if Qltb hours_diff time_window_hours then
        [{| sc_employee_id := employee_id;
            sc_claims := (c, c');
            time_difference_hours := hours_diff;
            sc_window := time_window_hours |}]
      else []
  | _, _ => []
  end.

Definition claims_of_group (time_window_hours : Q)
  (group : Z * list BenefitClaim) : list suspicious_claim :=
  let employee_id := fst group in
  let claims := sorted_by_date (snd group) in
  fold_left
    (fun suspicious i =>
       suspicious ++ check_pair time_window_hours employee_id claims i)
    (seq 0 (List.length claims - 1)) [].

Definition detect_duplicate_claims (benefit_claims : list BenefitClaim)
  (time_window_hours : Q) : list suspicious_claim :=
  let claims_by_employee := group_by claim_employee_id benefit_claims in
  fold_left
    (fun suspicious group =>
       suspicious ++ claims_of_group time_window_hours group)
    claims_by_employee [].

Definition default_time_window_hours : Q := 24.

(** ** detect_unusual_patterns *)

Inductive pattern_type : Type :=
| weekend_checkin
| unusual_hour
| low_confidence.

Record unusual_pattern : Type := {
  pattern : pattern_type;
  pattern_log : AttendanceLog
}.

Definition patterns_of (log : AttendanceLog) : list unusual_pattern :=
  let check_in := check_in_time log in
  (if 5 <=? weekday check_in
   then [{| pattern := weekend_checkin; pattern_log := log |}] else [])
  ++
  (if hour check_in <? 5
   then [{| pattern := unusual_hour; pattern_log := log |}] else [])
  ++
  (if andb (truthy_float (confidence_score log))
           (match confidence_score log with
            | Some q => Qltb q 70
            | None => false
            end)
   then [{| pattern := low_confidence; pattern_log := log |}] else []).

Definition detect_unusual_patterns (attendance_logs : list AttendanceLog)
  : list unusual_pattern :=
  fold_left (fun unusual_patterns log => unusual_patterns ++ patterns_of log)
            attendance_logs [].

(** ** analyze_employee_risk *)

Inductive risk_level : Type := low | medium | high | critical.

Inductive risk_factor : Type :=
| PendingDuplicateAlerts (n : nat)
| NoAttendanceIn (days_since_reg : Z)
| UnverifiedBenefitClaims (n : nat)
| HighNumberOfBenefitClaims (n : nat).

Record risk_assessment : Type := {
  ra_employee_id : Z;
  risk_score : Z;
  ra_risk_level : risk_level;
  risk_factors : list risk_factor
}.

Definition pending : string := "pending".

Definition analyze_employee_risk (now : datetime) (employee : Employee)
  (attendance_logs : list AttendanceLog) (benefit_claims : list BenefitClaim)
  (duplicates : list DuplicateAlert) : risk_assessment :=
  let risk_score := 0 in
  let risk_factors := [] in
  (* duplicate alerts *)
  let employee_duplicates :=
    filter (fun d => orb (employee_id_1 d =? id employee)
                         (employee_id_2 d =? id employee)) duplicates in
  let pending_duplicates :=
    filter (fun d => String.eqb (alert_status d) pending) employee_duplicates in
  let '(risk_score, risk_factors) :=
    match employee_duplicates, pending_duplicates with
    | _ :: _, _ :: _ =>
        (risk_score + 40,
         risk_factors ++ [PendingDuplicateAlerts (List.length pending_duplicates)])
    | _, _ => (risk_score, risk_factors)
    end in
  (* attendance *)
  let employee_attendance :=
    filter (fun log => log_employee_id log =? id employee) attendance_logs in
  let days_since_reg := days (now - registration_date employee) in
  let '(risk_score, risk_factors) :=
    if andb (Nat.eqb (List.length employee_attendance) 0)
            (String.eqb (status employee) active)
    then
      if 7 <? days_since_reg
      then (risk_score + 30, risk_factors ++ [NoAttendanceIn days_since_reg])
      else (risk_score, risk_factors)
    else (risk_score, risk_factors) in
  (* benefit claims *)
  let employee_claims :=
    filter (fun claim => claim_employee_id claim =? id employee)
           benefit_claims in
  let unverified_claims :=
    filter (fun c => negb (verified_by_biometric c)) employee_claims in
  let '(risk_score, risk_factors) :=
    if Nat.ltb 0 (List.length unverified_claims)
    then (risk_score + 20,
          risk_factors ++
          [UnverifiedBenefitClaims (List.length unverified_claims)])
    else (risk_score, risk_factors) in
  let '(risk_score, risk_factors) :=
    if Nat.ltb 5 (List.length employee_claims)
    then (risk_score + 10,
          risk_factors ++
          [HighNumberOfBenefitClaims (List.length employee_claims)])
    else (risk_score, risk_factors) in
  let level :=
    if 70 <=? risk_score then critical
    else if 40 <=? risk_score then high
    else if 20 <=? risk_score then medium
    else low in
  {| ra_employee_id := id employee;
     risk_score := Z.min 100 risk_score;
     ra_risk_level := level;
     risk_factors := risk_factors |}.

End Fraud.

(* ================================================================== *)
(** * Definitions that follow the words of the specification *)
(* ================================================================== *)

Module Spec.
Import Py Matcher.

Local Open Scope R_scope.

(** Euclidean distance between two vectors of the same length. *)
Fixpoint euclidean_sq (v w : list R) : R :=
  match v, w with
  | x :: v', y :: w' => (x - y) * (x - y) + euclidean_sq v' w'
  | _, _ => 0
  end.

Definition euclidean_distance (v w : list R) : R := sqrt (euclidean_sq v w).

(** Unweighted arithmetic mean. *)
Definition mean (scores : list R) : R :=
  fold_right Rplus 0 scores / INR (List.length scores).

Section Hits.

Variable FACE_RECOGNITION_AVAILABLE : bool.
Variable load_encoding : string -> outcome (list float64).

(** The value that the scorer returns for two templates. *)
Definition image_similarity (t1 t2 : option string) : R :=
  match calculate_image_similarity FACE_RECOGNITION_AVAILABLE load_encoding
          t1 t2 with
  | Return r => r
  | Raise _ => 0
  end.

(** Factor 1: both sides have a non-empty national ID and they are equal. *)
Definition national_id_hit (new existing : employee_data) : list (string * R) :=
  match national_id new, national_id existing with
  | Some a, Some b =>
      if andb (negb (String.eqb a EmptyString))
              (andb (negb (String.eqb b EmptyString)) (String.eqb a b))
      then [("national_id"%string, 100)] else []
  | _, _ => []
  end.

(** Factor 2: both names are present and their similarity exceeds 80. *)
Definition name_hit (new existing : employee_data) : list (string * R) :=
  match name new, name existing with
  | Some a, Some b =>
      if andb (negb (String.eqb a EmptyString)) (negb (String.eqb b EmptyString))
      then
        if Rlt_dec 80 (calculate_name_similarity a b)
        then [("name"%string, calculate_name_similarity a b)] else []
      else []
  | _, _ => []
  end.

(** Factor 3: both sides have a template and the similarity exceeds the
    active threshold. *)
Definition biometric_hit (new existing : employee_data) : list (string * R) :=
  match biometric_hash new, biometric_hash existing with
  | Some a, Some b =>
      if andb (negb (String.eqb a EmptyString)) (negb (String.eqb b EmptyString))
      then
        if Rlt_dec (threshold FACE_RECOGNITION_AVAILABLE)
                   (image_similarity (Some a) (Some b))
        then [("facial_recognition"%string, image_similarity (Some a) (Some b))]
        else []
      else []
  | _, _ => []
  end.

Definition hits (new existing : employee_data) : list (string * R) :=
  national_id_hit new existing ++ name_hit new existing
  ++ biometric_hit new existing.

(** What is reported for one existing record. *)
Definition report (new existing : employee_data) : list duplicate :=
  match hits new existing with
  | [] => []
  | h =>
      [{| employee := existing;
          similarity_score := mean (map snd h);
          matching_factors := map fst h |}]
  end.

End Hits.

(** The bound that each factor puts on the score of its hit. *)
Definition factor_score_bound (face_recognition_available : bool)
  (h : string * R) : Prop :=
  (fst h = "national_id"%string /\ snd h = 100) \/
  (fst h = "name"%string /\ 80 < snd h) \/
  (fst h = "facial_recognition"%string /\
   ((face_recognition_available = true /\ 85 < snd h) \/
    (face_recognition_available = false /\ 99 < snd h))).

(** Names that do not reach the name threshold, when both are present. *)
Definition names_differ (new existing : employee_data) : Prop :=
  forall a b, name new = Some a -> name existing = Some b ->
    calculate_name_similarity a b <= 80.

(** Templates that do not reach the active threshold, when both are
    present. *)
Definition templates_differ (face_recognition_available : bool)
  (load_encoding : string -> outcome (list float64))
  (new existing : employee_data) : Prop :=
  forall a b, biometric_hash new = Some a -> biometric_hash existing = Some b ->
    image_similarity face_recognition_available load_encoding (Some a) (Some b)
    <= threshold face_recognition_available.

(** The order of the result: the score does not increase. *)
Definition higher_first (a b : duplicate) : Prop :=
  similarity_score b <= similarity_score a.


(** A vector whose entries are all numbers. *)
Definition finite_vector (v : list R) : list float64 := map Finite v.

(** Absent or empty. *)
Definition absent (t : option string) : Prop := truthy_str t = false.

(** A small table of stored encodings, for examples: three vector
    templates, every other text being rejected by the JSON parser. *)
Definition sample_encodings (s : string) : outcome (list float64) :=
  if String.eqb s "[0.0, 0.0]" then Return [Finite 0; Finite 0]
  else if String.eqb s "[3.0, 4.0]" then Return [Finite 3; Finite 4]
  else if String.eqb s "[0.5, NaN]" then Return [Finite (1 / 2); NotANumber]
  else Raise JSONDecodeError.

(** A candidate and an accepted record that share the national ID only. *)
Definition sample_candidate : employee_data :=
  {| emp_id := 0;
     name := Some "Amina Wanjiru"%string;
     national_id := Some "28514736"%string;
     biometric_hash := Some "9f86d081"%string |}.

Definition sample_existing : employee_data :=
  {| emp_id := 7;
     name := Some "Joseph Otieno"%string;
     national_id := Some "28514736"%string;
     biometric_hash := Some "60303ae2"%string |}.

(** A photo encoder for examples: every photo yields the same template. *)
Definition sample_image_to_hash (photo : string) : option string :=
  Some "[0.0, 0.0]"%string.

End Spec.

(* ================================================================== *)
(** * Properties of the biometric matcher *)
(* ================================================================== *)

Module FraudSpec.
Import Fraud.

Local Open Scope Z_scope.

(** The keys of a grouping, in their order. *)
Definition keys {V : Type} (d : list (Z * list V)) : list Z := map fst d.

(** The records of one employee. *)
Definition logs_of (employee_id : Z) (logs : list AttendanceLog)
  : list AttendanceLog :=
  filter (fun log => log_employee_id log =? employee_id) logs.

Definition claims_of (employee_id : Z) (claims : list BenefitClaim)
  : list BenefitClaim :=
  filter (fun c => claim_employee_id c =? employee_id) claims.

(** *** Ghost workers *)

(** The time of the most recent attendance, when there is one. *)
Definition most_recent (logs : list AttendanceLog) : option datetime :=
  match logs with
  | [] => None
  | log :: rest =>
      Some (fold_right (fun x latest => Z.max (check_in_time x) latest)
                       (check_in_time log) rest)
  end.

(** An active subject registered before [now - days_threshold] that has no
    attendance record, or whose most recent attendance predates the cutoff. *)
Definition flagged (now : datetime) (days_threshold : Z)
  (logs : list AttendanceLog) (e : Employee) : bool :=
  let cutoff := now - timedelta_of_days days_threshold in
  String.eqb (status e) active
  && (registration_date e <? cutoff)
  && match most_recent (logs_of (id e) logs) with
     | None => true
     | Some latest => latest <? cutoff
     end.

(** The cutoff [now - days_threshold] is a date that Python can hold, and
    [days_threshold] a number of days that a [timedelta] can. *)
Definition cutoff_in_range (now : datetime) (days_threshold : Z) : bool :=
  let cutoff := now - timedelta_of_days days_threshold in
  (Z.abs days_threshold <=? MAX_DELTA_DAYS)
  && (DATETIME_MIN <=? cutoff) && (cutoff <=? DATETIME_MAX).

(** The reason reported for a subject. *)
Definition reason_for (days_threshold : Z) (logs : list AttendanceLog)
  (e : Employee) : ghost_reason :=
  match logs_of (id e) logs with
  | [] => NoAttendanceRecords
  | _ :: _ => NoAttendanceInDays days_threshold
  end.

(** *** Duplicate claims *)

Definition by_date (a b : BenefitClaim) : Prop := claim_date a <= claim_date b.

(** The adjacent pairs of a list. *)
Definition adjacent_pairs {A : Type} (l : list A) : list (A * A) :=
  combine l (tl l).

(** The gap between the two claims of a pair is under the window. *)
Definition within_window (window : Q) (p : BenefitClaim * BenefitClaim) : bool :=
  Qltb (hours (claim_date (snd p) - claim_date (fst p))) window.

Definition finding (window : Q) (employee_id : Z)
  (p : BenefitClaim * BenefitClaim) : suspicious_claim :=
  {| sc_employee_id := employee_id;
     sc_claims := p;
     time_difference_hours := hours (claim_date (snd p) - claim_date (fst p));
     sc_window := window |}.

(** One finding for each adjacent pair, in date order, of the claims of a
    subject whose gap is under the window. *)
Definition findings_for (window : Q) (employee_id : Z)
  (claims : list BenefitClaim) : list suspicious_claim :=
  map (finding window employee_id)
      (filter (within_window window)
              (adjacent_pairs (sorted_by_date (claims_of employee_id claims)))).

(** *** Risk fusion *)

Definition involves (e : Employee) (d : DuplicateAlert) : bool :=
  (employee_id_1 d =? id e) || (employee_id_2 d =? id e).

Definition has_pending_alert (e : Employee) (alerts : list DuplicateAlert) : bool :=
  existsb (fun d => involves e d && String.eqb (alert_status d) pending) alerts.

(** Whole days elapsed since the registration. *)
Definition days_since_registration_of (now : datetime) (e : Employee) : Z :=
  (now - registration_date e) / US_PER_DAY.

(** The absence signal, to the letter: an active subject without attendance
    record, registered more than 7 days ago. *)
Definition absent_over_7_days (now : datetime) (e : Employee)
  (logs : list AttendanceLog) : bool :=
  String.eqb (status e) active
  && forallb (fun log => negb (log_employee_id log =? id e)) logs
  && (7 * US_PER_DAY <? now - registration_date e).

(** The absence signal in whole days: an active subject without attendance
    record, registered at least 8 days ago, so that more than 7 whole days
    have elapsed. *)
Definition absent_for_a_week (now : datetime) (e : Employee)
  (logs : list AttendanceLog) : bool :=
  String.eqb (status e) active
  && forallb (fun log => negb (log_employee_id log =? id e)) logs
  && (8 * US_PER_DAY <=? now - registration_date e).

Definition has_unverified_claim (e : Employee) (claims : list BenefitClaim) : bool :=
  existsb (fun c => (claim_employee_id c =? id e) && negb (verified_by_biometric c))
          claims.

Definition more_than_five_claims (e : Employee) (claims : list BenefitClaim) : bool :=
  (5 <? Z.of_nat (List.length (claims_of (id e) claims))).

(** The sum of the weights of the signals that are triggered. *)
Definition weighted_sum (alert absent unverified many : bool) : Z :=
  (if alert then 40 else 0) + (if absent then 30 else 0)
  + (if unverified then 20 else 0) + (if many then 10 else 0).

Definition level_of (score : Z) : risk_level :=
  if 70 <=? score then critical
  else if 40 <=? score then high
  else if 20 <=? score then medium
  else low.

(** A signal is triggered in [b'] whenever it is in [b]. *)
Definition implies (b b' : bool) : Prop := b = true -> b' = true.

(** *** Examples *)

(** 2024-01-03 (a Wednesday), 09:00 UTC. *)
Definition wednesday_9am : datetime := (19725 * 24 + 9) * US_PER_HOUR.

(** A check-in whose verification failed: confidence 0. *)
Definition failed_verification_log : AttendanceLog :=
  {| log_id := 1;
     log_employee_id := 1;
     check_in_time := wednesday_9am;
     confidence_score := Some 0%Q |}.

Definition claim_at (n employee_id : Z) (hour_offset : Z) : BenefitClaim :=
  {| claim_id := n;
     claim_employee_id := employee_id;
     claim_date := wednesday_9am + timedelta_of_hours hour_offset;
     verified_by_biometric := true |}.

Definition pending_alert_on (employee_id : Z) : DuplicateAlert :=
  {| employee_id_1 := employee_id;
     employee_id_2 := employee_id + 1;
     alert_status := pending |}.

Definition registered_days_ago (n : Z) : Employee :=
  {| id := 1;
     status := active;
     registration_date := wednesday_9am - timedelta_of_days n |}.

(** An active subject registered 7 days and 23 hours ago. *)
Definition registered_7_days_23_hours_ago : Employee :=
  {| id := 1;
     status := active;
     registration_date :=
       wednesday_9am - timedelta_of_days 7 - timedelta_of_hours 23 |}.

End FraudSpec.

(* ================================================================== *)
(** * Edit distance, by its recurrence *)
(* ================================================================== *)

Module EditDistance.

(** The edit distance between two sequences of characters, with unit cost
    for an insertion, a deletion and a substitution. *)
Fixpoint lev (x : list ascii) : list ascii -> nat :=
  fix lev_x (y : list ascii) : nat :=
    match x, y with
    | [], _ => List.length y
    | _, [] => List.length x
    | c :: x', d :: y' =>
        Nat.min (lev x' y + 1)
                (Nat.min (lev_x y' + 1)
                         (lev x' y' + if Ascii.eqb c d then 0 else 1))
    end.

(** The characters of a string, last one first. *)
Fixpoint rev_chars (s : string) (acc : list ascii) : list ascii :=
  match s with
  | EmptyString => acc
  | String c rest => rev_chars rest (c :: acc)
  end.

(** The distances from [x] to the prefixes of a string that extend the
    prefix [rq] (held last character first) by the characters of [rest]. *)
Fixpoint cells (x rq : list ascii) (rest : string) : list nat :=
  match rest with
  | EmptyString => []
  | String d r => lev x (d :: rq) :: cells x (d :: rq) r
  end.

(** A row of the matrix: the distances from [x] to every prefix of [b]. *)
Definition row_of (x : list ascii) (b : string) : list nat :=
  lev x [] :: cells x [] b.

End EditDistance.

(* ================================================================== *)
(** * app.py: the parts that call the matcher *)
(* ================================================================== *)

Module App.
Import Py Matcher.

Local Open Scope R_scope.

Notation "x <- m ;; k" := (bind m (fun x => k))
  (at level 61, m at next level, right associativity).

(** A row of the [employees] table, with the columns read here. *)
Record employee_row : Type := {
  row_id : Z;
  row_name : string;
  row_national_id : option string;
  row_biometric_hash : option string;
  row_status : string
}.

(** The JSON body of a registration request, with the keys read here. *)
Record registration : Type := {
  reg_name : option string;
  reg_national_id : option string;
  reg_photo_data : option string
}.

(** What [register_employee] answers, as far as duplicates go: one of its
    two refusals, or the duplicate alerts that it creates. *)
Inductive registration_result : Type :=
| NameRequired
| NationalIdAlreadyRegistered
| Registered (duplicate_alerts : list duplicate).

Section WithEnvironment.

Variable FACE_RECOGNITION_AVAILABLE : bool.
Variable load_encoding : string -> outcome (list float64).
Variable image_to_hash : string -> option string.

(** ** verify_identity: the loop over the stored templates *)

Fixpoint verify_templates (verification_data : submission)
  (templates : list stored_template) (verification_result : match_result)
  : outcome match_result :=
  match templates with
  | [] => Return verification_result
  | template_data :: rest =>
      result <- verify_biometric FACE_RECOGNITION_AVAILABLE load_encoding
                  image_to_hash verification_data template_data ;;
      verify_templates verification_data rest
        (if Rlt_dec (confidence verification_result) (confidence result)
         then result else verification_result)
  end.

Definition verify_identity (verification_data : submission)
  (templates : list stored_template) : outcome match_result :=
  verify_templates verification_data templates
    {| is_match := false; confidence := 0 |}.

(** ** register_employee: from the request to the duplicate alerts *)

(** [Employee.query.filter_by(national_id=...).first()]. *)
Definition first_with_national_id (national_id : string)
  (table : list employee_row) : option employee_row :=
  find (fun row => opt_str_eqb (row_national_id row) (Some national_id)) table.

Definition active_status : string := "active".

(** The dictionary built for each active employee. *)
Definition emp_data_of (row : employee_row) : employee_data :=
  {| emp_id := row_id row;
     name := Some (row_name row);
     national_id := row_national_id row;
     biometric_hash := row_biometric_hash row |}.

Definition register_employee (table : list employee_row) (data : registration)
  : outcome registration_result :=
  if negb (truthy_str (reg_name data)) then Return NameRequired
  else
    match (if truthy_str (reg_national_id data)
           then match reg_national_id data with
                | Some nid => first_with_national_id nid table
                | None => None
                end
           else None) with
    | Some _ => Return NationalIdAlreadyRegistered
    | None =>
        let biometric_hash :=
          if truthy_str (reg_photo_data data)
          then match reg_photo_data data with
               | Some photo => image_to_hash photo
               | None => None
               end
          else None in
        let existing_employees :=
          filter (fun row => String.eqb (row_status row) active_status) table in
        let existing_data := map emp_data_of existing_employees in
        let new_data :=
          {| emp_id := 0;
             name := reg_name data;
             national_id := reg_national_id data;
             biometric_hash := biometric_hash |} in
        duplicates <- detect_duplicate FACE_RECOGNITION_AVAILABLE load_encoding
                        new_data existing_data ;;
        Return (Registered (registration_alerts duplicates))
    end.

End WithEnvironment.

End App.

Module FraudExtraSpec.
Import Fraud FraudSpec.

Local Open Scope Z_scope.

(** The record that detect_ghost_workers builds for a flagged employee. *)
Definition ghost_record (now : datetime) (days_threshold : Z)
  (logs : list AttendanceLog) (e : Employee) : ghost_worker :=
  match most_recent (logs_of (id e) logs) with
  | None =>
      {| ghost_employee := e;
         reason := NoAttendanceRecords;
         days_since_registration := Some (days (now - registration_date e));
         last_attendance := None;
         days_since_attendance := None |}
  | Some latest =>
      {| ghost_employee := e;
         reason := NoAttendanceInDays days_threshold;
         days_since_registration := None;
         last_attendance := Some latest;
         days_since_attendance := Some (days (now - latest)) |}
  end.

(** The alerts that involve an employee. *)
Definition alerts_of (e : Employee) (alerts : list DuplicateAlert)
  : list DuplicateAlert :=
  filter (involves e) alerts.

(** The number of signals among the four that are triggered. *)
Definition count_true (a b c d : bool) : Z :=
  (if a then 1 else 0) + (if b then 1 else 0)
  + (if c then 1 else 0) + (if d then 1 else 0).

(** The weight of the signal that a risk factor reports. *)
Definition weight_of (f : risk_factor) : Z :=
  match f with
  | PendingDuplicateAlerts _ => 40
  | NoAttendanceIn _ => 30
  | UnverifiedBenefitClaims _ => 20
  | HighNumberOfBenefitClaims _ => 10
  end.

(** What a risk factor says, checked against the records. *)
Definition factor_accurate (now : datetime) (e : Employee)
  (logs : list AttendanceLog) (claims : list BenefitClaim)
  (alerts : list DuplicateAlert) (f : risk_factor) : Prop :=
  match f with
  | PendingDuplicateAlerts n =>
      n = List.length
            (filter (fun d => String.eqb (alert_status d) pending)
                    (alerts_of e alerts))
      /\ (0 < n)%nat
  | NoAttendanceIn d =>
      d = days_since_registration_of now e /\ 7 < d
      /\ logs_of (id e) logs = [] /\ status e = active
  | UnverifiedBenefitClaims n =>
      n = List.length
            (filter (fun c => negb (verified_by_biometric c))
                    (claims_of (id e) claims))
      /\ (0 < n)%nat
  | HighNumberOfBenefitClaims n =>
      n = List.length (claims_of (id e) claims) /\ (5 < n)%nat
  end.

(** The factors that analyze_employee_risk lists, from the four signals. *)
Definition factors_of (now : datetime) (e : Employee)
  (logs : list AttendanceLog) (claims : list BenefitClaim)
  (alerts : list DuplicateAlert) : list risk_factor :=
  (if has_pending_alert e alerts
   then [PendingDuplicateAlerts
           (List.length (filter (fun d => String.eqb (alert_status d) pending)
                                (alerts_of e alerts)))]
   else [])
  ++ (if absent_for_a_week now e logs
      then [NoAttendanceIn (days_since_registration_of now e)] else [])
  ++ (if has_unverified_claim e claims
      then [UnverifiedBenefitClaims
              (List.length (filter (fun c => negb (verified_by_biometric c))
                                   (claims_of (id e) claims)))]
      else [])
  ++ (if more_than_five_claims e claims
      then [HighNumberOfBenefitClaims (List.length (claims_of (id e) claims))]
      else []).

(** The number of records held by a grouping. *)
Definition total_length {V : Type} (d : list (Z * list V)) : nat :=
  list_sum (map (fun g => List.length (snd g)) d).

End FraudExtraSpec.

(* ================================================================== *)
(** * utils/data_generator.py *)
(* ================================================================== *)

Module Generator.
Import Fraud.

Local Open Scope Z_scope.





Section WithRandom.

(** The state of the module [random], and the draws used here. *)
Variable rng : Type.
Variable random : rng -> Q * rng.
Variable randint : Z -> Z -> rng -> Z * rng.
Variable uniform : Q -> Q -> rng -> Q * rng.
Variable choice : list string -> rng -> string * rng.

(** ** generate_attendance_log *)



End WithRandom.

(** ** generate_email *)

(** [str.split()]: the words between runs of whitespace; [word] is the word
    being read. *)
Fixpoint split_words (s : string) (word : string) : list string :=
  match s with
  | EmptyString =>
      match word with
      | EmptyString => []
      | _ => [word]
      end
  | String c rest =>
      if Py.is_space c then
        match word with
        | EmptyString => split_words rest EmptyString
        | _ => word :: split_words rest EmptyString
        end
      else split_words rest (word ++ String c EmptyString)
  end.

Definition split (s : string) : list string := split_words s EmptyString.

(** The address, or the [IndexError] raised by [name_parts[0]]. *)
Inductive email_result : Type :=
| Email (address : string)
| IndexError.

Definition generate_email (name : string) : email_result :=
  let name_parts := split (Py.lower name) in
  match name_parts with
  | first :: second :: _ => Email (first ++ "." ++ second ++ "@gov.ke")
  | first :: [] => Email (first ++ "@gov.ke")
  | [] => IndexError
  end.

(** A text without characters other than whitespace. *)
Fixpoint blank (s : string) : bool :=
  match s with
  | EmptyString => true
  | String c rest => Py.is_space c && blank rest
  end.

(** A non-empty text without whitespace. *)
Fixpoint spaceless (s : string) : bool :=
  match s with
  | EmptyString => true
  | String c rest => negb (Py.is_space c) && spaceless rest
  end.

Definition is_word (s : string) : Prop :=
  s <> EmptyString /\ spaceless s = true.



End Generator.

Module ListFacts.

(** A loop that appends to its accumulator. *)
Lemma fold_left_app_flat_map {A B : Type} (f : A -> list B) (l : list A)
  (init : list B) :
  fold_left (fun acc x => acc ++ f x) l init = init ++ flat_map f l.
Proof.
  revert init. induction l as [|x l IH]; intro init; simpl.
  - now rewrite app_nil_r.
  - rewrite IH. now rewrite app_assoc.
Qed.

Lemma flat_map_agree {A B : Type} (f g : A -> list B) (l : list A) :
  (forall x, In x l -> f x = g x) -> flat_map f l = flat_map g l.
Proof.
  induction l as [|x l IH]; intro H; simpl; [reflexivity |].
  rewrite (H x) by now left. rewrite IH; [reflexivity |].
  intros y Hy. apply H. now right.
Qed.

End ListFacts.

Module MatcherProps.
Import Py Matcher Spec.

Local Open Scope R_scope.

(** ** Strings *)

Lemma opt_str_eqb_eq (a b : option string) :
  opt_str_eqb a b = true <-> a = b.
Proof.
  destruct a as [x|], b as [y|]; simpl; split; intro H;
    try discriminate; try reflexivity.
  - apply String.eqb_eq in H. now subst.
  - injection H as ->. apply String.eqb_refl.
Qed.

Lemma opt_str_eqb_neq (a b : option string) :
  opt_str_eqb a b = false <-> a <> b.
Proof.
  rewrite <- opt_str_eqb_eq. destruct (opt_str_eqb a b); split; intro H;
    try discriminate; try reflexivity; try congruence.
Qed.

Lemma length_zero_empty (s : string) :
  Nat.eqb (String.length s) 0 = true <-> s = EmptyString.
Proof.
  destruct s; simpl; split; intro H; try reflexivity; discriminate.
Qed.

(** ** calculate_name_similarity *)

Lemma name_similarity_equal (a b : string) :
  normalize a = normalize b -> calculate_name_similarity a b = 100.
Proof.
  intro H. unfold calculate_name_similarity. rewrite H.
  now rewrite String.eqb_refl.
Qed.

Lemma name_similarity_one_empty (a b : string) :
  normalize a <> normalize b ->
  normalize a = EmptyString \/ normalize b = EmptyString ->
  calculate_name_similarity a b = 0.
Proof.
  intros Hneq Hempty. unfold calculate_name_similarity.
  apply String.eqb_neq in Hneq. rewrite Hneq.
  destruct Hempty as [-> | ->]; simpl.
  - reflexivity.
  - now rewrite Bool.orb_true_r.
Qed.

(** C1, as amended.  A pair in which exactly one name is empty once
    lower-cased and trimmed has similarity 0; a pair of names that are equal
    once lower-cased and trimmed, two empty ones included, has similarity
    100; so has every name against itself. *)
Theorem C1_name_similarity_empty_and_equal (a b : string) :
  (normalize a = EmptyString -> normalize b <> EmptyString ->
   calculate_name_similarity a b = 0) /\
  (normalize a <> EmptyString -> normalize b = EmptyString ->
   calculate_name_similarity a b = 0) /\
  (normalize a = normalize b -> calculate_name_similarity a b = 100) /\
  calculate_name_similarity a a = 100.
Proof.
  repeat split.
  - intros Ha Hb. apply name_similarity_one_empty; [congruence | now left].
  - intros Ha Hb. apply name_similarity_one_empty; [congruence | now right].
  - apply name_similarity_equal.
  - now apply name_similarity_equal.
Qed.

Lemma C1_witness :
  normalize "  " = EmptyString /\
  normalize "Bob" <> EmptyString /\
  calculate_name_similarity "  " "Bob" = 0.
Proof.
  assert (Ha : normalize "  " = EmptyString) by reflexivity.
  assert (Hb : normalize "Bob" <> EmptyString) by (vm_compute; discriminate).
  split; [exact Ha | split; [exact Hb |]].
  exact (proj1 (C1_name_similarity_empty_and_equal "  " "Bob") Ha Hb).
Defined.

(** C1, as stated, fails: two names that are both empty once trimmed are
    equal, and the equality test comes first. *)
Lemma C1_counterexample :
  normalize "  " = EmptyString /\ normalize "" = EmptyString /\
  calculate_name_similarity "  " "" = 100 /\
  calculate_name_similarity "  " "" <> 0.
Proof.
  assert (H : calculate_name_similarity "  " "" = 100)
    by (apply name_similarity_equal; reflexivity).
  repeat split; try exact H. rewrite H. lra.
Qed.

(** ** calculate_image_similarity *)

Lemma max0_Rmax (x : R) : max0 x = Rmax 0 x.
Proof.
  unfold max0, Rmax. destruct (Rlt_dec 0 x), (Rle_dec 0 x); lra.
Qed.

Lemma sum_squares_finite (v w : list R) :
  List.length v = List.length w ->
  sum_squares (zip_sub (finite_vector v) (finite_vector w))
  = Mag (euclidean_sq v w).
Proof.
  unfold sum_squares, finite_vector.
  revert w. induction v as [|x v IH]; intros [|y w] Hlen;
    simpl in *; try reflexivity; try discriminate.
  rewrite IH by congruence. reflexivity.
Qed.

Lemma euclidean_sq_same (v : list R) : euclidean_sq v v = 0.
Proof.
  induction v as [|x v IH]; simpl; [reflexivity | rewrite IH; ring].
Qed.

Lemma np_sub_same_length (v w : list float64) :
  List.length v = List.length w -> np_sub v w = Return (zip_sub v w).
Proof.
  intro H. unfold np_sub. rewrite H. now rewrite Nat.eqb_refl.
Qed.


Lemma image_similarity_returns face load (t1 t2 : option string) :
  exists r, calculate_image_similarity face load t1 t2 = Return r.
Proof.
  unfold calculate_image_similarity.
  destruct (negb (truthy_str t1) || negb (truthy_str t2))%bool;
    [now exists 0 |].
  destruct t1 as [s1|], t2 as [s2|]; try (now exists 0).
  destruct face.
  - destruct (encoding_similarity load s1 s2) as [r|e]; simpl; eauto.
  - destruct (String.eqb s1 s2); simpl; eauto.
Qed.


(** In the hash mode two non-empty templates are compared as texts. *)
Lemma image_similarity_hash_mode load (s1 s2 : string) :
  s1 <> EmptyString -> s2 <> EmptyString ->
  calculate_image_similarity false load (Some s1) (Some s2)
  = Return (if String.eqb s1 s2 then 100 else 0).
Proof.
  intros H1 H2. unfold calculate_image_similarity. simpl.
  apply String.eqb_neq in H1, H2. rewrite H1, H2. simpl.
  now destruct (String.eqb s1 s2).
Qed.




(** C9, as amended.  In the vector mode, for two templates that hold
    vectors of the same length whose entries are all finite numbers,
    calculate_image_similarity returns
    max(0, (1 - Euclidean distance) * 100): 100 for two identical vectors,
    0 as soon as the distance reaches 1, and never a negative value. *)
Theorem C9_vector_similarity load (t1 t2 : string) (v1 v2 : list R) :
  t1 <> EmptyString -> t2 <> EmptyString ->
  load t1 = Return (finite_vector v1) -> load t2 = Return (finite_vector v2) ->
  List.length v1 = List.length v2 ->
  calculate_image_similarity true load (Some t1) (Some t2)
  = Return (Rmax 0 ((1 - euclidean_distance v1 v2) * 100)) /\
  (v1 = v2 ->
   calculate_image_similarity true load (Some t1) (Some t2) = Return 100) /\
  (1 <= euclidean_distance v1 v2 ->
   calculate_image_similarity true load (Some t1) (Some t2) = Return 0) /\
  0 <= Rmax 0 ((1 - euclidean_distance v1 v2) * 100).
Proof.
  intros Ht1 Ht2 Hv1 Hv2 Hlen.
  assert (Hcalc : calculate_image_similarity true load (Some t1) (Some t2)
                  = Return (Rmax 0 ((1 - euclidean_distance v1 v2) * 100))).
  { unfold calculate_image_similarity. simpl.
    apply String.eqb_neq in Ht1, Ht2. rewrite Ht1, Ht2. simpl.
    unfold encoding_similarity. rewrite Hv1, Hv2. simpl.
    rewrite np_sub_same_length
      by (unfold finite_vector; now rewrite !length_map).
    simpl. unfold norm. rewrite sum_squares_finite by assumption.
    simpl. now rewrite max0_Rmax. }
  split; [exact Hcalc |]. rewrite Hcalc. repeat split.
  - intros ->. unfold euclidean_distance. rewrite euclidean_sq_same, sqrt_0.
    f_equal. unfold Rmax. destruct (Rle_dec 0 ((1 - 0) * 100)); lra.
  - intro Hd. f_equal. unfold Rmax.
    destruct (Rle_dec 0 ((1 - euclidean_distance v1 v2) * 100)); lra.
  - apply Rmax_l.
Qed.

Lemma C9_witness :
  1 <= euclidean_distance [0; 0] [3; 4] /\
  calculate_image_similarity true sample_encodings
    (Some "[0.0, 0.0]"%string) (Some "[3.0, 4.0]"%string)
  = Return 0.
Proof.
  assert (Hd : 1 <= euclidean_distance [0; 0] [3; 4]).
  { unfold euclidean_distance. simpl.
    replace ((0 - 3) * (0 - 3) + ((0 - 4) * (0 - 4) + 0)) with (5 * 5) by ring.
    rewrite sqrt_square; lra. }
  split; [exact Hd |].
  destruct (C9_vector_similarity sample_encodings
              "[0.0, 0.0]" "[3.0, 4.0]" [0; 0] [3; 4])
    as (_ & _ & Hfar & _); try reflexivity; try discriminate.
  exact (Hfar Hd).
Defined.

(** C9, as stated, fails for a vector with an entry that is not a number:
    the template [0.5, NaN], which json.loads accepts, scores 0 against
    itself, not 100. *)
Lemma C9_counterexample :
  sample_encodings "[0.5, NaN]" = Return [Finite (1 / 2); NotANumber] /\
  calculate_image_similarity true sample_encodings
    (Some "[0.5, NaN]"%string) (Some "[0.5, NaN]"%string)
  = Return 0 /\
  calculate_image_similarity true sample_encodings
    (Some "[0.5, NaN]"%string) (Some "[0.5, NaN]"%string)
  <> Return 100.
Proof.
  assert (H : calculate_image_similarity true sample_encodings
                (Some "[0.5, NaN]"%string) (Some "[0.5, NaN]"%string)
              = Return 0) by reflexivity.
  split; [reflexivity |]. split; [exact H |].
  rewrite H. intro E. injection E as E. lra.
Qed.

(** ** verify_biometric *)

(** C10.  For a fingerprint submission, verify_biometric returns match
    true with confidence 95 when the submitted hash equals the stored one,
    and match false with confidence 0 otherwise. *)
Theorem C10_fingerprint_verification face load image_to_hash
  (submitted : submission) (stored : stored_template) :
  sub_type submitted = Some "fingerprint"%string ->
  (sub_hash submitted = tpl_hash stored ->
   verify_biometric face load image_to_hash submitted stored
   = Return {| is_match := true; confidence := 95 |}) /\
  (sub_hash submitted <> tpl_hash stored ->
   verify_biometric face load image_to_hash submitted stored
   = Return {| is_match := false; confidence := 0 |}).
Proof.
  intro Htype. unfold verify_biometric. rewrite Htype. simpl. split; intro H.
  - apply opt_str_eqb_eq in H. now rewrite H.
  - apply opt_str_eqb_neq in H. now rewrite H.
Qed.

Lemma C10_witness :
  verify_biometric false sample_encodings sample_image_to_hash
    {| sub_type := Some "fingerprint"%string;
       sub_hash := Some "2c26b46b"%string;
       photo_data := None |}
    {| tpl_hash := Some "fcde2b2e"%string |}
  = Return {| is_match := false; confidence := 0 |}.
Proof.
  apply (C10_fingerprint_verification false sample_encodings
           sample_image_to_hash
           {| sub_type := Some "fingerprint"%string;
              sub_hash := Some "2c26b46b"%string;
              photo_data := None |}
           {| tpl_hash := Some "fcde2b2e"%string |}); [reflexivity |].
  discriminate.
Defined.

(** ** detect_duplicate *)

Section DetectDuplicate.

Variable face : bool.
Variable load : string -> outcome (list float64).

Local Abbreviation hits := (Spec.hits face load).
Local Abbreviation report := (Spec.report face load).

(** The loop body collects exactly the hits of the specification. *)

Lemma check_national_id_hits new existing (acc : factors) :
  check_national_id new existing acc
  = (fst acc ++ map fst (national_id_hit new existing),
     snd acc ++ map snd (national_id_hit new existing)).
Proof.
  unfold check_national_id, national_id_hit. destruct acc as [fs ss].
  destruct (national_id new) as [a|], (national_id existing) as [b|]; simpl;
    rewrite ?app_nil_r, ?Bool.andb_false_r; try reflexivity.
  destruct (String.eqb a EmptyString), (String.eqb b EmptyString),
    (String.eqb a b); simpl; now rewrite ?app_nil_r.
Qed.

Lemma check_name_hits new existing (acc : factors) :
  check_name new existing acc
  = (fst acc ++ map fst (name_hit new existing),
     snd acc ++ map snd (name_hit new existing)).
Proof.
  unfold check_name, name_hit. destruct acc as [fs ss].
  destruct (name new) as [a|], (name existing) as [b|]; simpl;
    rewrite ?app_nil_r, ?Bool.andb_false_r; try reflexivity.
  destruct (String.eqb a EmptyString), (String.eqb b EmptyString); simpl;
    rewrite ?app_nil_r; try reflexivity.
  destruct (Rlt_dec 80 (calculate_name_similarity a b)); simpl;
    now rewrite ?app_nil_r.
Qed.

Lemma check_biometric_hits new existing (acc : factors) :
  check_biometric face load new existing acc
  = Return (fst acc ++ map fst (biometric_hit face load new existing),
            snd acc ++ map snd (biometric_hit face load new existing)).
Proof.
  unfold check_biometric, biometric_hit, image_similarity.
  destruct acc as [fs ss].
  destruct (biometric_hash new) as [a|], (biometric_hash existing) as [b|];
    simpl; rewrite ?app_nil_r, ?Bool.andb_false_r; try reflexivity.
  destruct (String.eqb a EmptyString), (String.eqb b EmptyString); simpl;
    rewrite ?app_nil_r; try reflexivity.
  destruct (image_similarity_returns face load (Some a) (Some b)) as [r Hr].
  rewrite Hr. simpl.
  destruct (Rlt_dec (threshold face) r); simpl; now rewrite ?app_nil_r.
Qed.

Lemma fold_left_Rplus (l : list R) (a : R) :
  fold_left Rplus l a = a + fold_right Rplus 0 l.
Proof.
  revert a. induction l as [|x l IH]; intro a; simpl; [ring |].
  rewrite IH. ring.
Qed.

Lemma sum_over_length_mean (l : list R) :
  sum l / INR (List.length l) = mean l.
Proof.
  unfold sum, mean. rewrite fold_left_Rplus. now rewrite Rplus_0_l.
Qed.

Lemma scan_one_report new existing (duplicates : list duplicate) :
  scan_one face load new existing duplicates
  = Return (duplicates ++ report new existing).
Proof.
  unfold scan_one. rewrite check_national_id_hits, check_name_hits,
    check_biometric_hits. simpl.
  rewrite <- !map_app, <- app_assoc.
  unfold Spec.report. fold (hits new existing).
  destruct (hits new existing) as [|h rest]; simpl.
  - now rewrite app_nil_r.
  - now rewrite <- (sum_over_length_mean (snd h :: map snd rest)).
Qed.

Lemma scan_flat_map new (existing_employees : list employee_data)
  (duplicates : list duplicate) :
  scan face load new existing_employees duplicates
  = Return (duplicates ++ flat_map (report new) existing_employees).
Proof.
  revert duplicates.
  induction existing_employees as [|e rest IH]; intro duplicates; simpl.
  - now rewrite app_nil_r.
  - rewrite scan_one_report. simpl. rewrite IH. now rewrite app_assoc.
Qed.

Lemma detect_duplicate_sorted_reports new existing_employees :
  detect_duplicate face load new existing_employees
  = Return (sort_desc (flat_map (report new) existing_employees)).
Proof.
  unfold detect_duplicate. now rewrite scan_flat_map.
Qed.

(** The sort: a permutation, highest score first. *)

Lemma insert_desc_perm d (l : list duplicate) :
  Permutation (insert_desc d l) (d :: l).
Proof.
  induction l as [|x l IH]; simpl; [reflexivity |].
  destruct (Rlt_dec (similarity_score x) (similarity_score d)).
  - reflexivity.
  - rewrite IH. apply perm_swap.
Qed.

Lemma fold_insert_desc_perm (l acc : list duplicate) :
  Permutation (fold_left (fun sorted d => insert_desc d sorted) l acc)
              (acc ++ l).
Proof.
  revert acc. induction l as [|d l IH]; intro acc; simpl.
  - now rewrite app_nil_r.
  - rewrite IH. rewrite insert_desc_perm. simpl. apply Permutation_middle.
Qed.

Lemma sort_desc_perm (l : list duplicate) : Permutation (sort_desc l) l.
Proof. exact (fold_insert_desc_perm l []). Qed.

Lemma insert_desc_sorted d (l : list duplicate) :
  StronglySorted higher_first l -> StronglySorted higher_first (insert_desc d l).
Proof.
  induction 1 as [|x l Hl IH Hx]; simpl.
  - constructor; constructor.
  - destruct (Rlt_dec (similarity_score x) (similarity_score d)) as [Hlt|Hge].
    + constructor; [now constructor |].
      constructor; [unfold higher_first; lra |].
      eapply Forall_impl; [| exact Hx].
      unfold higher_first. intros y Hy. lra.
    + constructor; [exact IH |].
      eapply Permutation_Forall; [symmetry; apply insert_desc_perm |].
      constructor; [unfold higher_first; lra | exact Hx].
Qed.

Lemma fold_insert_desc_sorted (l acc : list duplicate) :
  StronglySorted higher_first acc ->
  StronglySorted higher_first
    (fold_left (fun sorted d => insert_desc d sorted) l acc).
Proof.
  revert acc. induction l as [|d l IH]; intros acc Hacc; simpl.
  - exact Hacc.
  - apply IH. now apply insert_desc_sorted.
Qed.

Lemma sort_desc_sorted (l : list duplicate) :
  StronglySorted higher_first (sort_desc l).
Proof. apply fold_insert_desc_sorted. constructor. Qed.

(** Every hit scores more than 80. *)

Lemma hits_bounds new existing :
  Forall (factor_score_bound face) (hits new existing).
Proof.
  unfold Spec.hits. repeat (apply Forall_app; split).
  - unfold national_id_hit.
    destruct (national_id new), (national_id existing); try constructor.
    match goal with |- context [if ?c then _ else _] => destruct c end;
      repeat constructor.
  - unfold name_hit.
    destruct (name new) as [a|], (name existing) as [b|]; try constructor.
    match goal with |- context [if ?c then _ else _] => destruct c end;
      try constructor.
    destruct (Rlt_dec 80 (calculate_name_similarity a b)); constructor;
      [| constructor].
    right; left. now split.
  - unfold biometric_hit.
    destruct (biometric_hash new) as [a|], (biometric_hash existing) as [b|];
      try constructor.
    match goal with |- context [if ?c then _ else _] => destruct c end;
      try constructor.
    destruct (Rlt_dec (threshold face) (image_similarity face load (Some a) (Some b)))
      as [Hlt|]; constructor; [| constructor].
    right; right. split; [reflexivity |]. simpl.
    unfold threshold in Hlt. destruct face; [left | right]; now split.
Qed.

Lemma factor_score_bound_gt_80 (h : string * R) :
  factor_score_bound face h -> 80 < snd h.
Proof.
  intros [[_ H] | [[_ H] | [_ [[_ H] | [_ H]]]]]; lra.
Qed.

Lemma sum_above (l : list R) :
  Forall (fun x => 80 < x) l ->
  80 * INR (List.length l) <= fold_right Rplus 0 l.
Proof.
  induction 1 as [|x l Hx Hl IH]; [simpl; lra |].
  change (List.length (x :: l)) with (S (List.length l)).
  rewrite S_INR. simpl. lra.
Qed.

Lemma mean_above (l : list R) :
  l <> [] -> Forall (fun x => 80 < x) l -> 80 < mean l.
Proof.
  intros Hne Hall. destruct Hall as [|x l Hx Hl]; [congruence |].
  unfold mean.
  set (n := INR (List.length (x :: l))).
  assert (Hn : 0 < n) by (apply lt_0_INR; simpl; lia).
  replace 80 with (80 * n / n) by (field; lra).
  unfold Rdiv. apply Rmult_lt_compat_r; [now apply Rinv_0_lt_compat |].
  unfold n. change (List.length (x :: l)) with (S (List.length l)).
  rewrite S_INR. simpl. pose proof (sum_above l Hl). lra.
Qed.

Lemma report_sound new existing :
  Forall (fun d => employee d = existing /\
                   hits new existing <> [] /\
                   matching_factors d = map fst (hits new existing) /\
                   similarity_score d = mean (map snd (hits new existing)))
         (report new existing).
Proof.
  unfold Spec.report. destruct (hits new existing) as [|h rest] eqn:E;
    constructor; [| constructor].
  simpl. repeat split. discriminate.
Qed.

Lemma report_passes new existing :
  Forall (fun d => matching_factors d <> [] /\ 80 < similarity_score d)
         (report new existing).
Proof.
  pose proof (hits_bounds new existing) as Hb.
  unfold Spec.report. destruct (hits new existing) as [|h rest] eqn:E;
    constructor; [| constructor].
  simpl. split; [discriminate |].
  apply (mean_above (snd h :: map snd rest)); [discriminate |].
  change (snd h :: map snd rest) with (map snd (h :: rest)).
  apply Forall_map. eapply Forall_impl; [| exact Hb].
  apply factor_score_bound_gt_80.
Qed.

Lemma Forall_flat_map_intro {A B : Type} (P : B -> Prop) (f : A -> list B)
  (l : list A) :
  (forall x, In x l -> Forall P (f x)) -> Forall P (flat_map f l).
Proof.
  intro H. induction l as [|x l IH]; simpl; [constructor |].
  apply Forall_app. split; [apply H; now left |].
  apply IH. intros y Hy. apply H. now right.
Qed.

Lemma filter_all {A : Type} (f : A -> bool) (l : list A) :
  Forall (fun x => f x = true) l -> filter f l = l.
Proof.
  induction 1 as [|x l Hx Hl IH]; simpl; [reflexivity |].
  now rewrite Hx, IH.
Qed.

(** C2.  Every duplicate candidate that detect_duplicate returns has a
    non-empty list of matching factors and an overall score above 80, each
    hit scoring more than 80 on its own (national ID exactly 100, name above
    80, biometric above 85 or 99); so the filter applied at registration
    keeps every returned candidate. *)
Theorem C2_candidates_have_factors_and_pass_filter
  (new : employee_data) (existing_employees : list employee_data) :
  exists duplicates,
    detect_duplicate face load new existing_employees = Return duplicates /\
    Forall (fun d => matching_factors d <> [] /\ 80 < similarity_score d)
           duplicates /\
    registration_alerts duplicates = duplicates /\
    (forall existing, Forall (factor_score_bound face) (hits new existing)).
Proof.
  exists (sort_desc (flat_map (report new) existing_employees)).
  assert (Hall : Forall (fun d => matching_factors d <> [] /\
                                  80 < similarity_score d)
                        (sort_desc (flat_map (report new) existing_employees))).
  { eapply Permutation_Forall; [symmetry; apply sort_desc_perm |].
    apply Forall_flat_map_intro. intros e _. apply report_passes. }
  split; [apply detect_duplicate_sorted_reports |].
  split; [exact Hall |].
  split; [| apply hits_bounds].
  apply filter_all. eapply Forall_impl; [| exact Hall].
  intros d [_ Hd]. simpl. now destruct (Rlt_dec 80 (similarity_score d)).
Qed.

Lemma names_differ_no_hit new existing :
  names_differ new existing -> name_hit new existing = [].
Proof.
  unfold names_differ, name_hit. intro H.
  destruct (name new) as [a|], (name existing) as [b|]; try reflexivity.
  match goal with |- context [if ?c then _ else _] => destruct c end;
    try reflexivity.
  specialize (H a b eq_refl eq_refl).
  destruct (Rlt_dec 80 (calculate_name_similarity a b)); [lra | reflexivity].
Qed.

Lemma templates_differ_no_hit new existing :
  templates_differ face load new existing ->
  biometric_hit face load new existing = [].
Proof.
  unfold templates_differ, biometric_hit. intro H.
  destruct (biometric_hash new) as [a|], (biometric_hash existing) as [b|];
    try reflexivity.
  match goal with |- context [if ?c then _ else _] => destruct c end;
    try reflexivity.
  specialize (H a b eq_refl eq_refl).
  destruct (Rlt_dec (threshold face) (image_similarity face load (Some a) (Some b)));
    [lra | reflexivity].
Qed.

Lemma national_id_only_report new existing (nid : string) :
  national_id new = Some nid -> national_id existing = Some nid ->
  nid <> EmptyString ->
  names_differ new existing -> templates_differ face load new existing ->
  report new existing
  = [{| employee := existing;
        similarity_score := 100;
        matching_factors := ["national_id"%string] |}].
Proof.
  intros Hn He Hnid Hnames Htpl.
  unfold Spec.report, Spec.hits.
  rewrite (names_differ_no_hit _ _ Hnames), (templates_differ_no_hit _ _ Htpl).
  unfold national_id_hit. rewrite Hn, He.
  apply String.eqb_neq in Hnid. rewrite Hnid, String.eqb_refl. simpl.
  f_equal. f_equal. unfold mean. simpl. field.
Qed.

(** C3.  detect_duplicate reports an existing record exactly when at
    least one factor hits, with the names of the factors that hit and the
    unweighted mean of their scores as overall score, and returns the
    reports sorted by overall score, highest first.  In particular an
    existing record with the candidate's non-empty national ID, whose name
    and template do not reach their thresholds against the candidate's, is
    reported with overall score exactly 100. *)
Theorem C3_reports_hits_with_mean_sorted
  (new : employee_data) (existing_employees : list employee_data) :
  exists duplicates,
    detect_duplicate face load new existing_employees = Return duplicates /\
    Permutation duplicates (flat_map (report new) existing_employees) /\
    Forall (fun d => In (employee d) existing_employees /\
                     hits new (employee d) <> [] /\
                     matching_factors d = map fst (hits new (employee d)) /\
                     similarity_score d
                     = mean (map snd (hits new (employee d))))
           duplicates /\
    StronglySorted higher_first duplicates /\
    (forall existing nid,
        In existing existing_employees ->
        national_id new = Some nid -> national_id existing = Some nid ->
        nid <> EmptyString ->
        names_differ new existing -> templates_differ face load new existing ->
        In {| employee := existing;
              similarity_score := 100;
              matching_factors := ["national_id"%string] |} duplicates).
Proof.
  exists (sort_desc (flat_map (report new) existing_employees)).
  split; [apply detect_duplicate_sorted_reports |].
  split; [apply sort_desc_perm |].
  split; [| split; [apply sort_desc_sorted |]].
  - eapply Permutation_Forall; [symmetry; apply sort_desc_perm |].
    apply Forall_flat_map_intro. intros e He.
    eapply Forall_impl; [| apply report_sound].
    intros d (-> & H1 & H2 & H3). auto.
  - intros existing nid Hin Hn He Hnid Hnames Htpl.
    eapply Permutation_in; [symmetry; apply sort_desc_perm |].
    apply in_flat_map. exists existing. split; [exact Hin |].
    rewrite (national_id_only_report _ _ nid) by assumption. now left.
Qed.

End DetectDuplicate.

(** The value of the similarity of two names that differ once normalized,
    from the integers that the code computes. *)
Lemma name_similarity_value (a b : string) (max_len distance : nat) :
  String.eqb (normalize a) (normalize b) = false ->
  orb (Nat.eqb (String.length (normalize a)) 0)
      (Nat.eqb (String.length (normalize b)) 0) = false ->
  Nat.max (String.length (normalize a)) (String.length (normalize b)) = max_len ->
  levenshtein (normalize a) (normalize b) = distance ->
  calculate_name_similarity a b
  = IZR (Z.of_nat max_len - Z.of_nat distance) / IZR (Z.of_nat max_len) * 100.
Proof.
  intros Hneq Hlen <- <-. unfold calculate_name_similarity.
  now rewrite Hneq, Hlen.
Qed.

Example name_similarity_one_edit :
  calculate_name_similarity "John Smith" " jon smith " = 90.
Proof.
  rewrite (name_similarity_value _ _ 10 1); try (vm_compute; reflexivity).
  change (Z.of_nat 10 - Z.of_nat 1)%Z with 9%Z.
  change (Z.of_nat 10) with 10%Z. lra.
Qed.

Lemma C3_witness :
  exists duplicates,
    detect_duplicate false sample_encodings sample_candidate [sample_existing]
    = Return duplicates /\
    In {| employee := sample_existing;
          similarity_score := 100;
          matching_factors := ["national_id"%string] |} duplicates.
Proof.
  destruct (C3_reports_hits_with_mean_sorted false sample_encodings
              sample_candidate [sample_existing])
    as (duplicates & Hret & _ & _ & _ & Hid).
  exists duplicates. split; [exact Hret |].
  apply (Hid sample_existing "28514736"%string).
  - now left.
  - reflexivity.
  - reflexivity.
  - discriminate.
  - intros a b Ha Hb. injection Ha as <-. injection Hb as <-.
    rewrite (name_similarity_value _ _ 13 13);
      try (vm_compute; reflexivity).
    change (Z.of_nat 13 - Z.of_nat 13)%Z with 0%Z.
    change (Z.of_nat 13) with 13%Z. lra.
  - intros a b Ha Hb. injection Ha as <-. injection Hb as <-.
    unfold image_similarity, calculate_image_similarity, threshold. simpl. lra.
Defined.

End MatcherProps.

(* ================================================================== *)
(** * Properties of the fraud analyzer *)
(* ================================================================== *)

Module FraudProps.
Import Fraud FraudSpec ListFacts.

Local Open Scope Z_scope.

(** ** Grouping *)

Lemma dd_get_append {V : Type} (k k' : Z) (v : V) (d : list (Z * list V)) :
  dd_get k (dd_append k' v d)
  = if k' =? k then dd_get k d ++ [v] else dd_get k d.
Proof.
  induction d as [|[k0 vs] d IH]; simpl.
  - destruct (k' =? k); reflexivity.
  - destruct (k0 =? k') eqn:E0; simpl.
    + apply Z.eqb_eq in E0. subst k0.
      destruct (k' =? k); reflexivity.
    + destruct (k0 =? k) eqn:E1; [| exact IH].
      apply Z.eqb_eq in E1. subst k0. now rewrite Z.eqb_sym, E0.
Qed.

Lemma dd_get_fold {V : Type} (key : V -> Z) (k : Z) (l : list V)
  (d : list (Z * list V)) :
  dd_get k (fold_left (fun d v => dd_append (key v) v d) l d)
  = dd_get k d ++ filter (fun v => key v =? k) l.
Proof.
  revert d. induction l as [|v l IH]; intro d; simpl.
  - now rewrite app_nil_r.
  - rewrite IH, dd_get_append.
    destruct (key v =? k); [now rewrite <- app_assoc | reflexivity].
Qed.

(** Looking a key up in the grouping gives the records of that key, in
    their order. *)
Lemma dd_get_group_by {V : Type} (key : V -> Z) (k : Z) (l : list V) :
  dd_get k (group_by key l) = filter (fun v => key v =? k) l.
Proof. unfold group_by. now rewrite dd_get_fold. Qed.

Lemma keys_append {V : Type} (k k' : Z) (v : V) (d : list (Z * list V)) :
  In k (keys (dd_append k' v d)) <-> k = k' \/ In k (keys d).
Proof.
  induction d as [|[k0 vs] d IH]; simpl.
  - intuition.
  - destruct (k0 =? k') eqn:E0; simpl.
    + apply Z.eqb_eq in E0. subst k0. intuition.
    + rewrite IH. intuition.
Qed.

Lemma keys_append_NoDup {V : Type} (k' : Z) (v : V) (d : list (Z * list V)) :
  NoDup (keys d) -> NoDup (keys (dd_append k' v d)).
Proof.
  induction d as [|[k0 vs] d IH]; simpl; intro H.
  - constructor; [intros [] | constructor].
  - inversion H as [|? ? Hnotin Hnodup]; subst.
    destruct (k0 =? k') eqn:E0; simpl.
    + now constructor.
    + constructor; [| now apply IH].
      rewrite keys_append. intros [-> | Hin]; [| contradiction].
      now rewrite Z.eqb_refl in E0.
Qed.

Lemma keys_group_by_NoDup {V : Type} (key : V -> Z) (l : list V) :
  NoDup (keys (group_by key l)).
Proof.
  unfold group_by.
  assert (H : forall d : list (Z * list V), NoDup (keys d) ->
            NoDup (keys (fold_left (fun d v => dd_append (key v) v d) l d))).
  { induction l as [|v l IH]; intros d Hd; simpl; [exact Hd |].
    apply IH. now apply keys_append_NoDup. }
  apply H. constructor.
Qed.

(** ** detect_ghost_workers *)

Lemma fold_max_base (f : AttendanceLog -> Z) (b b' : Z) (l : list AttendanceLog) :
  b <= b' ->
  fold_right (fun x latest => Z.max (f x) latest) b' l
  = Z.max b' (fold_right (fun x latest => Z.max (f x) latest) b l).
Proof.
  intro H. induction l as [|x l IH]; simpl; [lia |]. rewrite IH. lia.
Qed.

Lemma fold_max_ge_base (f : AttendanceLog -> Z) (b : Z) (l : list AttendanceLog) :
  b <= fold_right (fun x latest => Z.max (f x) latest) b l.
Proof. induction l as [|x l IH]; simpl; lia. Qed.

Lemma max_by_check_in_fold (a : AttendanceLog) (rest : list AttendanceLog) :
  fold_right (fun x latest => Z.max (check_in_time x) latest)
             (check_in_time a) rest
  = check_in_time (max_by_check_in a rest).
Proof.
  revert a. induction rest as [|x rest IH]; intro a; simpl; [reflexivity |].
  destruct (check_in_time a <? check_in_time x) eqn:E.
  - apply Z.ltb_lt in E. rewrite <- IH.
    rewrite (fold_max_base check_in_time (check_in_time a) (check_in_time x))
      by lia.
    reflexivity.
  - apply Z.ltb_ge in E. rewrite <- IH.
    pose proof (fold_max_ge_base check_in_time (check_in_time a) rest). lia.
Qed.

Lemma max_by_check_in_latest (a : AttendanceLog) (rest : list AttendanceLog) :
  most_recent (a :: rest) = Some (check_in_time (max_by_check_in a rest)).
Proof. unfold most_recent. now rewrite max_by_check_in_fold. Qed.

Lemma ghost_of_flagged (now : datetime) (days_threshold : Z)
  (logs : list AttendanceLog) (e : Employee) :
  exists since_registration last since_attendance,
    ghost_of now days_threshold (now - timedelta_of_days days_threshold)
             (group_by log_employee_id logs) e
    = if flagged now days_threshold logs e
      then [{| ghost_employee := e;
               reason := reason_for days_threshold logs e;
               days_since_registration := since_registration;
               last_attendance := last;
               days_since_attendance := since_attendance |}]
      else [].
Proof.
  unfold ghost_of, flagged, reason_for. rewrite dd_get_group_by.
  fold (logs_of (id e) logs).
  destruct (String.eqb (status e) active); simpl;
    [| now exists None, None, None].
  destruct (registration_date e <? now - timedelta_of_days days_threshold);
    simpl; [| now exists None, None, None].
  destruct (logs_of (id e) logs) as [|a rest] eqn:E.
  - simpl. eauto.
  - rewrite max_by_check_in_latest.
    destruct (check_in_time (max_by_check_in a rest)
              <? now - timedelta_of_days days_threshold); eauto.
    now exists None, None, None.
Qed.

(** The call returns the findings of the loop when the cutoff is a date,
    and ends with [OverflowError] otherwise. *)
Lemma detect_ghost_workers_cases now employees logs days_threshold :
  detect_ghost_workers now employees logs days_threshold
  = if cutoff_in_range now days_threshold
    then Py.Return
           (flat_map (ghost_of now days_threshold
                               (now - timedelta_of_days days_threshold)
                               (group_by log_employee_id logs))
                     employees)
    else Py.Raise Py.OverflowError.
Proof.
  unfold detect_ghost_workers, cutoff_in_range, timedelta_days, datetime_sub.
  destruct (Z.abs days_threshold <=? MAX_DELTA_DAYS); simpl; [| reflexivity].
  destruct (DATETIME_MIN <=? now - timedelta_of_days days_threshold); simpl;
    [| reflexivity].
  destruct (now - timedelta_of_days days_threshold <=? DATETIME_MAX); simpl;
    [| reflexivity].
  now rewrite (fold_left_app_flat_map
                 (ghost_of now days_threshold
                           (now - timedelta_of_days days_threshold)
                           (group_by log_employee_id logs))).
Qed.

Lemma detect_ghost_workers_flat_map now employees logs days_threshold ghosts :
  detect_ghost_workers now employees logs days_threshold = Py.Return ghosts ->
  cutoff_in_range now days_threshold = true /\
  ghosts = flat_map (ghost_of now days_threshold
                              (now - timedelta_of_days days_threshold)
                              (group_by log_employee_id logs))
                    employees.
Proof.
  rewrite detect_ghost_workers_cases.
  destruct (cutoff_in_range now days_threshold); [| discriminate].
  intro H. injection H as <-. now split.
Qed.

Lemma flagged_then (now : datetime) (days_threshold : Z)
  (logs : list AttendanceLog) (e : Employee) :
  flagged now days_threshold logs e = true ->
  status e = active /\
  registration_date e < now - timedelta_of_days days_threshold.
Proof.
  unfold flagged. intro H.
  apply Bool.andb_true_iff in H. destruct H as [H _].
  apply Bool.andb_true_iff in H. destruct H as [Hs Hr].
  split; [now apply String.eqb_eq | now apply Z.ltb_lt].
Qed.

(** C6, as amended.  When the cutoff now - days_threshold is a date that
    Python can hold, detect_ghost_workers returns, and flags exactly the
    employees that are active, were registered before the cutoff, and either
    have no attendance record (the reason is then 'No attendance records')
    or have their most recent attendance before the cutoff; so neither an
    employee registered within the window nor one that is not active is
    flagged.  For any other days_threshold the call flags nobody: it ends
    with OverflowError.  A subject registered 5 days ago without attendance
    is not flagged at the default of 30 days, one registered 40 days ago
    is. *)
Theorem C6_ghost_workers_flagged
  (now : datetime) (employees : list Employee) (logs : list AttendanceLog)
  (days_threshold : Z) :
  (cutoff_in_range now days_threshold = true ->
   exists ghosts,
     detect_ghost_workers now employees logs days_threshold = Py.Return ghosts /\
     map ghost_employee ghosts
     = filter (flagged now days_threshold logs) employees /\
     Forall (fun g => reason g
                      = reason_for days_threshold logs (ghost_employee g))
            ghosts /\
     Forall (fun g => status (ghost_employee g) = active /\
                      registration_date (ghost_employee g)
                      < now - timedelta_of_days days_threshold)
            ghosts) /\
  (cutoff_in_range now days_threshold = false ->
   detect_ghost_workers now employees logs days_threshold
   = Py.Raise Py.OverflowError) /\
  detect_ghost_workers wednesday_9am [registered_days_ago 5] [] 30
  = Py.Return [] /\
  (exists ghosts,
     detect_ghost_workers wednesday_9am [registered_days_ago 40] [] 30
     = Py.Return ghosts /\
     map (fun g => (ghost_employee g, reason g)) ghosts
     = [(registered_days_ago 40, NoAttendanceRecords)]).
Proof.
  split; [| split; [| split; [reflexivity | eexists; split; reflexivity]]].
  - intro Hrange. rewrite detect_ghost_workers_cases, Hrange.
    eexists. split; [reflexivity |].
    split; [| split].
    + induction employees as [|e l IH]; simpl; [reflexivity |].
      rewrite map_app, IH.
      destruct (ghost_of_flagged now days_threshold logs e) as (x & y & z & ->).
      now destruct (flagged now days_threshold logs e).
    + induction employees as [|e l IH]; simpl; [constructor |].
      apply Forall_app. split; [| exact IH].
      destruct (ghost_of_flagged now days_threshold logs e) as (x & y & z & ->).
      destruct (flagged now days_threshold logs e); repeat constructor.
    + induction employees as [|e l IH]; simpl; [constructor |].
      apply Forall_app. split; [| exact IH].
      destruct (ghost_of_flagged now days_threshold logs e) as (x & y & z & ->).
      destruct (flagged now days_threshold logs e) eqn:E; repeat constructor;
        simpl; now apply (flagged_then now days_threshold logs e).
  - intro Hrange. now rewrite detect_ghost_workers_cases, Hrange.
Qed.

Lemma C6_witness :
  cutoff_in_range wednesday_9am 30 = true /\
  exists ghosts,
    detect_ghost_workers wednesday_9am
      [registered_days_ago 5; registered_days_ago 40] [] 30
    = Py.Return ghosts /\
    map ghost_employee ghosts = [registered_days_ago 40].
Proof.
  split; [reflexivity |].
  destruct (C6_ghost_workers_flagged wednesday_9am
              [registered_days_ago 5; registered_days_ago 40] [] 30)
    as [Hin _].
  destruct (Hin eq_refl) as (ghosts & Hg & Hflag & _).
  exists ghosts. split; [exact Hg |]. rewrite Hflag. reflexivity.
Defined.

(** C6, as stated, fails for a days_threshold that puts the cutoff beyond
    the last date that Python can hold: with a threshold of -3000000 days
    the condition of the claim holds for an active employee registered 40
    days ago without attendance, yet nobody is flagged, the call ends with
    OverflowError. *)
Lemma C6_counterexample :
  flagged wednesday_9am (-3000000) [] (registered_days_ago 40) = true /\
  detect_ghost_workers wednesday_9am [registered_days_ago 40] [] (-3000000)
  = Py.Raise Py.OverflowError.
Proof. split; reflexivity. Qed.

(** ** detect_unusual_patterns *)

Lemma detect_unusual_patterns_flat_map (logs : list AttendanceLog) :
  detect_unusual_patterns logs = flat_map patterns_of logs.
Proof.
  unfold detect_unusual_patterns.
  now rewrite (fold_left_app_flat_map patterns_of).
Qed.

(** The three rules are applied to each record on its own; the third one
    reports a confidence below 70 that is not zero. *)
Lemma patterns_of_rules (log : AttendanceLog) (p : pattern_type) :
  In {| pattern := p; pattern_log := log |} (patterns_of log) <->
  match p with
  | weekend_checkin => 5 <= weekday (check_in_time log)
  | unusual_hour => hour (check_in_time log) < 5
  | low_confidence =>
      exists q, confidence_score log = Some q /\
                Qeq_bool q 0 = false /\ Qltb q 70 = true
  end.
Proof.
  unfold patterns_of. rewrite !in_app_iff.
  destruct (5 <=? weekday (check_in_time log)) eqn:Ew;
    destruct (hour (check_in_time log) <? 5) eqn:Eh;
    destruct (confidence_score log) as [q|] eqn:Ec; simpl;
    try (destruct (Qeq_bool q 0) eqn:Ez; destruct (Qltb q 70) eqn:El; simpl);
    try apply Z.leb_le in Ew; try apply Z.leb_gt in Ew;
    try apply Z.ltb_lt in Eh; try apply Z.ltb_ge in Eh;
    destruct p; split; intro H;
    repeat match goal with
           | H : _ \/ _ |- _ => destruct H
           | H : False |- _ => destruct H
           | H : exists _, _ |- _ => destruct H as (? & ? & ? & ?)
           | H : Some _ = Some _ |- _ => injection H as <-
           end;
    try discriminate; try congruence; try lia; eauto 6.
Qed.

(** C5, at the input on which the code departs from it.  A check-in on a
    Wednesday at 09:00 with confidence 0, which is below 70, produces no
    finding: the test [log.confidence_score and ...] takes the score 0.0 for
    an absent one. *)
Theorem C5_zero_confidence_not_reported :
  confidence_score failed_verification_log = Some 0%Q /\
  Qltb 0 70 = true /\
  detect_unusual_patterns [failed_verification_log] = [].
Proof. repeat split. Qed.

(** ** analyze_employee_risk *)

Lemma filter_filter_nil {A : Type} (f g : A -> bool) (l : list A) :
  filter f (filter g l) = [] <-> existsb (fun x => g x && f x) l = false.
Proof.
  induction l as [|x l IH]; simpl; [tauto |].
  destruct (g x); simpl; [| exact IH].
  destruct (f x); simpl; [| exact IH]. split; discriminate.
Qed.

Lemma pending_alert_match {T : Type} (e : Employee)
  (alerts : list DuplicateAlert) (yes no : T) :
  match filter (fun d => (employee_id_1 d =? id e) || (employee_id_2 d =? id e))
               alerts,
        filter (fun d => String.eqb (alert_status d) pending)
               (filter (fun d => (employee_id_1 d =? id e)
                                 || (employee_id_2 d =? id e)) alerts)
  with
  | _ :: _, _ :: _ => yes
  | _, _ => no
  end
  = if has_pending_alert e alerts then yes else no.
Proof.
  unfold has_pending_alert, involves.
  pose proof (filter_filter_nil
                (fun d => String.eqb (alert_status d) pending)
                (fun d => (employee_id_1 d =? id e) || (employee_id_2 d =? id e))
                alerts) as H.
  destruct (filter (fun d => (employee_id_1 d =? id e) || (employee_id_2 d =? id e))
                   alerts) as [|d ds] eqn:E1.
  - simpl in H. now rewrite (proj1 H eq_refl).
  - destruct (filter (fun d => String.eqb (alert_status d) pending) (d :: ds))
      as [|p ps] eqn:E2.
    + now rewrite (proj1 H eq_refl).
    + destruct (existsb _ alerts); [reflexivity |].
      discriminate (proj2 H eq_refl).
Qed.

Lemma no_attendance_forallb (e : Employee) (logs : list AttendanceLog) :
  Nat.eqb (List.length (filter (fun log => log_employee_id log =? id e) logs)) 0
  = forallb (fun log => negb (log_employee_id log =? id e)) logs.
Proof.
  induction logs as [|l logs IH]; simpl; [reflexivity |].
  destruct (log_employee_id l =? id e); simpl; [reflexivity | exact IH].
Qed.

Lemma unverified_existsb (e : Employee) (claims : list BenefitClaim) :
  Nat.ltb 0 (List.length
               (filter (fun c => negb (verified_by_biometric c))
                       (filter (fun c => claim_employee_id c =? id e) claims)))
  = has_unverified_claim e claims.
Proof.
  unfold has_unverified_claim.
  pose proof (filter_filter_nil
                (fun c => negb (verified_by_biometric c))
                (fun c => claim_employee_id c =? id e) claims) as H.
  destruct (filter _ (filter _ claims)) as [|c cs].
  - now rewrite (proj1 H eq_refl).
  - destruct (existsb _ claims); [reflexivity |].
    discriminate (proj2 H eq_refl).
Qed.

Lemma many_claims_ltb (e : Employee) (claims : list BenefitClaim) :
  Nat.ltb 5 (List.length (filter (fun c => claim_employee_id c =? id e) claims))
  = more_than_five_claims e claims.
Proof.
  unfold more_than_five_claims, claims_of.
  set (n := List.length _).
  destruct (Nat.ltb 5 n) eqn:E1, (5 <? Z.of_nat n) eqn:E2; try reflexivity.
  - apply Nat.ltb_lt in E1. apply Z.ltb_ge in E2. lia.
  - apply Nat.ltb_ge in E1. apply Z.ltb_lt in E2. lia.
Qed.

(** More than 7 whole days have elapsed exactly from the eighth day on. *)
Lemma over_seven_whole_days (delta : timedelta) :
  (7 <? days delta) = (8 * US_PER_DAY <=? delta).
Proof.
  unfold days, US_PER_DAY.
  destruct (8 * 86400000000 <=? delta) eqn:E;
    [apply Z.leb_le in E; apply Z.ltb_lt | apply Z.leb_gt in E; apply Z.ltb_ge].
  - apply (Z.lt_le_trans _ 8); [lia |]. apply Z.div_le_lower_bound; lia.
  - apply Z.lt_succ_r. apply Z.div_lt_upper_bound; lia.
Qed.

(** The score and the level, from the four signals. *)
Lemma analyze_employee_risk_signals now e logs claims alerts :
  let w := weighted_sum (has_pending_alert e alerts)
                        (absent_for_a_week now e logs)
                        (has_unverified_claim e claims)
                        (more_than_five_claims e claims) in
  risk_score (analyze_employee_risk now e logs claims alerts) = Z.min 100 w /\
  ra_risk_level (analyze_employee_risk now e logs claims alerts) = level_of w.
Proof.
  unfold analyze_employee_risk.
  rewrite pending_alert_match, no_attendance_forallb, unverified_existsb,
    many_claims_ltb.
  unfold absent_for_a_week.
  rewrite <- (over_seven_whole_days (now - registration_date e)).
  rewrite (Bool.andb_comm (String.eqb (status e) active)).
  destruct (has_pending_alert e alerts);
    destruct (forallb _ logs && String.eqb (status e) active)%bool;
    destruct (7 <? days (now - registration_date e));
    destruct (has_unverified_claim e claims);
    destruct (more_than_five_claims e claims);
    split; reflexivity.
Qed.

Lemma weighted_sum_bounds (a b c d : bool) : 0 <= weighted_sum a b c d <= 100.
Proof. destruct a, b, c, d; unfold weighted_sum; lia. Qed.

Lemma weighted_sum_monotone (a b c d a' b' c' d' : bool) :
  implies a a' -> implies b b' -> implies c c' -> implies d d' ->
  weighted_sum a b c d <= weighted_sum a' b' c' d'.
Proof.
  unfold implies. intros Ha Hb Hc Hd.
  destruct a, b, c, d;
    rewrite ?(Ha eq_refl), ?(Hb eq_refl), ?(Hc eq_refl), ?(Hd eq_refl);
    destruct a', b', c', d'; unfold weighted_sum; lia.
Qed.

Lemma level_of_bands (s : Z) :
  (level_of s = critical <-> 70 <= s) /\
  (level_of s = high <-> 40 <= s < 70) /\
  (level_of s = medium <-> 20 <= s < 40) /\
  (level_of s = low <-> s < 20).
Proof.
  unfold level_of.
  destruct (70 <=? s) eqn:E70; [apply Z.leb_le in E70 | apply Z.leb_gt in E70];
    (destruct (40 <=? s) eqn:E40; [apply Z.leb_le in E40 | apply Z.leb_gt in E40]);
    (destruct (20 <=? s) eqn:E20; [apply Z.leb_le in E20 | apply Z.leb_gt in E20]);
    repeat split; intros; try discriminate; try lia.
Qed.

Lemma has_pending_alert_more e alerts alert :
  implies (has_pending_alert e alerts) (has_pending_alert e (alerts ++ [alert])).
Proof.
  unfold implies, has_pending_alert. intro H.
  rewrite existsb_app, H. reflexivity.
Qed.

Lemma has_unverified_claim_more e claims claim :
  implies (has_unverified_claim e claims)
          (has_unverified_claim e (claims ++ [claim])).
Proof.
  unfold implies, has_unverified_claim. intro H.
  rewrite existsb_app, H. reflexivity.
Qed.

Lemma more_than_five_claims_more e claims claim :
  implies (more_than_five_claims e claims)
          (more_than_five_claims e (claims ++ [claim])).
Proof.
  unfold implies, more_than_five_claims, claims_of. intro H.
  apply Z.ltb_lt in H. apply Z.ltb_lt.
  rewrite filter_app, length_app. lia.
Qed.

Lemma implies_refl (b : bool) : implies b b.
Proof. now unfold implies. Qed.

(** C4, as amended.  The risk score is the sum of the weights of the
    signals that are triggered: 40 for at least one pending duplicate alert
    involving the employee, 30 for an active employee without attendance
    record registered at least 8 days ago (more than 7 whole days since
    registration), 20 for at least one unverified claim, 10 for more than 5
    claims; it is clamped to 100 and lies in [0, 100].  The level is
    critical from 70, high from 40, medium from 20, low below.  A further
    triggered signal, a further alert or a further claim never lowers the
    score.  The absence signal holds only for an employee registered more
    than 7 days ago, but not for each of them. *)
Theorem C4_risk_score_is_sum_of_weights
  (now : datetime) (e : Employee) (logs : list AttendanceLog)
  (claims : list BenefitClaim) (alerts : list DuplicateAlert) :
  risk_score (analyze_employee_risk now e logs claims alerts)
  = Z.min 100 (weighted_sum (has_pending_alert e alerts)
                            (absent_for_a_week now e logs)
                            (has_unverified_claim e claims)
                            (more_than_five_claims e claims)) /\
  0 <= risk_score (analyze_employee_risk now e logs claims alerts) <= 100 /\
  (ra_risk_level (analyze_employee_risk now e logs claims alerts) = critical
   <-> 70 <= risk_score (analyze_employee_risk now e logs claims alerts)) /\
  (ra_risk_level (analyze_employee_risk now e logs claims alerts) = high
   <-> 40 <= risk_score (analyze_employee_risk now e logs claims alerts) < 70) /\
  (ra_risk_level (analyze_employee_risk now e logs claims alerts) = medium
   <-> 20 <= risk_score (analyze_employee_risk now e logs claims alerts) < 40) /\
  (ra_risk_level (analyze_employee_risk now e logs claims alerts) = low
   <-> risk_score (analyze_employee_risk now e logs claims alerts) < 20) /\
  (forall a b c d a' b' c' d',
      implies a a' -> implies b b' -> implies c c' -> implies d d' ->
      Z.min 100 (weighted_sum a b c d) <= Z.min 100 (weighted_sum a' b' c' d')) /\
  (forall alert,
      risk_score (analyze_employee_risk now e logs claims alerts)
      <= risk_score (analyze_employee_risk now e logs claims (alerts ++ [alert]))) /\
  (forall claim,
      risk_score (analyze_employee_risk now e logs claims alerts)
      <= risk_score (analyze_employee_risk now e logs (claims ++ [claim]) alerts)) /\
  implies (absent_for_a_week now e logs) (absent_over_7_days now e logs).
Proof.
  destruct (analyze_employee_risk_signals now e logs claims alerts)
    as [Hscore Hlevel]. cbv zeta in Hscore, Hlevel.
  pose proof (weighted_sum_bounds (has_pending_alert e alerts)
                (absent_for_a_week now e logs)
                (has_unverified_claim e claims)
                (more_than_five_claims e claims)) as Hb.
  rewrite Hscore, Hlevel. rewrite (Z.min_r 100) by lia.
  split; [reflexivity |]. split; [exact Hb |].
  destruct (level_of_bands
              (weighted_sum (has_pending_alert e alerts)
                 (absent_for_a_week now e logs)
                 (has_unverified_claim e claims)
                 (more_than_five_claims e claims)))
    as (Hc & Hh & Hm & Hl).
  repeat (split; [assumption |]).
  split; [| split; [| split]].
  - intros a b c d a' b' c' d' Ha Hb' Hc' Hd.
    apply Z.min_le_compat_l. now apply weighted_sum_monotone.
  - intro alert.
    destruct (analyze_employee_risk_signals now e logs claims (alerts ++ [alert]))
      as [-> _]. cbv zeta.
    rewrite <- (Z.min_r 100 (weighted_sum (has_pending_alert e alerts) _ _ _))
      by lia.
    apply Z.min_le_compat_l. apply weighted_sum_monotone;
      try apply implies_refl. apply has_pending_alert_more.
  - intro claim.
    destruct (analyze_employee_risk_signals now e logs (claims ++ [claim]) alerts)
      as [-> _]. cbv zeta.
    rewrite <- (Z.min_r 100 (weighted_sum (has_pending_alert e alerts) _ _ _))
      by lia.
    apply Z.min_le_compat_l. apply weighted_sum_monotone;
      try apply implies_refl.
    + apply has_unverified_claim_more.
    + apply more_than_five_claims_more.
  - unfold implies, absent_for_a_week, absent_over_7_days, US_PER_DAY.
    intro H. apply Bool.andb_true_iff in H. destruct H as [-> H].
    apply Z.leb_le in H. simpl. apply Z.ltb_lt. lia.
Qed.

Lemma C4_witness :
  implies false true /\
  Z.min 100 (weighted_sum false true true false)
  <= Z.min 100 (weighted_sum true true true false) /\
  risk_score (analyze_employee_risk wednesday_9am (registered_days_ago 8)
                [] [] [])
  = 30 /\
  risk_score (analyze_employee_risk wednesday_9am (registered_days_ago 8)
                [] [] [])
  <= risk_score (analyze_employee_risk wednesday_9am (registered_days_ago 8)
                   [] [] ([] ++ [pending_alert_on 1])).
Proof.
  assert (H : implies false true) by (intro H; discriminate H).
  destruct (C4_risk_score_is_sum_of_weights wednesday_9am
              (registered_days_ago 8) [] [] [])
    as (Hscore & _ & _ & _ & _ & _ & Hmono & Halert & _).
  split; [exact H |]. split; [| split].
  - apply Hmono; [exact H | | |]; intro E; exact E.
  - rewrite Hscore. reflexivity.
  - apply Halert.
Defined.

(** C4, as stated, fails between the seventh and the eighth day: an active
    employee without attendance record, registered 7 days and 23 hours ago,
    was registered more than 7 days ago, so the weights of the claim sum to
    30; the score is 0 and the level low, for the whole days since the
    registration are 7. *)
Lemma C4_counterexample :
  absent_over_7_days wednesday_9am registered_7_days_23_hours_ago [] = true /\
  Z.min 100
    (weighted_sum
       (has_pending_alert registered_7_days_23_hours_ago [])
       (absent_over_7_days wednesday_9am registered_7_days_23_hours_ago [])
       (has_unverified_claim registered_7_days_23_hours_ago [])
       (more_than_five_claims registered_7_days_23_hours_ago []))
  = 30 /\
  risk_score
    (analyze_employee_risk wednesday_9am registered_7_days_23_hours_ago
       [] [] [])
  = 0 /\
  ra_risk_level
    (analyze_employee_risk wednesday_9am registered_7_days_23_hours_ago
       [] [] [])
  = low.
Proof. repeat split. Qed.

(** ** detect_duplicate_claims *)

Lemma insert_by_date_perm c (l : list BenefitClaim) :
  Permutation (insert_by_date c l) (c :: l).
Proof.
  induction l as [|x l IH]; simpl; [reflexivity |].
  destruct (claim_date c <? claim_date x); [reflexivity |].
  rewrite IH. apply perm_swap.
Qed.

Lemma insert_by_date_sorted c (l : list BenefitClaim) :
  StronglySorted by_date l -> StronglySorted by_date (insert_by_date c l).
Proof.
  induction 1 as [|x l Hl IH Hx]; simpl.
  - constructor; constructor.
  - destruct (claim_date c <? claim_date x) eqn:E.
    + apply Z.ltb_lt in E. constructor; [now constructor |].
      constructor; [unfold by_date; lia |].
      eapply Forall_impl; [| exact Hx]. unfold by_date. intros y Hy. lia.
    + apply Z.ltb_ge in E. constructor; [exact IH |].
      eapply Permutation_Forall; [symmetry; apply insert_by_date_perm |].
      constructor; [exact E | exact Hx].
Qed.

Lemma sorted_by_date_perm (l : list BenefitClaim) :
  Permutation (sorted_by_date l) l.
Proof.
  unfold sorted_by_date.
  assert (H : forall acc, Permutation
            (fold_left (fun sorted c => insert_by_date c sorted) l acc)
            (acc ++ l)).
  { induction l as [|c l IH]; intro acc; simpl.
    - now rewrite app_nil_r.
    - rewrite IH, insert_by_date_perm. simpl. apply Permutation_middle. }
  exact (H []).
Qed.

Lemma sorted_by_date_sorted (l : list BenefitClaim) :
  StronglySorted by_date (sorted_by_date l).
Proof.
  unfold sorted_by_date.
  assert (H : forall acc, StronglySorted by_date acc ->
            StronglySorted by_date
              (fold_left (fun sorted c => insert_by_date c sorted) l acc)).
  { induction l as [|c l IH]; intros acc Hacc; simpl; [exact Hacc |].
    apply IH. now apply insert_by_date_sorted. }
  apply H. constructor.
Qed.

(** The loop over indices visits the adjacent pairs. *)

Lemma check_pair_shift window k a (l : list BenefitClaim) (i : nat) :
  check_pair window k (a :: l) (S i) = check_pair window k l i.
Proof. reflexivity. Qed.

Lemma flat_map_map {A B C : Type} (f : B -> list C) (g : A -> B) (l : list A) :
  flat_map f (map g l) = flat_map (fun x => f (g x)) l.
Proof.
  induction l as [|x l IH]; simpl; [reflexivity | now rewrite IH].
Qed.

Lemma check_pairs_adjacent window k (l : list BenefitClaim) :
  flat_map (check_pair window k l) (seq 0 (List.length l - 1))
  = map (finding window k) (filter (within_window window) (adjacent_pairs l)).
Proof.
  induction l as [|a l IH]; [reflexivity |].
  destruct l as [|b r]; [reflexivity |].
  change (List.length (a :: b :: r) - 1)%nat with (S (List.length r)).
  change (List.length (b :: r) - 1)%nat with (List.length r - 0)%nat in IH.
  rewrite Nat.sub_0_r in IH.
  change (seq 0 (S (List.length r))) with (0%nat :: seq 1 (List.length r)).
  rewrite <- seq_shift.
  change (adjacent_pairs (a :: b :: r)) with ((a, b) :: adjacent_pairs (b :: r)).
  cbn [flat_map filter]. rewrite flat_map_map.
  rewrite (flat_map_ext _ (check_pair window k (b :: r)))
    by (intro i; apply check_pair_shift).
  rewrite IH.
  unfold check_pair at 1, within_window at 2, finding at 2. simpl.
  now destruct (Qltb _ window).
Qed.

Lemma claims_of_group_findings window k (claims : list BenefitClaim) :
  claims_of_group window (k, claims)
  = map (finding window k)
        (filter (within_window window) (adjacent_pairs (sorted_by_date claims))).
Proof.
  unfold claims_of_group. simpl.
  rewrite (fold_left_app_flat_map (check_pair window k (sorted_by_date claims))).
  apply check_pairs_adjacent.
Qed.

Lemma detect_duplicate_claims_flat_map claims window :
  detect_duplicate_claims claims window
  = flat_map (claims_of_group window) (group_by claim_employee_id claims).
Proof.
  unfold detect_duplicate_claims.
  now rewrite (fold_left_app_flat_map (claims_of_group window)).
Qed.

Lemma dd_get_in {V : Type} (k : Z) (vs : list V) (d : list (Z * list V)) :
  NoDup (keys d) -> In (k, vs) d -> dd_get k d = vs.
Proof.
  induction d as [|[k0 vs0] d IH]; simpl; intros Hnd Hin; [contradiction |].
  inversion Hnd as [|? ? Hnotin Hnd']; subst.
  destruct Hin as [E | Hin].
  - injection E as -> ->. now rewrite Z.eqb_refl.
  - destruct (k0 =? k) eqn:E0; [| now apply IH].
    apply Z.eqb_eq in E0. subst k0. elim Hnotin.
    change k with (fst (k, vs)). now apply in_map.
Qed.

Lemma filter_findings_same window k (pairs : list (BenefitClaim * BenefitClaim)) :
  filter (fun f => sc_employee_id f =? k) (map (finding window k) pairs)
  = map (finding window k) pairs.
Proof.
  induction pairs as [|p l IH]; simpl; [reflexivity |].
  now rewrite Z.eqb_refl, IH.
Qed.

Lemma filter_findings_other window k k'
  (pairs : list (BenefitClaim * BenefitClaim)) :
  k' <> k ->
  filter (fun f => sc_employee_id f =? k) (map (finding window k') pairs) = [].
Proof.
  intro H. apply Z.eqb_neq in H.
  induction pairs as [|p l IH]; simpl; [reflexivity |]. now rewrite H.
Qed.

Lemma filter_groups window k (d : list (Z * list BenefitClaim)) :
  NoDup (keys d) ->
  filter (fun f => sc_employee_id f =? k) (flat_map (claims_of_group window) d)
  = claims_of_group window (k, dd_get k d).
Proof.
  induction d as [|[k0 vs] d IH]; intro Hnd; [reflexivity |].
  inversion Hnd as [|? ? Hnotin Hnd']; subst.
  cbn [flat_map]. rewrite filter_app, (IH Hnd'). cbn [dd_get].
  destruct (k0 =? k) eqn:E.
  - apply Z.eqb_eq in E. subst k0.
    assert (Hnone : dd_get k d = []).
    { clear -Hnotin. induction d as [|[k1 vs1] d IH]; simpl; [reflexivity |].
      destruct (k1 =? k) eqn:E1.
      - apply Z.eqb_eq in E1. subst k1. elim Hnotin. now left.
      - apply IH. intro H. apply Hnotin. now right. }
    rewrite Hnone, !claims_of_group_findings, filter_findings_same.
    now rewrite app_nil_r.
  - apply Z.eqb_neq in E.
    now rewrite (claims_of_group_findings window k0), filter_findings_other.
Qed.

Lemma groups_are_claims_of (claims : list BenefitClaim) (k : Z)
  (vs : list BenefitClaim) :
  In (k, vs) (group_by claim_employee_id claims) -> vs = claims_of k claims.
Proof.
  intro H. unfold claims_of. rewrite <- dd_get_group_by.
  symmetry. apply dd_get_in; [apply keys_group_by_NoDup | exact H].
Qed.

(** C7.  detect_duplicate_claims groups the claims by employee, sorts
    each group by claim date, earliest first, and emits exactly one finding
    for each adjacent pair of a group whose gap is strictly under the
    window, a chain of three close claims giving two findings.  Under the
    window of 24 hours two claims 23 hours apart are flagged and two claims
    25 hours apart are not. *)
Theorem C7_duplicate_claims_adjacent_pairs
  (claims : list BenefitClaim) (window : Q) :
  detect_duplicate_claims claims window
  = flat_map (fun k => findings_for window k claims)
             (keys (group_by claim_employee_id claims)) /\
  (forall k,
      filter (fun f => sc_employee_id f =? k)
             (detect_duplicate_claims claims window)
      = findings_for window k claims) /\
  (forall k,
      Permutation (sorted_by_date (claims_of k claims)) (claims_of k claims) /\
      StronglySorted by_date (sorted_by_date (claims_of k claims))) /\
  detect_duplicate_claims [claim_at 1 1 0; claim_at 2 1 23]
    default_time_window_hours
  = [finding 24 1 (claim_at 1 1 0, claim_at 2 1 23)] /\
  detect_duplicate_claims [claim_at 1 1 0; claim_at 2 1 25]
    default_time_window_hours
  = [] /\
  detect_duplicate_claims [claim_at 3 1 2; claim_at 1 1 0; claim_at 2 1 1]
    default_time_window_hours
  = [finding 24 1 (claim_at 1 1 0, claim_at 2 1 1);
     finding 24 1 (claim_at 2 1 1, claim_at 3 1 2)].
Proof.
  split; [| split; [| split; [| repeat split; vm_compute; reflexivity]]].
  - rewrite detect_duplicate_claims_flat_map. unfold keys.
    rewrite flat_map_map. apply flat_map_agree.
    intros [k vs] Hin. simpl.
    rewrite (groups_are_claims_of claims k vs Hin).
    apply claims_of_group_findings.
  - intro k. rewrite detect_duplicate_claims_flat_map.
    rewrite filter_groups by apply keys_group_by_NoDup.
    rewrite dd_get_group_by. apply claims_of_group_findings.
  - intro k. split; [apply sorted_by_date_perm | apply sorted_by_date_sorted].
Qed.

End FraudProps.

(* ================================================================== *)
(** * Further properties of the biometric matcher *)
(* ================================================================== *)

Module EditDistanceProps.
Import Py Matcher EditDistance.

Local Open Scope nat_scope.

Lemma lev_nil_l (y : list ascii) : lev [] y = List.length y.
Proof. destruct y; reflexivity. Qed.

Lemma lev_nil_r (x : list ascii) : lev x [] = List.length x.
Proof. destruct x; reflexivity. Qed.

Lemma lev_cons (c d : ascii) (x y : list ascii) :
  lev (c :: x) (d :: y)
  = Nat.min (lev x (d :: y) + 1)
            (Nat.min (lev (c :: x) y + 1)
                     (lev x y + if Ascii.eqb c d then 0 else 1)).
Proof. reflexivity. Qed.

Lemma lev_sym (x y : list ascii) : lev x y = lev y x.
Proof.
  revert y. induction x as [|c x IHx]; intro y.
  - now rewrite lev_nil_l, lev_nil_r.
  - induction y as [|d y IHy].
    + now rewrite lev_nil_l, lev_nil_r.
    + rewrite !lev_cons, IHy, (IHx (d :: y)), (IHx y), (Ascii.eqb_sym c d).
      lia.
Qed.

Lemma lev_upper (x y : list ascii) :
  lev x y <= Nat.max (List.length x) (List.length y).
Proof.
  revert y. induction x as [|c x IHx]; intro y.
  - rewrite lev_nil_l. lia.
  - induction y as [|d y IHy].
    + rewrite lev_nil_r. lia.
    + rewrite lev_cons. specialize (IHx y). simpl List.length.
      destruct (Ascii.eqb c d); lia.
Qed.

Lemma lev_lower (x y : list ascii) :
  List.length x - List.length y <= lev x y /\
  List.length y - List.length x <= lev x y.
Proof.
  revert y. induction x as [|c x IHx]; intro y.
  - rewrite lev_nil_l. simpl. lia.
  - induction y as [|d y IHy].
    + rewrite lev_nil_r. simpl. lia.
    + rewrite lev_cons.
      pose proof (IHx y). pose proof (IHx (d :: y)). simpl List.length in *.
      destruct (Ascii.eqb c d); lia.
Qed.

Lemma lev_zero (x y : list ascii) : lev x y = 0 <-> x = y.
Proof.
  revert y. induction x as [|c x IHx]; intro y.
  - rewrite lev_nil_l. destruct y; simpl; split; intro H;
      try reflexivity; discriminate.
  - induction y as [|d y IHy].
    + rewrite lev_nil_r. simpl. split; intro H; discriminate.
    + rewrite lev_cons. split.
      * intro H. destruct (Ascii.eqb c d) eqn:E.
        -- apply Ascii.eqb_eq in E. subst d.
           assert (H0 : lev x y = 0) by lia.
           apply IHx in H0. now subst.
        -- lia.
      * intro H. injection H as -> ->.
        rewrite Ascii.eqb_refl. rewrite (proj2 (IHx y) eq_refl). lia.
Qed.

(** The matrix holds the edit distances of the prefixes. *)

Lemma fill_row_cells (c : ascii) (x rq : list ascii) (rest : string) :
  fill_row c rest (cells x rq rest) (lev x rq) (lev (c :: x) rq)
  = cells (c :: x) rq rest.
Proof.
  revert rq. induction rest as [|d r IH]; intro rq; [reflexivity |].
  cbn [cells fill_row]. rewrite IH. reflexivity.
Qed.

Lemma next_row_row_of (c : ascii) (x : list ascii) (b : string) :
  next_row c b (row_of x b) = row_of (c :: x) b.
Proof.
  unfold row_of, next_row.
  replace (lev x [] + 1) with (lev (c :: x) [])
    by (rewrite !lev_nil_r; simpl; lia).
  now rewrite fill_row_cells.
Qed.

Lemma last_row_row_of (a b : string) (x : list ascii) :
  last_row a b (row_of x b) = row_of (rev_chars a x) b.
Proof.
  revert x. induction a as [|c a IH]; intro x; cbn [last_row rev_chars];
    [reflexivity |].
  now rewrite next_row_row_of, IH.
Qed.

Lemma cells_nil (rq : list ascii) (rest : string) :
  cells [] rq rest = seq (S (List.length rq)) (String.length rest).
Proof.
  revert rq. induction rest as [|d r IH]; intro rq; simpl; [reflexivity |].
  now rewrite IH.
Qed.

Lemma first_row (b : string) : seq 0 (S (String.length b)) = row_of [] b.
Proof. unfold row_of. now rewrite cells_nil. Qed.

Lemma last_cons_default {A : Type} (l : list A) (a d : A) :
  last (a :: l) d = last l a.
Proof.
  revert a d. induction l as [|b l IH]; intros a d; [reflexivity |].
  change (last (a :: b :: l) d) with (last (b :: l) d).
  now rewrite !IH.
Qed.

Lemma last_cells (x rq : list ascii) (rest : string) :
  last (cells x rq rest) (lev x rq) = lev x (rev_chars rest rq).
Proof.
  revert rq. induction rest as [|d r IH]; intro rq; [reflexivity |].
  cbn [cells rev_chars]. rewrite last_cons_default. apply IH.
Qed.

Lemma last_row_of (x : list ascii) (b : string) :
  last (row_of x b) 0 = lev x (rev_chars b []).
Proof. unfold row_of. rewrite last_cons_default. apply last_cells. Qed.

(** The value computed by the matrix is the edit distance. *)
Lemma levenshtein_lev (a b : string) :
  levenshtein a b = lev (rev_chars a []) (rev_chars b []).
Proof.
  unfold levenshtein. now rewrite first_row, last_row_row_of, last_row_of.
Qed.

Lemma rev_chars_length (s : string) (acc : list ascii) :
  List.length (rev_chars s acc) = String.length s + List.length acc.
Proof.
  revert acc. induction s as [|c s IH]; intro acc; simpl; [reflexivity |].
  rewrite IH. simpl. lia.
Qed.

Lemma rev_chars_inj (s t : string) (acc : list ascii) :
  rev_chars s acc = rev_chars t acc -> s = t.
Proof.
  assert (H : forall s t a1 a2,
             List.length a1 = List.length a2 ->
             rev_chars s a1 = rev_chars t a2 -> s = t /\ a1 = a2).
  { clear. induction s as [|c s IH]; intros t a1 a2 Hlen Heq.
    - destruct t as [|d t]; [now split |].
      simpl in Heq. assert (Hl := f_equal (@List.length ascii) Heq).
      rewrite rev_chars_length in Hl. simpl in Hl. lia.
    - destruct t as [|d t].
      + simpl in Heq. assert (Hl := f_equal (@List.length ascii) Heq).
        rewrite rev_chars_length in Hl. simpl in Hl. lia.
      + simpl in Heq. apply IH in Heq; [| simpl; lia].
        destruct Heq as [-> Hc]. injection Hc as -> ->. now split. }
  intro Heq. now apply (H s t acc acc).
Qed.

Lemma levenshtein_sym (a b : string) : levenshtein a b = levenshtein b a.
Proof. rewrite !levenshtein_lev. apply lev_sym. Qed.

Lemma levenshtein_upper (a b : string) :
  levenshtein a b <= Nat.max (String.length a) (String.length b).
Proof.
  rewrite levenshtein_lev.
  pose proof (lev_upper (rev_chars a []) (rev_chars b [])) as H.
  rewrite !rev_chars_length in H. simpl in H. now rewrite !Nat.add_0_r in H.
Qed.

Lemma levenshtein_lower (a b : string) :
  String.length a - String.length b <= levenshtein a b /\
  String.length b - String.length a <= levenshtein a b.
Proof.
  rewrite levenshtein_lev.
  pose proof (lev_lower (rev_chars a []) (rev_chars b [])) as H.
  rewrite !rev_chars_length in H. simpl in H. now rewrite !Nat.add_0_r in H.
Qed.

Lemma levenshtein_zero (a b : string) : levenshtein a b = 0 <-> a = b.
Proof.
  rewrite levenshtein_lev, lev_zero. split.
  - apply rev_chars_inj.
  - now intros ->.
Qed.

End EditDistanceProps.

Module MatcherExtra.
Import Py Matcher Spec EditDistanceProps MatcherProps.

Local Open Scope R_scope.

(** ** calculate_name_similarity *)

Lemma percent_range (n m : Z) :
  (0 <= n <= m)%Z -> (0 < m)%Z -> 0 <= IZR n / IZR m * 100 <= 100.
Proof.
  intros [H0 Hn] Hm.
  apply IZR_le in H0, Hn. apply IZR_lt in Hm.
  assert (Hi : 0 < / IZR m) by now apply Rinv_0_lt_compat.
  assert (H1 : 0 <= IZR n * / IZR m) by (apply Rmult_le_pos; lra).
  assert (H2 : IZR n * / IZR m <= IZR m * / IZR m)
    by (apply Rmult_le_compat_r; lra).
  rewrite Rinv_r in H2 by lra. unfold Rdiv. lra.
Qed.

Lemma percent_below (n m k : Z) :
  (0 < m)%Z -> (100 * n <= k * m)%Z -> IZR n / IZR m * 100 <= IZR k.
Proof.
  intros Hm H. apply IZR_le in H. rewrite !mult_IZR in H.
  apply IZR_lt in Hm.
  assert (Hi : 0 < / IZR m) by now apply Rinv_0_lt_compat.
  assert (H1 : 100 * IZR n * / IZR m <= IZR k * IZR m * / IZR m)
    by (apply Rmult_le_compat_r; lra).
  replace (IZR k * IZR m * / IZR m) with (IZR k) in H1 by (field; lra).
  unfold Rdiv. lra.
Qed.

Lemma percent_strictly_below (n m : Z) :
  (0 < m)%Z -> (n < m)%Z -> IZR n / IZR m * 100 < 100.
Proof.
  intros Hm H. apply IZR_lt in H, Hm.
  assert (Hi : 0 < / IZR m) by now apply Rinv_0_lt_compat.
  assert (H1 : IZR n * / IZR m < IZR m * / IZR m)
    by (apply Rmult_lt_compat_r; lra).
  rewrite Rinv_r in H1 by lra. unfold Rdiv. lra.
Qed.

(** The three cases of the function. *)
Lemma name_similarity_cases (a b : string) :
  (normalize a = normalize b /\ calculate_name_similarity a b = 100) \/
  (normalize a <> normalize b /\
   (normalize a = EmptyString \/ normalize b = EmptyString) /\
   calculate_name_similarity a b = 0) \/
  (normalize a <> normalize b /\
   (0 < Nat.max (String.length (normalize a)) (String.length (normalize b)))%nat /\
   calculate_name_similarity a b
   = IZR (Z.of_nat (Nat.max (String.length (normalize a))
                            (String.length (normalize b)))
          - Z.of_nat (levenshtein (normalize a) (normalize b)))
     / IZR (Z.of_nat (Nat.max (String.length (normalize a))
                              (String.length (normalize b))))
     * 100).
Proof.
  destruct (String.eqb (normalize a) (normalize b)) eqn:E.
  - left. apply String.eqb_eq in E. split; [exact E |].
    now apply name_similarity_equal.
  - right. assert (Hneq := E). apply String.eqb_neq in Hneq.
    destruct (orb (Nat.eqb (String.length (normalize a)) 0)
                  (Nat.eqb (String.length (normalize b)) 0)) eqn:El.
    + left. split; [exact Hneq |].
      assert (He : normalize a = EmptyString \/ normalize b = EmptyString).
      { apply Bool.orb_true_iff in El.
        destruct El as [H | H]; apply length_zero_empty in H; auto. }
      split; [exact He |]. now apply name_similarity_one_empty.
    + right. split; [exact Hneq |]. split.
      * apply Bool.orb_false_iff in El. destruct El as [H _].
        apply Nat.eqb_neq in H. lia.
      * now apply name_similarity_value.
Qed.

(** X1.  The name similarity does not depend on the order of the two
    names. *)
Theorem X1_name_similarity_symmetric (a b : string) :
  calculate_name_similarity a b = calculate_name_similarity b a.
Proof.
  unfold calculate_name_similarity.
  rewrite (String.eqb_sym (normalize a) (normalize b)).
  rewrite (Bool.orb_comm (Nat.eqb (String.length (normalize a)) 0)).
  rewrite (Nat.max_comm (String.length (normalize a))).
  now rewrite (levenshtein_sym (normalize a)).
Qed.

Lemma name_similarity_bounds (a b : string) :
  0 <= calculate_name_similarity a b <= 100.
Proof.
  destruct (name_similarity_cases a b)
    as [[_ ->] | [(_ & _ & ->) | (_ & Hpos & ->)]]; try lra.
  pose proof (levenshtein_upper (normalize a) (normalize b)).
  apply percent_range; lia.
Qed.

(** X2.  The name similarity is a percentage, between 0 and 100, and it is
    100 only for two names that are equal once lower-cased and trimmed. *)
Theorem X2_name_similarity_range_and_maximum (a b : string) :
  0 <= calculate_name_similarity a b <= 100 /\
  (calculate_name_similarity a b = 100 <-> normalize a = normalize b).
Proof.
  split; [apply name_similarity_bounds |].
  split; [| apply name_similarity_equal].
  destruct (name_similarity_cases a b)
    as [[H _] | [(_ & _ & ->) | (Hneq & Hpos & ->)]]; [easy | lra |].
  intro H. exfalso.
  assert (Hd : levenshtein (normalize a) (normalize b) <> 0%nat)
    by (rewrite levenshtein_zero; exact Hneq).
  assert (Hlt : IZR (Z.of_nat (Nat.max (String.length (normalize a))
                                       (String.length (normalize b)))
                     - Z.of_nat (levenshtein (normalize a) (normalize b)))
                / IZR (Z.of_nat (Nat.max (String.length (normalize a))
                                         (String.length (normalize b))))
                * 100 < 100)
    by (apply percent_strictly_below; lia).
  lra.
Qed.

(** X3.  Two names whose lengths, once lower-cased and trimmed, are such
    that the shorter one has at most four fifths of the length of the longer
    one never reach the name threshold of 80. *)
Theorem X3_name_similarity_length_gap (a b : string) :
  (0 < Nat.max (String.length (normalize a)) (String.length (normalize b)))%nat ->
  (5 * Nat.min (String.length (normalize a)) (String.length (normalize b))
   <= 4 * Nat.max (String.length (normalize a)) (String.length (normalize b)))%nat ->
  calculate_name_similarity a b <= 80.
Proof.
  intros Hmax Hgap.
  destruct (name_similarity_cases a b)
    as [[H _] | [(_ & _ & ->) | (Hneq & Hpos & ->)]]; [| lra |].
  - rewrite H in Hmax, Hgap. lia.
  - pose proof (levenshtein_lower (normalize a) (normalize b)) as [H1 H2].
    change 80 with (IZR 80). apply percent_below; lia.
Qed.

Lemma X3_witness :
  calculate_name_similarity "Ann" "  Anna-Maria " <= 80.
Proof.
  apply (X3_name_similarity_length_gap "Ann" "  Anna-Maria ");
    vm_compute; lia.
Defined.

(** ** calculate_image_similarity *)

Lemma max0_range (d : R) : 0 <= d -> 0 <= max0 ((1 - d) * 100) <= 100.
Proof. intro H. unfold max0. destruct (Rlt_dec 0 ((1 - d) * 100)); lra. Qed.

Lemma similarity_of_norm_range (d : list float64) :
  0 <= similarity_of_distance (norm d) <= 100.
Proof.
  unfold norm. destruct (sum_squares d); simpl; try lra.
  apply max0_range, sqrt_pos.
Qed.

Lemma encoding_similarity_range load (t1 t2 : string) (r : R) :
  encoding_similarity load t1 t2 = Return r -> 0 <= r <= 100.
Proof.
  unfold encoding_similarity.
  destruct (load t1) as [v1|]; [| discriminate].
  destruct (load t2) as [v2|]; [| discriminate]. simpl.
  destruct (np_sub v1 v2) as [d|]; [| discriminate]. simpl.
  intro H. injection H as <-. apply similarity_of_norm_range.
Qed.

Lemma image_similarity_in_range face load (t1 t2 : option string) :
  exists r, calculate_image_similarity face load t1 t2 = Return r /\
            0 <= r <= 100.
Proof.
  unfold calculate_image_similarity.
  destruct (negb (truthy_str t1) || negb (truthy_str t2))%bool;
    [exists 0; split; [reflexivity | lra] |].
  destruct t1 as [s1|], t2 as [s2|];
    try (exists 0; split; [reflexivity | lra]).
  destruct face.
  - destruct (encoding_similarity load s1 s2) as [r|e] eqn:E; simpl.
    + exists r. split; [reflexivity |].
      now apply (encoding_similarity_range load s1 s2).
    + exists 0. split; [reflexivity | lra].
  - destruct (String.eqb s1 s2); simpl;
      [exists 100 | exists 0]; (split; [reflexivity | lra]).
Qed.

(** X4.  Whatever the mode and the two templates, the similarity that
    calculate_image_similarity returns lies between 0 and 100; in the hash
    mode it is 0 or 100, and 100 only for two equal non-empty templates. *)
Theorem X4_image_similarity_range face load (t1 t2 : option string) :
  exists r, calculate_image_similarity face load t1 t2 = Return r /\
            0 <= r <= 100 /\
            (face = false ->
             (r = 100 /\ t1 = t2 /\ truthy_str t1 = true) \/ r = 0).
Proof.
  destruct (image_similarity_in_range face load t1 t2) as (r & Hr & Hrange).
  exists r. split; [exact Hr |]. split; [exact Hrange |].
  intros ->. revert Hr. unfold calculate_image_similarity.
  destruct (truthy_str t1) eqn:E1, (truthy_str t2) eqn:E2; simpl;
    try (intro H; injection H as <-; now right).
  destruct t1 as [s1|], t2 as [s2|]; try discriminate.
  destruct (String.eqb s1 s2) eqn:E; simpl; intro H; injection H as <-.
  - left. apply String.eqb_eq in E. now subst.
  - now right.
Qed.

Lemma add_square_fsub_sym (x y : float64) (acc : magnitude) :
  add_square (fsub x y) acc = add_square (fsub y x) acc.
Proof.
  destruct x, y, acc; simpl; try reflexivity. f_equal. ring.
Qed.

Lemma sum_squares_zip_sub_sym (v w : list float64) :
  sum_squares (zip_sub v w) = sum_squares (zip_sub w v).
Proof.
  unfold sum_squares.
  revert w. induction v as [|x v IH]; intros [|y w]; simpl; try reflexivity.
  rewrite (IH w). apply add_square_fsub_sym.
Qed.

Lemma sum_squares_broadcast (x : float64) (w : list float64) :
  sum_squares (map (fun y => fsub x y) w)
  = sum_squares (map (fun y => fsub y x) w).
Proof.
  unfold sum_squares.
  induction w as [|y w IH]; simpl; [reflexivity |].
  rewrite IH. apply add_square_fsub_sym.
Qed.

(** Swapping the operands of the subtraction keeps the shapes compatible
    or not, and keeps the norm. *)
Lemma np_sub_swap (v w : list float64) :
  match np_sub v w, np_sub w v with
  | Return d, Return d' => norm d = norm d'
  | Raise _, Raise _ => True
  | _, _ => False
  end.
Proof.
  unfold np_sub. rewrite (Nat.eqb_sym (List.length w)).
  destruct (Nat.eqb (List.length v) (List.length w)) eqn:E.
  - unfold norm. now rewrite sum_squares_zip_sub_sym.
  - apply Nat.eqb_neq in E. unfold norm.
    destruct v as [|x [|x' v]], w as [|y [|y' w]]; simpl in E;
      try lia; cbv beta iota; try exact I; try reflexivity.
    + now rewrite sum_squares_broadcast.
    + now rewrite <- sum_squares_broadcast.
Qed.

Lemma encoding_similarity_swap load (t1 t2 : string) :
  try_except (encoding_similarity load t1 t2) (fun _ => Return 0)
  = try_except (encoding_similarity load t2 t1) (fun _ => Return 0).
Proof.
  unfold encoding_similarity.
  destruct (load t1) as [v1|], (load t2) as [v2|]; simpl; try reflexivity.
  pose proof (np_sub_swap v1 v2) as H.
  destruct (np_sub v1 v2), (np_sub v2 v1); simpl; try contradiction;
    [now rewrite H | reflexivity].
Qed.

(** X5.  calculate_image_similarity does not depend on the order of the
    two templates. *)
Theorem X5_image_similarity_symmetric face load (t1 t2 : option string) :
  calculate_image_similarity face load t1 t2
  = calculate_image_similarity face load t2 t1.
Proof.
  unfold calculate_image_similarity.
  rewrite (Bool.orb_comm (negb (truthy_str t1))).
  destruct (negb (truthy_str t2) || negb (truthy_str t1))%bool; [reflexivity |].
  destruct t1 as [s1|], t2 as [s2|]; try reflexivity.
  destruct face.
  - now rewrite encoding_similarity_swap.
  - now rewrite (String.eqb_sym s1 s2).
Qed.

(** ** detect_duplicate *)

Section DuplicatesExtra.

Variable face : bool.
Variable load : string -> outcome (list float64).

Local Abbreviation hits := (Spec.hits face load).
Local Abbreviation report := (Spec.report face load).

Lemma image_similarity_value_range (t1 t2 : option string) :
  0 <= image_similarity face load t1 t2 <= 100.
Proof.
  unfold image_similarity.
  destruct (image_similarity_in_range face load t1 t2) as (r & -> & H).
  exact H.
Qed.

Lemma hits_at_most_100 new existing :
  Forall (fun h => snd h <= 100) (hits new existing).
Proof.
  unfold Spec.hits. repeat (apply Forall_app; split).
  - unfold national_id_hit.
    destruct (national_id new), (national_id existing); try constructor.
    match goal with |- context [if ?c then _ else _] => destruct c end;
      constructor; [simpl; lra | constructor].
  - unfold name_hit.
    destruct (name new) as [a|], (name existing) as [b|]; try constructor.
    match goal with |- context [if ?c then _ else _] => destruct c end;
      try constructor.
    destruct (Rlt_dec 80 (calculate_name_similarity a b)); constructor;
      [| constructor].
    simpl. apply name_similarity_bounds.
  - unfold biometric_hit.
    destruct (biometric_hash new) as [a|], (biometric_hash existing) as [b|];
      try constructor.
    match goal with |- context [if ?c then _ else _] => destruct c end;
      try constructor.
    destruct (Rlt_dec (threshold face) (image_similarity face load (Some a) (Some b)));
      constructor; [| constructor].
    simpl. apply image_similarity_value_range.
Qed.

Lemma sum_below (l : list R) :
  Forall (fun x => x <= 100) l ->
  fold_right Rplus 0 l <= 100 * INR (List.length l).
Proof.
  induction 1 as [|x l Hx Hl IH]; [simpl; lra |].
  change (List.length (x :: l)) with (S (List.length l)).
  rewrite S_INR. simpl. lra.
Qed.

Lemma mean_below (l : list R) :
  l <> [] -> Forall (fun x => x <= 100) l -> mean l <= 100.
Proof.
  intros Hne Hall. unfold mean.
  set (n := INR (List.length l)).
  assert (Hn : 0 < n).
  { apply lt_0_INR. destruct l; [congruence | simpl; lia]. }
  replace 100 with (100 * n / n) by (field; lra).
  unfold Rdiv. apply Rmult_le_compat_r;
    [left; now apply Rinv_0_lt_compat | now apply sum_below].
Qed.

(** The names of the factors, in the order in which they are tested. *)
Lemma hits_factor_names new existing :
  exists a b c : bool,
    map fst (hits new existing)
    = (if a then ["national_id"%string] else [])
      ++ (if b then ["name"%string] else [])
      ++ (if c then ["facial_recognition"%string] else []).
Proof.
  unfold Spec.hits. rewrite !map_app.
  assert (Ha : exists a : bool, map fst (national_id_hit new existing)
                                = if a then ["national_id"%string] else []).
  { unfold national_id_hit.
    destruct (national_id new), (national_id existing);
      try (now exists false).
    match goal with |- context [if ?c then _ else _] => destruct c end;
      [now exists true | now exists false]. }
  assert (Hb : exists b : bool, map fst (name_hit new existing)
                                = if b then ["name"%string] else []).
  { unfold name_hit.
    destruct (name new) as [x|], (name existing) as [y|];
      try (now exists false).
    match goal with |- context [if ?c then _ else _] => destruct c end;
      try (now exists false).
    destruct (Rlt_dec 80 (calculate_name_similarity x y));
      [now exists true | now exists false]. }
  assert (Hc : exists c : bool, map fst (biometric_hit face load new existing)
                                = if c then ["facial_recognition"%string] else []).
  { unfold biometric_hit.
    destruct (biometric_hash new) as [x|], (biometric_hash existing) as [y|];
      try (now exists false).
    match goal with |- context [if ?c then _ else _] => destruct c end;
      try (now exists false).
    destruct (Rlt_dec (threshold face) (image_similarity face load (Some x) (Some y)));
      [now exists true | now exists false]. }
  destruct Ha as [a ->], Hb as [b ->], Hc as [c ->]. now exists a, b, c.
Qed.

Lemma report_length new existing : (List.length (report new existing) <= 1)%nat.
Proof.
  unfold Spec.report. destruct (hits new existing); simpl; lia.
Qed.

Lemma flat_map_report_length new (l : list employee_data) :
  (List.length (flat_map (report new) l) <= List.length l)%nat.
Proof.
  induction l as [|e l IH]; simpl; [lia |].
  rewrite length_app. pose proof (report_length new e). lia.
Qed.

Lemma reports_per_record new (l : list employee_data) :
  Forall2 (fun existing found =>
             (List.length found <= 1)%nat /\
             Forall (fun d => employee d = existing) found)
          l (map (report new) l).
Proof.
  induction l as [|e l IH]; simpl; constructor; [| exact IH].
  split; [apply report_length |].
  eapply Forall_impl; [| apply (report_sound face load)].
  now intros d (H & _).
Qed.

(** X9.  detect_duplicate returns at most one candidate per existing
    record, which is the record's own, so the candidates are at most as many
    as the existing records; each has an overall score of at most 100, and
    its matching factors are some of national_id, name and
    facial_recognition, in this order and without repetition. *)
Theorem X9_duplicates_shape
  (new : employee_data) (existing_employees : list employee_data) :
  exists duplicates,
    detect_duplicate face load new existing_employees = Return duplicates /\
    (exists per_record : list (list duplicate),
        Forall2 (fun existing found =>
                   (List.length found <= 1)%nat /\
                   Forall (fun d => employee d = existing) found)
                existing_employees per_record /\
        Permutation duplicates (List.concat per_record)) /\
    (List.length duplicates <= List.length existing_employees)%nat /\
    Forall (fun d =>
              similarity_score d <= 100 /\
              exists a b c : bool,
                matching_factors d
                = (if a then ["national_id"%string] else [])
                  ++ (if b then ["name"%string] else [])
                  ++ (if c then ["facial_recognition"%string] else []))
           duplicates.
Proof.
  exists (sort_desc (flat_map (report new) existing_employees)).
  split; [apply detect_duplicate_sorted_reports |]. split; [| split].
  - exists (map (report new) existing_employees).
    split; [apply reports_per_record |].
    rewrite <- flat_map_concat_map. apply sort_desc_perm.
  - rewrite (Permutation_length (sort_desc_perm _)).
    apply flat_map_report_length.
  - eapply Permutation_Forall; [symmetry; apply sort_desc_perm |].
    apply Forall_flat_map_intro. intros e _.
    eapply Forall_impl; [| apply (report_sound face load)].
    intros d (_ & Hne & Hf & Hs). split.
    + rewrite Hs. apply mean_below.
      * destruct (hits new e); [congruence | discriminate].
      * apply Forall_map. apply hits_at_most_100.
    + rewrite Hf. apply hits_factor_names.
Qed.

(** A record is reported as soon as one factor hits. *)
Lemma reported_with_factor new (existing_employees : list employee_data)
  existing (factor : string) :
  In existing existing_employees ->
  In factor (map fst (hits new existing)) ->
  exists d, In d (sort_desc (flat_map (report new) existing_employees)) /\
            employee d = existing /\ In factor (matching_factors d).
Proof.
  intros Hin Hfactor.
  destruct (hits new existing) as [|h rest] eqn:E; [contradiction |].
  exists {| employee := existing;
            similarity_score := mean (map snd (h :: rest));
            matching_factors := map fst (h :: rest) |}.
  split; [| split; [reflexivity | exact Hfactor]].
  eapply Permutation_in; [symmetry; apply sort_desc_perm |].
  apply in_flat_map. exists existing. split; [exact Hin |].
  unfold Spec.report. fold (hits new existing). rewrite E. now left.
Qed.

(** X10.  An existing record is reported, with the factor among its
    matching factors, when it has the candidate's non-empty national ID,
    when its non-empty name equals the candidate's once both are lower-cased
    and trimmed, or, in the hash mode, when it has the candidate's non-empty
    template. *)
Theorem X10_equal_field_is_reported
  (new : employee_data) (existing_employees : list employee_data)
  (existing : employee_data) (factor a b : string) :
  In existing existing_employees ->
  a <> EmptyString -> b <> EmptyString ->
  (factor = "national_id"%string /\
   national_id new = Some a /\ national_id existing = Some b /\ a = b) \/
  (factor = "name"%string /\
   name new = Some a /\ name existing = Some b /\ normalize a = normalize b) \/
  (factor = "facial_recognition"%string /\ face = false /\
   biometric_hash new = Some a /\ biometric_hash existing = Some b /\ a = b) ->
  exists duplicates d,
    detect_duplicate face load new existing_employees = Return duplicates /\
    In d duplicates /\ employee d = existing /\
    In factor (matching_factors d).
Proof.
  intros Hin Ha Hb Hcase.
  exists (sort_desc (flat_map (report new) existing_employees)).
  assert (Hfactor : In factor (map fst (hits new existing))).
  { apply String.eqb_neq in Ha, Hb.
    unfold Spec.hits. rewrite !map_app, !in_app_iff.
    destruct Hcase as [(-> & Hn & He & <-) | [(-> & Hn & He & Heq)
                                             | (-> & Hf & Hn & He & <-)]].
    - left. unfold national_id_hit. rewrite Hn, He, Ha, String.eqb_refl.
      simpl. now left.
    - right; left. unfold name_hit. rewrite Hn, He, Ha, Hb. simpl.
      rewrite (name_similarity_equal a b Heq).
      destruct (Rlt_dec 80 100); [simpl; now left | lra].
    - right; right. unfold biometric_hit. rewrite Hn, He, Ha. simpl.
      subst face. unfold image_similarity.
      rewrite image_similarity_hash_mode by now apply String.eqb_neq.
      rewrite String.eqb_refl. unfold threshold.
      destruct (Rlt_dec 99 100); [simpl; now left | lra]. }
  destruct (reported_with_factor new existing_employees existing factor
              Hin Hfactor) as (d & Hd & He & Hf).
  exists d. split; [apply detect_duplicate_sorted_reports |]. now split.
Qed.

(** The sort is stable. *)

Lemma insert_desc_stable (s : R) d (l : list duplicate) :
  StronglySorted higher_first l ->
  filter (fun x => if Req_EM_T (similarity_score x) s then true else false)
         (insert_desc d l)
  = filter (fun x => if Req_EM_T (similarity_score x) s then true else false) l
    ++ (if Req_EM_T (similarity_score d) s then [d] else []).
Proof.
  induction 1 as [|x l Hl IH Hx]; simpl.
  - now destruct (Req_EM_T (similarity_score d) s).
  - destruct (Rlt_dec (similarity_score x) (similarity_score d)) as [Hlt|Hge].
    + simpl. destruct (Req_EM_T (similarity_score d) s) as [Hd|Hd];
        [| now rewrite app_nil_r].
      assert (Hnone : filter (fun y => if Req_EM_T (similarity_score y) s
                                       then true else false) (x :: l) = []).
      { assert (Hall : Forall (fun y => similarity_score y < s) (x :: l)).
        { constructor; [lra |]. eapply Forall_impl; [| exact Hx].
          unfold higher_first. intros y Hy. lra. }
        clear -Hall. induction Hall as [|y l' Hy Hl' IH']; simpl; [reflexivity |].
        destruct (Req_EM_T (similarity_score y) s); [lra | exact IH']. }
      simpl in Hnone. rewrite Hnone. reflexivity.
    + simpl. rewrite IH.
      destruct (Req_EM_T (similarity_score x) s); reflexivity.
Qed.

Lemma sort_desc_stable (s : R) (l : list duplicate) :
  filter (fun x => if Req_EM_T (similarity_score x) s then true else false)
         (sort_desc l)
  = filter (fun x => if Req_EM_T (similarity_score x) s then true else false) l.
Proof.
  unfold sort_desc.
  assert (H : forall acc, StronglySorted higher_first acc ->
            filter (fun x => if Req_EM_T (similarity_score x) s then true else false)
                   (fold_left (fun sorted d => insert_desc d sorted) l acc)
            = filter (fun x => if Req_EM_T (similarity_score x) s
                               then true else false) acc
              ++ filter (fun x => if Req_EM_T (similarity_score x) s
                                  then true else false) l).
  { induction l as [|d l IH]; intros acc Hacc; simpl.
    - now rewrite app_nil_r.
    - rewrite IH by now apply insert_desc_sorted.
      rewrite insert_desc_stable by exact Hacc.
      rewrite <- app_assoc.
      now destruct (Req_EM_T (similarity_score d) s). }
  apply (H []). constructor.
Qed.

(** X11.  Among the candidates that detect_duplicate returns, those with
    the same overall score are in the order of their records in the
    population: the sort is stable. *)
Theorem X11_equal_scores_keep_population_order
  (new : employee_data) (existing_employees : list employee_data) :
  exists duplicates,
    detect_duplicate face load new existing_employees = Return duplicates /\
    forall s,
      filter (fun d => if Req_EM_T (similarity_score d) s then true else false)
             duplicates
      = flat_map
          (fun existing =>
             filter (fun d => if Req_EM_T (similarity_score d) s
                              then true else false)
                    (report new existing))
          existing_employees.
Proof.
  exists (sort_desc (flat_map (report new) existing_employees)).
  split; [apply detect_duplicate_sorted_reports |].
  intro s. rewrite sort_desc_stable.
  induction existing_employees as [|e l IH]; simpl; [reflexivity |].
  now rewrite filter_app, IH.
Qed.

End DuplicatesExtra.

Lemma X10_witness :
  exists duplicates d,
    detect_duplicate false sample_encodings
      {| emp_id := 0; name := Some " JOHN  smith"%string;
         national_id := None; biometric_hash := None |}
      [sample_existing;
       {| emp_id := 9; name := Some "John  Smith "%string;
          national_id := None; biometric_hash := None |}]
    = Return duplicates /\
    In d duplicates /\
    employee d = {| emp_id := 9; name := Some "John  Smith "%string;
                    national_id := None; biometric_hash := None |} /\
    In "name"%string (matching_factors d).
Proof.
  apply (X10_equal_field_is_reported false sample_encodings _ _ _
           "name" " JOHN  smith" "John  Smith ").
  - right. now left.
  - discriminate.
  - discriminate.
  - right; left. repeat split; reflexivity.
Defined.

End MatcherExtra.

(* ================================================================== *)
(** * Properties of the verification and registration flows *)
(* ================================================================== *)

Module AppProps.
Import Py Matcher Spec App MatcherProps MatcherExtra.

Local Open Scope R_scope.

Section Verification.

Variable face : bool.
Variable load : string -> outcome (list float64).
Variable image_to_hash : string -> option string.

Local Abbreviation verify := (verify_biometric face load image_to_hash).

Lemma threshold_range : 85 <= threshold face <= 99.
Proof. unfold threshold. destruct face; lra. Qed.

(** The result of a fingerprint submission. *)
Lemma verify_fingerprint (submitted : submission) (stored : stored_template) :
  sub_type submitted = Some "fingerprint"%string ->
  verify submitted stored
  = Return (if opt_str_eqb (sub_hash submitted) (tpl_hash stored)
            then {| is_match := true; confidence := 95 |}
            else {| is_match := false; confidence := 0 |}).
Proof.
  intro H. unfold verify_biometric. rewrite H. simpl.
  now destruct (opt_str_eqb (sub_hash submitted) (tpl_hash stored)).
Qed.

(** The result of a submission of any other type. *)
Lemma verify_not_fingerprint (submitted : submission) (stored : stored_template) :
  sub_type submitted <> Some "fingerprint"%string ->
  exists r, verify submitted stored = Return r /\
            0 <= confidence r <= 100 /\
            (is_match r = true <->
             sub_type submitted = Some "facial"%string /\
             threshold face < confidence r).
Proof.
  intro Hfp. apply opt_str_eqb_neq in Hfp.
  pose proof threshold_range as Ht.
  assert (Hno : forall P : Prop,
             0 <= confidence no_match <= 100 /\
             (is_match no_match = true <-> P /\ threshold face < confidence no_match)).
  { intro P. simpl. split; [lra |]. split; [discriminate | intros [_ H]; lra]. }
  unfold verify_biometric. rewrite Hfp.
  destruct (opt_str_eqb (sub_type submitted) (Some "facial"%string)) eqn:Ef;
    [| exists no_match; split; [reflexivity |];
       destruct (Hno (sub_type submitted = Some "facial"%string)); now split].
  apply opt_str_eqb_eq in Ef.
  destruct (truthy_str (photo_data submitted) && truthy_str (tpl_hash stored))%bool;
    [| exists no_match; split; [reflexivity |];
       destruct (Hno (sub_type submitted = Some "facial"%string)); now split].
  destruct (photo_data submitted) as [photo|];
    [| exists no_match; split; [reflexivity |];
       destruct (Hno (sub_type submitted = Some "facial"%string)); now split].
  destruct (truthy_str (image_to_hash photo));
    [| exists no_match; split; [reflexivity |];
       destruct (Hno (sub_type submitted = Some "facial"%string)); now split].
  destruct (image_similarity_in_range face load (image_to_hash photo)
              (tpl_hash stored)) as (r & Hr & Hrange).
  rewrite Hr. simpl.
  exists {| is_match := if Rlt_dec (threshold face) r then true else false;
            confidence := r |}.
  split; [reflexivity |]. simpl. split; [exact Hrange |].
  destruct (Rlt_dec (threshold face) r); split; intro H;
    try discriminate; try (now split); try reflexivity.
  destruct H as [_ H]. contradiction.
Qed.

(** X6.  verify_biometric always returns a result, with a confidence
    between 0 and 100; the result is a match exactly when the submission is
    a fingerprint whose hash equals the stored one, or a facial one whose
    confidence exceeds the active threshold. *)
Theorem X6_verify_biometric_result
  (submitted : submission) (stored : stored_template) :
  exists r,
    verify submitted stored = Return r /\
    0 <= confidence r <= 100 /\
    (is_match r = true <->
     (sub_type submitted = Some "fingerprint"%string /\
      sub_hash submitted = tpl_hash stored) \/
     (sub_type submitted = Some "facial"%string /\
      threshold face < confidence r)).
Proof.
  destruct (opt_str_eqb (sub_type submitted) (Some "fingerprint"%string)) eqn:E.
  - apply opt_str_eqb_eq in E. rewrite (verify_fingerprint _ _ E).
    destruct (opt_str_eqb (sub_hash submitted) (tpl_hash stored)) eqn:Eh;
      eexists; (split; [reflexivity |]); simpl; (split; [lra |]).
    + apply opt_str_eqb_eq in Eh. split; [intros _; now left | reflexivity].
    + apply opt_str_eqb_neq in Eh. split; [discriminate |].
      intros [[_ H] | [H _]]; [contradiction | congruence].
  - apply opt_str_eqb_neq in E.
    destruct (verify_not_fingerprint submitted stored E)
      as (r & Hr & Hrange & Hmatch).
    exists r. split; [exact Hr |]. split; [exact Hrange |].
    rewrite Hmatch. split; [intro H; now right |].
    intros [[H _] | H]; [contradiction | exact H].
Qed.

Lemma verify_biometric_returns
  (submitted : submission) (stored : stored_template) :
  exists r, verify submitted stored = Return r /\ 0 <= confidence r <= 100.
Proof.
  destruct (opt_str_eqb (sub_type submitted) (Some "fingerprint"%string)) eqn:E.
  - apply opt_str_eqb_eq in E. rewrite (verify_fingerprint _ _ E).
    destruct (opt_str_eqb (sub_hash submitted) (tpl_hash stored));
      eexists; (split; [reflexivity |]); simpl; lra.
  - apply opt_str_eqb_neq in E.
    destruct (verify_not_fingerprint submitted stored E) as (r & Hr & Hrange & _).
    now exists r.
Qed.

(** The loop keeps the best confidence seen so far. *)
Lemma verify_templates_best (verification_data : submission)
  (templates : list stored_template) (best : match_result) :
  exists final,
    verify_templates face load image_to_hash verification_data templates best
    = Return final /\
    confidence best <= confidence final /\
    Forall (fun t => forall r, verify verification_data t = Return r ->
                               confidence r <= confidence final) templates /\
    (final = best \/
     exists t, In t templates /\ verify verification_data t = Return final).
Proof.
  revert best. induction templates as [|t rest IH]; intro best; simpl.
  - exists best. repeat split; [lra | constructor | now left].
  - destruct (verify_biometric_returns verification_data t)
      as (r & Hr & _). rewrite Hr. simpl.
    destruct (IH (if Rlt_dec (confidence best) (confidence r) then r else best))
      as (final & Hfinal & Hbest & Hall & Horigin).
    exists final. split; [exact Hfinal |].
    destruct (Rlt_dec (confidence best) (confidence r)) as [Hlt | Hge].
    + split; [lra |]. split.
      * constructor; [| exact Hall].
        intros r' Hr'. rewrite Hr in Hr'. injection Hr' as <-. exact Hbest.
      * right. destruct Horigin as [-> | (t' & Hin & Ht')].
        -- exists t. split; [now left | exact Hr].
        -- exists t'. split; [now right | exact Ht'].
    + split; [exact Hbest |]. split.
      * constructor; [| exact Hall].
        intros r' Hr'. rewrite Hr in Hr'. injection Hr' as <-. lra.
      * destruct Horigin as [-> | (t' & Hin & Ht')]; [now left |].
        right. exists t'. split; [now right | exact Ht'].
Qed.

(** X7.  verify_identity returns, of the results of verify_biometric on
    the stored templates, one with the highest confidence, and the result
    without match and with confidence 0 when no template does better. *)
Theorem X7_verify_identity_keeps_best (verification_data : submission)
  (templates : list stored_template) :
  exists final,
    verify_identity face load image_to_hash verification_data templates
    = Return final /\
    0 <= confidence final <= 100 /\
    Forall (fun t => forall r, verify verification_data t = Return r ->
                               confidence r <= confidence final) templates /\
    (final = {| is_match := false; confidence := 0 |} \/
     exists t, In t templates /\ verify verification_data t = Return final).
Proof.
  destruct (verify_templates_best verification_data templates
              {| is_match := false; confidence := 0 |})
    as (final & Hfinal & _ & Hall & Horigin).
  exists final. split; [exact Hfinal |]. split; [| now split].
  destruct Horigin as [-> | (t & _ & Ht)]; [simpl; lra |].
  destruct (verify_biometric_returns verification_data t) as (r & Hr & Hrange).
  rewrite Hr in Ht. now injection Ht as <-.
Qed.

(** X8.  When verify_biometric matches the submission against one of the
    stored templates, verify_identity reports a match, with a confidence
    that is at least the one of that template. *)
Theorem X8_verify_identity_finds_match (verification_data : submission)
  (templates : list stored_template) (t : stored_template) (r : match_result) :
  In t templates ->
  verify verification_data t = Return r ->
  is_match r = true ->
  exists final,
    verify_identity face load image_to_hash verification_data templates
    = Return final /\
    is_match final = true /\
    confidence r <= confidence final.
Proof.
  intros Hin Hr Hmatch.
  destruct (verify_templates_best verification_data templates
              {| is_match := false; confidence := 0 |})
    as (final & Hfinal & _ & Hall & Horigin).
  exists final. split; [exact Hfinal |].
  assert (Hle : confidence r <= confidence final).
  { rewrite Forall_forall in Hall. now apply (Hall t Hin r). }
  split; [| exact Hle].
  pose proof threshold_range as Hth.
  destruct (opt_str_eqb (sub_type verification_data)
                        (Some "fingerprint"%string)) eqn:E.
  - apply opt_str_eqb_eq in E.
    rewrite (verify_fingerprint _ _ E) in Hr. injection Hr as <-.
    destruct (opt_str_eqb (sub_hash verification_data) (tpl_hash t));
      [| discriminate]. simpl in Hle.
    destruct Horigin as [-> | (t' & _ & Ht')]; [simpl in Hle; lra |].
    rewrite (verify_fingerprint _ _ E) in Ht'. injection Ht' as <-.
    destruct (opt_str_eqb (sub_hash verification_data) (tpl_hash t'));
      [reflexivity | simpl in Hle; lra].
  - apply opt_str_eqb_neq in E.
    destruct (verify_not_fingerprint verification_data t E)
      as (r0 & Hr0 & _ & Hiff).
    rewrite Hr in Hr0. injection Hr0 as <-.
    apply Hiff in Hmatch. destruct Hmatch as [Hfacial Hgt].
    destruct Horigin as [-> | (t' & _ & Ht')]; [simpl in Hle; lra |].
    destruct (verify_not_fingerprint verification_data t' E)
      as (r' & Hr' & _ & Hiff').
    rewrite Ht' in Hr'. injection Hr' as <-.
    apply Hiff'. split; [exact Hfacial | lra].
Qed.

End Verification.

Lemma X8_witness :
  exists final,
    verify_identity false sample_encodings sample_image_to_hash
      {| sub_type := Some "fingerprint"%string;
         sub_hash := Some "fcde2b2e"%string;
         photo_data := None |}
      [{| tpl_hash := Some "2c26b46b"%string |};
       {| tpl_hash := Some "fcde2b2e"%string |}]
    = Return final /\
    is_match final = true /\
    95 <= confidence final.
Proof.
  apply (X8_verify_identity_finds_match false sample_encodings
           sample_image_to_hash
           {| sub_type := Some "fingerprint"%string;
              sub_hash := Some "fcde2b2e"%string;
              photo_data := None |}
           [{| tpl_hash := Some "2c26b46b"%string |};
            {| tpl_hash := Some "fcde2b2e"%string |}]
           {| tpl_hash := Some "fcde2b2e"%string |}
           {| is_match := true; confidence := 95 |}).
  - right. now left.
  - reflexivity.
  - reflexivity.
Defined.

Section Registration.

Variable face : bool.
Variable load : string -> outcome (list float64).
Variable image_to_hash : string -> option string.

(** The candidate record that a request is compared with. *)
Lemma register_employee_proceeds (table : list employee_row)
  (data : registration) (alerts : list duplicate) :
  register_employee face load image_to_hash table data
  = Return (Registered alerts) ->
  exists new,
    alerts
    = registration_alerts
        (sort_desc
           (flat_map (Spec.report face load new)
              (map emp_data_of
                 (filter (fun row => String.eqb (row_status row) active_status)
                         table)))) /\
    name new = reg_name data /\
    national_id new = reg_national_id data /\
    (forall nid, reg_national_id data = Some nid -> nid <> EmptyString ->
                 first_with_national_id nid table = None).
Proof.
  unfold register_employee.
  destruct (negb (truthy_str (reg_name data))); [discriminate |].
  destruct (truthy_str (reg_national_id data)) eqn:Et.
  - destruct (reg_national_id data) as [nid|] eqn:En; [| discriminate].
    destruct (first_with_national_id nid table) eqn:Ef; [discriminate |].
    rewrite detect_duplicate_sorted_reports. simpl. intro H.
    injection H as <-. eexists. split; [reflexivity |].
    split; [reflexivity |]. split; [reflexivity |].
    intros nid' Hn _. now injection Hn as <-.
  - rewrite detect_duplicate_sorted_reports. simpl. intro H.
    injection H as <-. eexists. split; [reflexivity |].
    split; [reflexivity |]. split; [reflexivity |].
    intros nid Hn Hne. rewrite Hn in Et. simpl in Et.
    apply String.eqb_neq in Hne. now rewrite Hne in Et.
Qed.

Lemma national_id_in_hits new existing :
  In "national_id"%string (map fst (Spec.hits face load new existing)) ->
  exists nid, nid <> EmptyString /\
              national_id new = Some nid /\ national_id existing = Some nid.
Proof.
  unfold Spec.hits. rewrite !map_app, !in_app_iff. intros [H | [H | H]].
  - unfold national_id_hit in H.
    destruct (national_id new) as [a|], (national_id existing) as [b|];
      try contradiction.
    destruct (String.eqb a EmptyString) eqn:Ea; [contradiction |].
    destruct (String.eqb b EmptyString); [contradiction |].
    destruct (String.eqb a b) eqn:Eab; [| contradiction].
    apply String.eqb_eq in Eab. subst b. apply String.eqb_neq in Ea.
    now exists a.
  - unfold name_hit in H.
    destruct (name new) as [a|], (name existing) as [b|]; try contradiction.
    match type of H with context [if ?c then _ else _] => destruct c end;
      try contradiction.
    destruct (Rlt_dec 80 (calculate_name_similarity a b)); [| contradiction].
    destruct H as [H | []]. discriminate H.
  - unfold biometric_hit in H.
    destruct (biometric_hash new) as [a|], (biometric_hash existing) as [b|];
      try contradiction.
    match type of H with context [if ?c then _ else _] => destruct c end;
      try contradiction.
    destruct (Rlt_dec (threshold face) (image_similarity face load (Some a) (Some b)));
      [| contradiction].
    destruct H as [H | []]. discriminate H.
Qed.

(** X12.  When register_employee goes on to create duplicate alerts, every
    alert concerns an active employee of the table, has an overall score
    above 80, and never lists national_id among its matching factors: a
    request whose national ID is already in the table has been refused
    before the comparison. *)
Theorem X12_registration_alerts_never_on_national_id
  (table : list employee_row) (data : registration) (alerts : list duplicate) :
  register_employee face load image_to_hash table data
  = Return (Registered alerts) ->
  Forall (fun d =>
            ~ In "national_id"%string (matching_factors d) /\
            80 < similarity_score d /\
            exists row, In row table /\ row_status row = active_status /\
                        employee d = emp_data_of row)
         alerts.
Proof.
  intro H. apply register_employee_proceeds in H.
  destruct H as (new & -> & Hname & Hnid & Hfresh).
  apply Forall_forall. intros d Hd.
  unfold registration_alerts in Hd. apply filter_In in Hd.
  destruct Hd as [Hd Hscore].
  apply (Permutation_in _ (sort_desc_perm _)) in Hd.
  apply in_flat_map in Hd. destruct Hd as (e & He & Hd).
  apply in_map_iff in He. destruct He as (row & <- & Hrow).
  apply filter_In in Hrow. destruct Hrow as [Hrow Hactive].
  apply String.eqb_eq in Hactive.
  pose proof (report_sound face load new (emp_data_of row)) as Hsound.
  rewrite Forall_forall in Hsound.
  destruct (Hsound d Hd) as (Hemp & _ & Hfactors & _).
  split; [| split].
  - rewrite Hfactors. intro Hin.
    apply national_id_in_hits in Hin.
    destruct Hin as (nid & Hne & Hn & He).
    rewrite Hnid in Hn. specialize (Hfresh nid Hn Hne).
    unfold first_with_national_id in Hfresh.
    pose proof (find_none _ _ Hfresh row Hrow) as Hnone. simpl in Hnone.
    simpl in He. rewrite He in Hnone. simpl in Hnone.
    now rewrite String.eqb_refl in Hnone.
  - destruct (Rlt_dec 80 (similarity_score d)); [assumption | discriminate].
  - exists row. now repeat split.
Qed.

End Registration.

Lemma X12_witness :
  exists alerts,
    register_employee false sample_encodings sample_image_to_hash
      [{| row_id := 1; row_name := "John Smith";
          row_national_id := Some "111"%string;
          row_biometric_hash := None; row_status := "active" |}]
      {| reg_name := Some " john smith "%string;
         reg_national_id := Some "222"%string;
         reg_photo_data := None |}
    = Return (Registered alerts) /\
    Forall (fun d => ~ In "national_id"%string (matching_factors d)) alerts.
Proof.
  eexists. split.
  - unfold register_employee. simpl.
    rewrite detect_duplicate_sorted_reports. reflexivity.
  - eapply Forall_impl;
      [| apply (X12_registration_alerts_never_on_national_id false
                  sample_encodings sample_image_to_hash
                  [{| row_id := 1; row_name := "John Smith";
                      row_national_id := Some "111"%string;
                      row_biometric_hash := None; row_status := "active" |}]
                  {| reg_name := Some " john smith "%string;
                     reg_national_id := Some "222"%string;
                     reg_photo_data := None |})].
    + intros d [H _]. exact H.
    + unfold register_employee. simpl.
      rewrite detect_duplicate_sorted_reports. reflexivity.
Defined.

End AppProps.

(* ================================================================== *)
(** * Further properties of the fraud analyzer *)
(* ================================================================== *)

Module FraudExtra.
Import Fraud FraudSpec FraudExtraSpec ListFacts FraudProps.

Local Open Scope Z_scope.

(** ** detect_ghost_workers *)

Lemma ghost_of_record (now : datetime) (days_threshold : Z)
  (logs : list AttendanceLog) (e : Employee) :
  ghost_of now days_threshold (now - timedelta_of_days days_threshold)
           (group_by log_employee_id logs) e
  = if flagged now days_threshold logs e
    then [ghost_record now days_threshold logs e] else [].
Proof.
  unfold ghost_of, flagged, ghost_record. rewrite dd_get_group_by.
  fold (logs_of (id e) logs).
  destruct (String.eqb (status e) active); simpl; [| reflexivity].
  destruct (registration_date e <? now - timedelta_of_days days_threshold);
    simpl; [| reflexivity].
  destruct (logs_of (id e) logs) as [|a rest] eqn:E; [reflexivity |].
  rewrite max_by_check_in_latest.
  now destruct (check_in_time (max_by_check_in a rest)
                <? now - timedelta_of_days days_threshold).
Qed.

Lemma detect_ghost_workers_records now employees logs days_threshold ghosts :
  detect_ghost_workers now employees logs days_threshold = Py.Return ghosts ->
  ghosts = map (ghost_record now days_threshold logs)
               (filter (flagged now days_threshold logs) employees).
Proof.
  intro H. apply detect_ghost_workers_flat_map in H. destruct H as [_ ->].
  induction employees as [|e l IH]; simpl; [reflexivity |].
  rewrite ghost_of_record, IH.
  now destruct (flagged now days_threshold logs e).
Qed.

Lemma ghost_record_employee now days_threshold logs e :
  ghost_employee (ghost_record now days_threshold logs e) = e.
Proof.
  unfold ghost_record. now destruct (most_recent (logs_of (id e) logs)).
Qed.

Lemma ghosts_are_flagged now employees logs days_threshold ghosts :
  detect_ghost_workers now employees logs days_threshold = Py.Return ghosts ->
  map ghost_employee ghosts = filter (flagged now days_threshold logs) employees.
Proof.
  intro H. rewrite (detect_ghost_workers_records _ _ _ _ _ H), map_map.
  rewrite (map_ext _ (fun e => e)) by (intro; apply ghost_record_employee).
  apply map_id.
Qed.

Lemma days_at_least (now t : datetime) (days_threshold : Z) :
  t < now - timedelta_of_days days_threshold -> days_threshold <= days (now - t).
Proof.
  unfold timedelta_of_days, days, US_PER_DAY. intro H.
  apply Z.div_le_lower_bound; lia.
Qed.

Lemma most_recent_upper (logs : list AttendanceLog) (latest : datetime) :
  most_recent logs = Some latest ->
  Forall (fun log => check_in_time log <= latest) logs /\
  exists log, In log logs /\ check_in_time log = latest.
Proof.
  destruct logs as [|a rest]; [discriminate |].
  unfold most_recent. intro H. injection H as <-.
  induction rest as [|x rest IH]; simpl.
  - split; [constructor; [lia | constructor] | exists a; now split; [left |]].
  - destruct IH as [Hall (log & Hin & Hlog)].
    inversion Hall as [|? ? Ha Hrest]; subst.
    split.
    + constructor; [lia |]. constructor; [lia |].
      eapply Forall_impl; [| exact Hrest]. simpl. intros y Hy. lia.
    + destruct (Z.max_spec (check_in_time x)
                  (fold_right (fun x0 latest => Z.max (check_in_time x0) latest)
                              (check_in_time a) rest)) as [[_ ->] | [_ ->]].
      * exists log. split; [| exact Hlog].
        destruct Hin as [-> | Hin]; [now left | right; now right].
      * exists x. split; [right; now left | reflexivity].
Qed.

Lemma flagged_monotone now logs e (d d' : Z) :
  d <= d' -> flagged now d' logs e = true -> flagged now d logs e = true.
Proof.
  unfold flagged, timedelta_of_days, US_PER_DAY. intros Hd H.
  apply Bool.andb_true_iff in H. destruct H as [H Hlast].
  apply Bool.andb_true_iff in H. destruct H as [Hs Hr].
  rewrite Hs. apply Z.ltb_lt in Hr.
  rewrite (proj2 (Z.ltb_lt _ _)) by lia. simpl.
  destruct (most_recent (logs_of (id e) logs)); [| reflexivity].
  apply Z.ltb_lt in Hlast. apply Z.ltb_lt. lia.
Qed.

(** X13.  Raising days_threshold never flags a further employee: whenever
    detect_ghost_workers returns for two thresholds, every employee flagged
    with the larger one is flagged with the smaller one. *)
Theorem X13_ghost_threshold_monotone
  (now : datetime) (employees : list Employee) (logs : list AttendanceLog)
  (d d' : Z) (ghosts ghosts' : list ghost_worker) :
  d <= d' ->
  detect_ghost_workers now employees logs d = Py.Return ghosts ->
  detect_ghost_workers now employees logs d' = Py.Return ghosts' ->
  incl (map ghost_employee ghosts') (map ghost_employee ghosts).
Proof.
  intros Hd Hg Hg'.
  rewrite (ghosts_are_flagged _ _ _ _ _ Hg), (ghosts_are_flagged _ _ _ _ _ Hg').
  intros e He.
  apply filter_In in He. destruct He as [Hin Hf].
  apply filter_In. split; [exact Hin |].
  now apply (flagged_monotone now logs e d d').
Qed.

Lemma X13_witness :
  exists ghosts ghosts',
    detect_ghost_workers wednesday_9am
      [registered_days_ago 40; registered_days_ago 90] [] 30
    = Py.Return ghosts /\
    detect_ghost_workers wednesday_9am
      [registered_days_ago 40; registered_days_ago 90] [] 60
    = Py.Return ghosts' /\
    map ghost_employee ghosts = [registered_days_ago 40; registered_days_ago 90] /\
    map ghost_employee ghosts' = [registered_days_ago 90] /\
    incl (map ghost_employee ghosts') (map ghost_employee ghosts).
Proof.
  eexists. eexists.
  split; [reflexivity |]. split; [reflexivity |].
  split; [reflexivity |]. split; [reflexivity |].
  apply (X13_ghost_threshold_monotone wednesday_9am
           [registered_days_ago 40; registered_days_ago 90] [] 30 60);
    [lia | reflexivity | reflexivity].
Defined.

(** X14.  The figures of a ghost-worker record are consistent with the
    threshold: in every list that detect_ghost_workers returns, a record
    without attendance carries the whole days since the registration, at
    least days_threshold; a record with attendance carries the check-in time
    of the most recent attendance of the employee, which no attendance of
    the employee exceeds, and the whole days since then, at least
    days_threshold. *)
Theorem X14_ghost_record_figures
  (now : datetime) (employees : list Employee) (logs : list AttendanceLog)
  (days_threshold : Z) (ghosts : list ghost_worker) :
  detect_ghost_workers now employees logs days_threshold = Py.Return ghosts ->
  Forall
    (fun g =>
       match reason g with
       | NoAttendanceRecords =>
           logs_of (id (ghost_employee g)) logs = [] /\
           days_since_registration g
           = Some (days (now - registration_date (ghost_employee g))) /\
           days_threshold <= days (now - registration_date (ghost_employee g)) /\
           last_attendance g = None /\ days_since_attendance g = None
       | NoAttendanceInDays n =>
           n = days_threshold /\
           exists log,
             In log logs /\ log_employee_id log = id (ghost_employee g) /\
             last_attendance g = Some (check_in_time log) /\
             Forall (fun l => check_in_time l <= check_in_time log)
                    (logs_of (id (ghost_employee g)) logs) /\
             days_since_attendance g = Some (days (now - check_in_time log)) /\
             days_threshold <= days (now - check_in_time log)
       end)
    ghosts.
Proof.
  intro Hg. rewrite (detect_ghost_workers_records _ _ _ _ _ Hg).
  apply Forall_map.
  apply Forall_forall. intros e He. apply filter_In in He.
  destruct He as [_ Hf]. unfold flagged in Hf.
  apply Bool.andb_true_iff in Hf. destruct Hf as [Hf Hlast].
  apply Bool.andb_true_iff in Hf. destruct Hf as [_ Hreg].
  apply Z.ltb_lt in Hreg. unfold ghost_record.
  destruct (most_recent (logs_of (id e) logs)) as [latest|] eqn:E; simpl.
  - apply Z.ltb_lt in Hlast. split; [reflexivity |].
    destruct (most_recent_upper _ _ E) as [Hall (log & Hin & <-)].
    exists log. unfold logs_of in Hin. apply filter_In in Hin.
    destruct Hin as [Hin Hid]. apply Z.eqb_eq in Hid.
    repeat split; try assumption. now apply days_at_least.
  - repeat split.
    + destruct (logs_of (id e) logs); [reflexivity | discriminate].
    + now apply days_at_least.
Qed.

Lemma X14_witness :
  exists ghosts,
    detect_ghost_workers wednesday_9am [registered_days_ago 40] [] 30
    = Py.Return ghosts /\
    Forall (fun g => reason g = NoAttendanceRecords /\
                     days_since_registration g = Some 40 /\
                     30 <= days (wednesday_9am
                                 - registration_date (ghost_employee g)))
           ghosts.
Proof.
  eexists. split; [reflexivity |].
  pose proof (X14_ghost_record_figures wednesday_9am
                [registered_days_ago 40] [] 30 _ eq_refl) as H.
  inversion H as [|g l Hg Hl]; subst.
  constructor; [| constructor].
  destruct Hg as (_ & _ & Hdays & _).
  split; [reflexivity |]. split; [reflexivity | exact Hdays].
Defined.

(** X15.  An employee with an attendance at or after the cutoff is not
    flagged, whatever its other attendances: it is in no list that
    detect_ghost_workers returns. *)
Theorem X15_recent_attendance_not_flagged
  (now : datetime) (employees : list Employee) (logs : list AttendanceLog)
  (days_threshold : Z) (e : Employee) (log : AttendanceLog)
  (ghosts : list ghost_worker) :
  In log logs -> log_employee_id log = id e ->
  now - timedelta_of_days days_threshold <= check_in_time log ->
  detect_ghost_workers now employees logs days_threshold = Py.Return ghosts ->
  ~ In e (map ghost_employee ghosts).
Proof.
  intros Hin Hid Hrecent Hg He. rewrite (ghosts_are_flagged _ _ _ _ _ Hg) in He.
  apply filter_In in He. destruct He as [_ Hf]. unfold flagged in Hf.
  apply Bool.andb_true_iff in Hf. destruct Hf as [_ Hlast].
  assert (Hlog : In log (logs_of (id e) logs)).
  { unfold logs_of. apply filter_In. split; [exact Hin |].
    now apply Z.eqb_eq. }
  destruct (most_recent (logs_of (id e) logs)) as [latest|] eqn:E.
  - apply Z.ltb_lt in Hlast.
    destruct (most_recent_upper _ _ E) as [Hall _].
    rewrite Forall_forall in Hall. specialize (Hall log Hlog). lia.
  - destruct (logs_of (id e) logs); [contradiction | discriminate].
Qed.

Lemma X15_witness :
  exists ghosts,
    detect_ghost_workers wednesday_9am [registered_days_ago 90]
      [{| log_id := 1; log_employee_id := 1;
          check_in_time := wednesday_9am - timedelta_of_days 80;
          confidence_score := None |};
       {| log_id := 2; log_employee_id := 1;
          check_in_time := wednesday_9am - timedelta_of_days 3;
          confidence_score := None |}]
      30
    = Py.Return ghosts /\
    ~ In (registered_days_ago 90) (map ghost_employee ghosts).
Proof.
  eexists. split; [reflexivity |].
  apply (X15_recent_attendance_not_flagged wednesday_9am
           [registered_days_ago 90]
           [{| log_id := 1; log_employee_id := 1;
               check_in_time := wednesday_9am - timedelta_of_days 80;
               confidence_score := None |};
            {| log_id := 2; log_employee_id := 1;
               check_in_time := wednesday_9am - timedelta_of_days 3;
               confidence_score := None |}]
           30 (registered_days_ago 90)
           {| log_id := 2; log_employee_id := 1;
              check_in_time := wednesday_9am - timedelta_of_days 3;
              confidence_score := None |}).
  - right. now left.
  - reflexivity.
  - vm_compute. discriminate.
  - reflexivity.
Defined.

(** ** detect_duplicate_claims *)

Lemma detect_duplicate_claims_findings (claims : list BenefitClaim) (window : Q) :
  detect_duplicate_claims claims window
  = flat_map (fun k => findings_for window k claims)
             (keys (group_by claim_employee_id claims)).
Proof.
  rewrite detect_duplicate_claims_flat_map. unfold keys.
  rewrite flat_map_map. apply flat_map_agree.
  intros [k vs] Hin. simpl.
  rewrite (groups_are_claims_of claims k vs Hin).
  apply claims_of_group_findings.
Qed.

Lemma Qltb_lt (a b : Q) : Qltb a b = true <-> (a < b)%Q.
Proof.
  unfold Qltb. rewrite Bool.negb_true_iff. split.
  - intro H. apply Qnot_le_lt. intro Hle.
    apply Qle_bool_iff in Hle. congruence.
  - intro H. destruct (Qle_bool b a) eqn:E; [| reflexivity].
    apply Qle_bool_iff in E. apply Qlt_not_le in H. contradiction.
Qed.

Lemma hours_nonneg (d : timedelta) : 0 <= d -> (0 <= hours d)%Q.
Proof.
  intro H. unfold hours, US_PER_HOUR, Qle, Qdiv, Qmult, Qinv. simpl. lia.
Qed.

Lemma in_adjacent_pairs {A : Type} (l : list A) (p : A * A) :
  In p (adjacent_pairs l) -> In (fst p) l /\ In (snd p) l.
Proof.
  unfold adjacent_pairs. destruct p as [a b]. intro H. split.
  - now apply in_combine_l in H.
  - apply in_combine_r in H. destruct l; [contradiction | now right].
Qed.

Lemma adjacent_pairs_sorted (l : list BenefitClaim) :
  StronglySorted by_date l ->
  Forall (fun p => by_date (fst p) (snd p)) (adjacent_pairs l).
Proof.
  induction 1 as [|a l Hl IH Ha]; [constructor |].
  destruct l as [|b r]; [constructor |].
  change (adjacent_pairs (a :: b :: r)) with ((a, b) :: adjacent_pairs (b :: r)).
  constructor; [| exact IH]. simpl. now inversion Ha.
Qed.

Lemma in_findings_for (window : Q) (k : Z) (claims : list BenefitClaim)
  (f : suspicious_claim) :
  In f (findings_for window k claims) ->
  exists p,
    f = finding window k p /\
    In (fst p) claims /\ In (snd p) claims /\
    claim_employee_id (fst p) = k /\ claim_employee_id (snd p) = k /\
    claim_date (fst p) <= claim_date (snd p) /\
    within_window window p = true.
Proof.
  unfold findings_for. intro H. apply in_map_iff in H.
  destruct H as (p & <- & Hp). apply filter_In in Hp.
  destruct Hp as [Hp Hw]. exists p. split; [reflexivity |].
  pose proof (adjacent_pairs_sorted _ (sorted_by_date_sorted (claims_of k claims)))
    as Hsorted.
  rewrite Forall_forall in Hsorted. specialize (Hsorted p Hp).
  apply in_adjacent_pairs in Hp. destruct Hp as [H1 H2].
  apply (Permutation_in _ (sorted_by_date_perm _)) in H1, H2.
  unfold claims_of in H1, H2. apply filter_In in H1, H2.
  destruct H1 as [H1 E1], H2 as [H2 E2]. apply Z.eqb_eq in E1, E2.
  now repeat split.
Qed.

(** X16.  Every finding of detect_duplicate_claims pairs two claims of the
    input that belong to the employee of the finding, the first one not
    later than the second; its time difference is the gap between the two
    claim dates in hours, at least 0 and strictly under the window.  So a
    window that is not positive yields no finding. *)
Theorem X16_findings_are_close_pairs (claims : list BenefitClaim) (window : Q) :
  Forall
    (fun f =>
       In (fst (sc_claims f)) claims /\ In (snd (sc_claims f)) claims /\
       claim_employee_id (fst (sc_claims f)) = sc_employee_id f /\
       claim_employee_id (snd (sc_claims f)) = sc_employee_id f /\
       claim_date (fst (sc_claims f)) <= claim_date (snd (sc_claims f)) /\
       time_difference_hours f
       = hours (claim_date (snd (sc_claims f)) - claim_date (fst (sc_claims f))) /\
       (0 <= time_difference_hours f)%Q /\
       (time_difference_hours f < window)%Q)
    (detect_duplicate_claims claims window) /\
  ((window <= 0)%Q -> detect_duplicate_claims claims window = []).
Proof.
  assert (Hall : Forall
    (fun f =>
       In (fst (sc_claims f)) claims /\ In (snd (sc_claims f)) claims /\
       claim_employee_id (fst (sc_claims f)) = sc_employee_id f /\
       claim_employee_id (snd (sc_claims f)) = sc_employee_id f /\
       claim_date (fst (sc_claims f)) <= claim_date (snd (sc_claims f)) /\
       time_difference_hours f
       = hours (claim_date (snd (sc_claims f)) - claim_date (fst (sc_claims f))) /\
       (0 <= time_difference_hours f)%Q /\
       (time_difference_hours f < window)%Q)
    (detect_duplicate_claims claims window)).
  { rewrite detect_duplicate_claims_findings.
    apply Forall_forall. intros f Hf. apply in_flat_map in Hf.
    destruct Hf as (k & _ & Hf). apply in_findings_for in Hf.
    destruct Hf as (p & -> & H1 & H2 & E1 & E2 & Hdate & Hw). simpl.
    repeat split; try assumption.
    - apply hours_nonneg. unfold by_date in Hdate. lia.
    - unfold within_window in Hw. now apply Qltb_lt. }
  split; [exact Hall |].
  intro Hw. destruct (detect_duplicate_claims claims window) as [|f l];
    [reflexivity |].
  inversion Hall as [|? ? (_ & _ & _ & _ & _ & _ & H0 & Hlt) _]; subst.
  exfalso. apply (Qlt_not_le _ _ Hlt). now apply (Qle_trans _ 0).
Qed.

Lemma X16_witness :
  detect_duplicate_claims [claim_at 1 1 0; claim_at 2 1 0] 0 = [].
Proof.
  apply (proj2 (X16_findings_are_close_pairs
                  [claim_at 1 1 0; claim_at 2 1 0] 0)).
  apply Qle_refl.
Defined.

Lemma within_window_monotone (w w' : Q) (p : BenefitClaim * BenefitClaim) :
  (w <= w')%Q -> within_window w p = true -> within_window w' p = true.
Proof.
  unfold within_window. intros Hw H. apply Qltb_lt in H. apply Qltb_lt.
  now apply (Qlt_le_trans _ w).
Qed.

(** X17.  Widening the window never loses a finding: every pair of claims
    flagged under a window is flagged under any larger one. *)
Theorem X17_window_monotone (claims : list BenefitClaim) (w w' : Q) :
  (w <= w')%Q ->
  incl (map (fun f => (sc_employee_id f, sc_claims f))
            (detect_duplicate_claims claims w))
       (map (fun f => (sc_employee_id f, sc_claims f))
            (detect_duplicate_claims claims w')).
Proof.
  intros Hw x Hx. apply in_map_iff in Hx. destruct Hx as (f & <- & Hf).
  rewrite detect_duplicate_claims_findings in Hf. apply in_flat_map in Hf.
  destruct Hf as (k & Hk & Hf). unfold findings_for in Hf.
  apply in_map_iff in Hf. destruct Hf as (p & <- & Hp).
  apply filter_In in Hp. destruct Hp as [Hp Hwin]. simpl.
  apply in_map_iff. exists (finding w' k p). split; [reflexivity |].
  rewrite detect_duplicate_claims_findings. apply in_flat_map.
  exists k. split; [exact Hk |]. unfold findings_for.
  apply in_map. apply filter_In. split; [exact Hp |].
  now apply (within_window_monotone w w').
Qed.

Lemma X17_witness :
  incl (map (fun f => (sc_employee_id f, sc_claims f))
            (detect_duplicate_claims
               [claim_at 1 1 0; claim_at 2 1 23; claim_at 3 1 60] 24))
       (map (fun f => (sc_employee_id f, sc_claims f))
            (detect_duplicate_claims
               [claim_at 1 1 0; claim_at 2 1 23; claim_at 3 1 60] 48)).
Proof.
  apply (X17_window_monotone
           [claim_at 1 1 0; claim_at 2 1 23; claim_at 3 1 60] 24 48).
  vm_compute. discriminate.
Defined.

(** The groups partition the claims. *)

Lemma total_length_append {V : Type} (k : Z) (v : V) (d : list (Z * list V)) :
  total_length (dd_append k v d) = S (total_length d).
Proof.
  unfold total_length.
  induction d as [|[k0 vs] d IH]; simpl; [reflexivity |].
  destruct (k0 =? k); simpl.
  - rewrite length_app. simpl. lia.
  - rewrite IH. lia.
Qed.

Lemma total_length_group_by {V : Type} (key : V -> Z) (l : list V) :
  total_length (group_by key l) = List.length l.
Proof.
  unfold group_by.
  assert (H : forall d : list (Z * list V),
             total_length (fold_left (fun d v => dd_append (key v) v d) l d)
             = (total_length d + List.length l)%nat).
  { induction l as [|v l IH]; intro d; simpl; [lia |].
    rewrite IH, total_length_append. lia. }
  now rewrite H.
Qed.

Lemma groups_nonempty_append {V : Type} (k : Z) (v : V) (d : list (Z * list V)) :
  Forall (fun g => snd g <> []) d ->
  Forall (fun g => snd g <> []) (dd_append k v d).
Proof.
  induction 1 as [|[k0 vs] d Hg Hd IH]; simpl.
  - constructor; [discriminate | constructor].
  - destruct (k0 =? k); constructor; try assumption.
    simpl. destruct vs; discriminate.
Qed.

Lemma groups_nonempty {V : Type} (key : V -> Z) (l : list V) :
  Forall (fun g => snd g <> []) (group_by key l).
Proof.
  unfold group_by.
  assert (H : forall d : list (Z * list V),
             Forall (fun g => snd g <> []) d ->
             Forall (fun g => snd g <> [])
                    (fold_left (fun d v => dd_append (key v) v d) l d)).
  { induction l as [|v l IH]; intros d Hd; simpl; [exact Hd |].
    apply IH. now apply groups_nonempty_append. }
  apply H. constructor.
Qed.

Lemma keys_group_by_iff {V : Type} (key : V -> Z) (l : list V) (k : Z) :
  In k (keys (group_by key l)) <-> exists v, In v l /\ key v = k.
Proof.
  unfold group_by.
  assert (H : forall d : list (Z * list V),
             In k (keys (fold_left (fun d v => dd_append (key v) v d) l d))
             <-> In k (keys d) \/ exists v, In v l /\ key v = k).
  { induction l as [|v l IH]; intro d; simpl.
    - split; [now left | intros [H | (v & [] & _)]; exact H].
    - rewrite IH, keys_append. split.
      + intros [[-> | H] | (v' & Hin & Hk)].
        * right. exists v. split; [now left | reflexivity].
        * now left.
        * right. exists v'. split; [now right | exact Hk].
      + intros [H | (v' & [<- | Hin] & Hk)].
        * left. now right.
        * left. left. now symmetry.
        * right. now exists v'. }
  rewrite H. simpl. split; [intros [[] | H']; exact H' | now right].
Qed.

Lemma adjacent_pairs_length {A : Type} (l : list A) :
  List.length (adjacent_pairs l) = (List.length l - 1)%nat.
Proof.
  unfold adjacent_pairs. rewrite length_combine.
  destruct l as [|a l]; [reflexivity |].
  cbn [tl List.length]. lia.
Qed.

Lemma claims_of_group_length (window : Q) (g : Z * list BenefitClaim) :
  (List.length (claims_of_group window g) <= List.length (snd g) - 1)%nat.
Proof.
  destruct g as [k vs]. rewrite claims_of_group_findings, length_map. simpl.
  eapply Nat.le_trans; [apply filter_length_le |].
  rewrite adjacent_pairs_length.
  now rewrite (Permutation_length (sorted_by_date_perm vs)).
Qed.

Lemma findings_and_groups (window : Q) (d : list (Z * list BenefitClaim)) :
  Forall (fun g => snd g <> []) d ->
  (List.length (flat_map (claims_of_group window) d) + List.length d
   <= total_length d)%nat.
Proof.
  unfold total_length.
  induction 1 as [|g d Hg Hd IH]; simpl; [lia |].
  rewrite length_app. pose proof (claims_of_group_length window g).
  assert (List.length (snd g) <> 0%nat) by (destruct (snd g); simpl; congruence).
  lia.
Qed.

(** X18.  detect_duplicate_claims emits at most as many findings as there
    are claims beyond the first one of each employee: the findings and any
    set of distinct employees that have a claim number together at most the
    claims.  In particular one claim per employee gives no finding. *)
Theorem X18_findings_count (claims : list BenefitClaim) (window : Q)
  (employees : list Z) :
  NoDup employees ->
  (forall k, In k employees ->
             exists c, In c claims /\ claim_employee_id c = k) ->
  (List.length (detect_duplicate_claims claims window) + List.length employees
   <= List.length claims)%nat.
Proof.
  intros Hnd Hhave.
  assert (Hincl : incl employees (keys (group_by claim_employee_id claims))).
  { intros k Hk. apply keys_group_by_iff. now apply Hhave. }
  pose proof (NoDup_incl_length Hnd Hincl) as Hlen.
  pose proof (findings_and_groups window _ (groups_nonempty claim_employee_id claims))
    as Hsum.
  rewrite total_length_group_by in Hsum.
  rewrite detect_duplicate_claims_flat_map.
  unfold keys in Hlen. rewrite length_map in Hlen. lia.
Qed.

Lemma X18_witness :
  (List.length
     (detect_duplicate_claims
        [claim_at 1 1 0; claim_at 2 2 1; claim_at 3 1 2; claim_at 4 3 3] 24)
   + List.length [1; 2; 3]
   <= List.length
        [claim_at 1 1 0; claim_at 2 2 1; claim_at 3 1 2; claim_at 4 3 3])%nat.
Proof.
  apply (X18_findings_count
           [claim_at 1 1 0; claim_at 2 2 1; claim_at 3 1 2; claim_at 4 3 3]
           24 [1; 2; 3]).
  - repeat constructor; simpl; intuition discriminate.
  - intros k [<- | [<- | [<- | []]]].
    + exists (claim_at 1 1 0). split; [now left | reflexivity].
    + exists (claim_at 2 2 1). split; [right; now left | reflexivity].
    + exists (claim_at 4 3 3). split; [do 3 right; now left | reflexivity].
Defined.

(** ** detect_unusual_patterns *)

Lemma patterns_of_log (log : AttendanceLog) :
  Forall (fun p => pattern_log p = log) (patterns_of log) /\
  (List.length (patterns_of log) <= 3)%nat.
Proof.
  unfold patterns_of.
  destruct (5 <=? weekday (check_in_time log));
    destruct (hour (check_in_time log) <? 5);
    destruct (truthy_float (confidence_score log) &&
              match confidence_score log with
              | Some q => Qltb q 70
              | None => false
              end)%bool;
    simpl; split; try lia; repeat constructor.
Qed.

Lemma patterns_of_distinct (log : AttendanceLog) :
  NoDup (map pattern (patterns_of log)).
Proof.
  unfold patterns_of.
  destruct (5 <=? weekday (check_in_time log));
    destruct (hour (check_in_time log) <? 5);
    destruct (truthy_float (confidence_score log) &&
              match confidence_score log with
              | Some q => Qltb q 70
              | None => false
              end)%bool;
    simpl; repeat constructor; simpl; intuition discriminate.
Qed.

Lemma patterns_per_record (logs : list AttendanceLog) :
  Forall2 (fun log found =>
             (List.length found <= 3)%nat /\
             Forall (fun p => pattern_log p = log) found /\
             NoDup (map pattern found))
          logs (map patterns_of logs).
Proof.
  induction logs as [|log l IH]; simpl; constructor; [| exact IH].
  destruct (patterns_of_log log) as [Hall Hlen].
  split; [exact Hlen |]. split; [exact Hall | apply patterns_of_distinct].
Qed.

(** X19.  detect_unusual_patterns emits, record after record, at most
    three findings per record, of distinct types, and every finding is
    justified: it refers to a record of the input that was checked in on a
    Saturday or Sunday, or before 5 o'clock, or carries a confidence score
    that is not zero and is below 70, according to its type. *)
Theorem X19_unusual_patterns_sound (logs : list AttendanceLog) :
  (exists per_record : list (list unusual_pattern),
      detect_unusual_patterns logs = List.concat per_record /\
      Forall2 (fun log found =>
                 (List.length found <= 3)%nat /\
                 Forall (fun p => pattern_log p = log) found /\
                 NoDup (map pattern found))
              logs per_record) /\
  (List.length (detect_unusual_patterns logs) <= 3 * List.length logs)%nat /\
  Forall
    (fun p =>
       In (pattern_log p) logs /\
       match pattern p with
       | weekend_checkin => 5 <= weekday (check_in_time (pattern_log p)) <= 6
       | unusual_hour => 0 <= hour (check_in_time (pattern_log p)) < 5
       | low_confidence =>
           exists q, confidence_score (pattern_log p) = Some q /\
                     (q < 70)%Q /\ ~ (q == 0)%Q
       end)
    (detect_unusual_patterns logs).
Proof.
  rewrite detect_unusual_patterns_flat_map. split; [| split].
  - exists (map patterns_of logs).
    split; [apply flat_map_concat_map | apply patterns_per_record].
  - induction logs as [|log l IH]; simpl; [lia |].
    rewrite length_app. destruct (patterns_of_log log) as [_ H]. lia.
  - apply Forall_forall. intros p Hp. apply in_flat_map in Hp.
    destruct Hp as (log & Hlog & Hp).
    destruct (patterns_of_log log) as [Hall _].
    rewrite Forall_forall in Hall. pose proof (Hall p Hp) as Hpl.
    destruct p as [ty l]. simpl in Hpl. subst l. simpl.
    split; [exact Hlog |].
    apply patterns_of_rules in Hp. destruct ty.
    + split; [exact Hp |]. unfold weekday.
      pose proof (Z.mod_pos_bound (check_in_time log / US_PER_DAY + 3) 7).
      lia.
    + split; [| exact Hp]. unfold hour.
      pose proof (Z.mod_pos_bound (check_in_time log / US_PER_HOUR) 24).
      lia.
    + destruct Hp as (q & Hq & Hz & Hlt). exists q.
      split; [exact Hq |]. split; [now apply Qltb_lt |].
      intro H. apply Qeq_bool_iff in H. congruence.
Qed.

(** ** analyze_employee_risk *)

Lemma filter_idem {A : Type} (f : A -> bool) (l : list A) :
  filter f (filter f l) = filter f l.
Proof.
  induction l as [|x l IH]; simpl; [reflexivity |].
  destruct (f x) eqn:E; simpl; [now rewrite E, IH | exact IH].
Qed.

(** X20.  analyze_employee_risk looks only at the records of the employee:
    the attendance logs and claims of other employees and the alerts that do
    not involve the employee do not change its result. *)
Theorem X20_risk_depends_on_own_records
  (now : datetime) (e : Employee) (logs : list AttendanceLog)
  (claims : list BenefitClaim) (alerts : list DuplicateAlert) :
  analyze_employee_risk now e logs claims alerts
  = analyze_employee_risk now e (logs_of (id e) logs)
      (claims_of (id e) claims) (alerts_of e alerts).
Proof.
  unfold analyze_employee_risk, logs_of, claims_of, alerts_of, involves.
  now rewrite !filter_idem.
Qed.

Lemma analyze_employee_risk_factors now e logs claims alerts :
  risk_factors (analyze_employee_risk now e logs claims alerts)
  = factors_of now e logs claims alerts.
Proof.
  unfold analyze_employee_risk, factors_of.
  rewrite pending_alert_match, no_attendance_forallb, unverified_existsb,
    many_claims_ltb.
  unfold absent_for_a_week, days_since_registration_of, alerts_of, claims_of,
    involves.
  rewrite <- (over_seven_whole_days (now - registration_date e)).
  fold (days (now - registration_date e)).
  rewrite (Bool.andb_comm (String.eqb (status e) active)).
  destruct (has_pending_alert e alerts);
    destruct (forallb _ logs && String.eqb (status e) active)%bool;
    destruct (7 <? days (now - registration_date e));
    destruct (has_unverified_claim e claims);
    destruct (more_than_five_claims e claims);
    reflexivity.
Qed.

Lemma analyze_employee_risk_score now e logs claims alerts :
  risk_score (analyze_employee_risk now e logs claims alerts)
  = weighted_sum (has_pending_alert e alerts) (absent_for_a_week now e logs)
      (has_unverified_claim e claims) (more_than_five_claims e claims) /\
  ra_risk_level (analyze_employee_risk now e logs claims alerts)
  = level_of (weighted_sum (has_pending_alert e alerts)
                (absent_for_a_week now e logs)
                (has_unverified_claim e claims)
                (more_than_five_claims e claims)).
Proof.
  destruct (analyze_employee_risk_signals now e logs claims alerts) as [Hs Hl].
  cbv zeta in Hs, Hl. split; [| exact Hl].
  rewrite Hs. apply Z.min_r.
  pose proof (weighted_sum_bounds (has_pending_alert e alerts)
                (absent_for_a_week now e logs)
                (has_unverified_claim e claims)
                (more_than_five_claims e claims)). lia.
Qed.

(** X21.  The level is critical exactly when a pending duplicate alert
    involves the employee and, besides, either the employee is active
    without attendance more than 7 whole days after registration, or has
    both an unverified claim and more than 5 claims; it is low exactly when
    there is no such alert, no such absence and no unverified claim. *)
Theorem X21_critical_needs_pending_alert
  (now : datetime) (e : Employee) (logs : list AttendanceLog)
  (claims : list BenefitClaim) (alerts : list DuplicateAlert) :
  (ra_risk_level (analyze_employee_risk now e logs claims alerts) = critical
   <-> (has_pending_alert e alerts
        && (absent_for_a_week now e logs
            || (has_unverified_claim e claims
                && more_than_five_claims e claims)))%bool = true) /\
  (ra_risk_level (analyze_employee_risk now e logs claims alerts) = low
   <-> (has_pending_alert e alerts || absent_for_a_week now e logs
        || has_unverified_claim e claims)%bool = false).
Proof.
  destruct (analyze_employee_risk_score now e logs claims alerts) as [_ ->].
  destruct (has_pending_alert e alerts), (absent_for_a_week now e logs),
    (has_unverified_claim e claims), (more_than_five_claims e claims);
    simpl; split; split; intro H; try reflexivity; discriminate H.
Qed.

Lemma existsb_filter_length {A : Type} (f : A -> bool) (l : list A) :
  existsb f l = true -> (0 < List.length (filter f l))%nat.
Proof.
  induction l as [|x l IH]; simpl; [discriminate |].
  destruct (f x); simpl; [lia | exact IH].
Qed.

Lemma filter_filter_and {A : Type} (f g : A -> bool) (l : list A) :
  filter f (filter g l) = filter (fun x => g x && f x)%bool l.
Proof.
  induction l as [|x l IH]; simpl; [reflexivity |].
  destruct (g x); simpl; [| exact IH].
  destruct (f x); simpl; now rewrite IH.
Qed.

Lemma forallb_filter_nil {A : Type} (f : A -> bool) (l : list A) :
  forallb (fun x => negb (f x)) l = true -> filter f l = [].
Proof.
  induction l as [|x l IH]; simpl; [reflexivity |].
  destruct (f x); simpl; [discriminate | exact IH].
Qed.

(** X22.  The risk factors explain the score: the score is the sum of the
    weights of the listed factors (40, 30, 20, 10), so it is 0 exactly when
    no factor is listed; and each factor carries the true figure: the number
    of pending alerts involving the employee, the whole days since the
    registration, the number of unverified claims of the employee, the
    number of its claims. *)
Theorem X22_risk_factors_explain_score
  (now : datetime) (e : Employee) (logs : list AttendanceLog)
  (claims : list BenefitClaim) (alerts : list DuplicateAlert) :
  risk_score (analyze_employee_risk now e logs claims alerts)
  = fold_right Z.add 0
      (map weight_of
           (risk_factors (analyze_employee_risk now e logs claims alerts))) /\
  (risk_factors (analyze_employee_risk now e logs claims alerts) = []
   <-> risk_score (analyze_employee_risk now e logs claims alerts) = 0) /\
  Forall (factor_accurate now e logs claims alerts)
         (risk_factors (analyze_employee_risk now e logs claims alerts)).
Proof.
  destruct (analyze_employee_risk_score now e logs claims alerts) as [-> _].
  rewrite analyze_employee_risk_factors. unfold factors_of.
  split; [| split].
  - destruct (has_pending_alert e alerts), (absent_for_a_week now e logs),
      (has_unverified_claim e claims), (more_than_five_claims e claims);
      reflexivity.
  - destruct (has_pending_alert e alerts), (absent_for_a_week now e logs),
      (has_unverified_claim e claims), (more_than_five_claims e claims);
      simpl; split; intro H; try reflexivity; discriminate H.
  - repeat (apply Forall_app; split).
    + destruct (has_pending_alert e alerts) eqn:E; constructor; [| constructor].
      simpl. split; [reflexivity |].
      unfold alerts_of. rewrite filter_filter_and.
      now apply existsb_filter_length.
    + destruct (absent_for_a_week now e logs) eqn:E; constructor;
        [| constructor].
      unfold absent_for_a_week in E.
      apply Bool.andb_true_iff in E. destruct E as [E Hd].
      apply Bool.andb_true_iff in E. destruct E as [Hs Hl].
      rewrite <- over_seven_whole_days in Hd. apply Z.ltb_lt in Hd.
      simpl. split; [reflexivity |]. split; [exact Hd |].
      split; [| now apply String.eqb_eq].
      unfold logs_of. now apply forallb_filter_nil.
    + destruct (has_unverified_claim e claims) eqn:E; constructor;
        [| constructor].
      simpl. split; [reflexivity |].
      unfold claims_of. rewrite filter_filter_and.
      now apply existsb_filter_length.
    + destruct (more_than_five_claims e claims) eqn:E; constructor;
        [| constructor].
      simpl. split; [reflexivity |].
      unfold more_than_five_claims in E. apply Z.ltb_lt in E. lia.
Qed.

End FraudExtra.

(* ================================================================== *)
(** * Properties of the sample-data generator *)
(* ================================================================== *)

Module GeneratorProps.
Import Fraud FraudSpec Generator ListFacts FraudProps.

Local Open Scope Z_scope.






Section GenerateAttendance.

Variable rng : Type.
Variable random : rng -> Q * rng.
Variable randint : Z -> Z -> rng -> Z * rng.
Variable uniform : Q -> Q -> rng -> Q * rng.
Variable choice : list string -> rng -> string * rng.

(** [random.randint(a, b)] and [random.uniform(a, b)] stay within their
    bounds. *)
Hypothesis randint_range :
  forall a b s, a <= b -> a <= fst (randint a b s) <= b.
Hypothesis uniform_range :
  forall a b s, (a <= b)%Q -> (a <= fst (uniform a b s) <= b)%Q.



End GenerateAttendance.


(** ** generate_email *)

Local Open Scope string_scope.

Lemma is_space_lower (c : ascii) :
  Py.is_space (Py.lower_ascii c) = Py.is_space c.
Proof. destruct c as [[] [] [] [] [] [] [] []]; reflexivity. Qed.

Lemma blank_lower (s : string) : blank (Py.lower s) = blank s.
Proof.
  induction s as [|c s IH]; simpl; [reflexivity |].
  now rewrite is_space_lower, IH.
Qed.

Lemma spaceless_lower (s : string) : spaceless (Py.lower s) = spaceless s.
Proof.
  induction s as [|c s IH]; simpl; [reflexivity |].
  now rewrite is_space_lower, IH.
Qed.

Lemma lower_append (a b : string) :
  Py.lower (a ++ b) = Py.lower a ++ Py.lower b.
Proof. induction a as [|c a IH]; simpl; [reflexivity | now rewrite IH]. Qed.

Lemma lower_empty (s : string) : Py.lower s = EmptyString <-> s = EmptyString.
Proof. destruct s; simpl; split; intro H; try reflexivity; discriminate. Qed.

Lemma append_snoc (a : string) (c : ascii) (r : string) :
  (a ++ String c EmptyString) ++ r = a ++ String c r.
Proof. induction a as [|d a IH]; simpl; [reflexivity | now rewrite IH]. Qed.

Lemma append_empty_r (a : string) : a ++ EmptyString = a.
Proof. induction a as [|d a IH]; simpl; [reflexivity | now rewrite IH]. Qed.

Lemma append_not_empty (a : string) (c : ascii) :
  a ++ String c EmptyString <> EmptyString.
Proof. destruct a; discriminate. Qed.

Lemma split_words_nil (s word : string) :
  split_words s word = [] <-> word = EmptyString /\ blank s = true.
Proof.
  revert word. induction s as [|c s IH]; intro word; simpl.
  - destruct word; split; intro H; try reflexivity; try discriminate;
      try (now split); destruct H; discriminate.
  - destruct (Py.is_space c); simpl.
    + destruct word.
      * rewrite IH. tauto.
      * split; [discriminate | intros [H _]; discriminate].
    + rewrite IH. split; [| intros [_ H]; discriminate].
      intros [H _]. now apply append_not_empty in H.
Qed.

Lemma split_words_spaceless (w s word : string) :
  spaceless w = true ->
  split_words (w ++ s) word = split_words s (word ++ w).
Proof.
  revert word. induction w as [|c w IH]; intros word Hw; simpl.
  - now rewrite append_empty_r.
  - simpl in Hw. apply Bool.andb_true_iff in Hw. destruct Hw as [Hc Hw].
    apply Bool.negb_true_iff in Hc. rewrite Hc.
    rewrite (IH _ Hw). now rewrite append_snoc.
Qed.

Lemma split_two_words (a b : string) :
  is_word a -> is_word b -> split (a ++ String " " b) = [a; b].
Proof.
  intros [Ha Hsa] [Hb Hsb]. unfold split.
  rewrite (split_words_spaceless a _ EmptyString Hsa). simpl.
  destruct a as [|c a]; [congruence |]. f_equal.
  rewrite <- (append_empty_r b) at 1.
  rewrite (split_words_spaceless b _ EmptyString Hsb). simpl.
  destruct b; [congruence | reflexivity].
Qed.

(** X24.  generate_email raises IndexError exactly for a name without any
    character other than whitespace; for a name made of two words separated
    by a space it returns the two words, lower-cased, joined by a dot and
    followed by @gov.ke. *)
Theorem X24_generate_email (name first last : string) :
  (generate_email name = IndexError <-> blank name = true) /\
  (is_word first -> is_word last ->
   generate_email (first ++ String " " last)
   = Email (Py.lower first ++ "." ++ Py.lower last ++ "@gov.ke")).
Proof.
  split.
  - unfold generate_email, split. rewrite <- blank_lower.
    pose proof (split_words_nil (Py.lower name) EmptyString) as H.
    destruct (split_words (Py.lower name) EmptyString) as [|x [|y l]].
    + split; [intros _; now apply H | reflexivity].
    + split; [discriminate |]. intro Hb.
      discriminate (proj2 H (conj eq_refl Hb)).
    + split; [discriminate |]. intro Hb.
      discriminate (proj2 H (conj eq_refl Hb)).
  - intros [Hf Hsf] [Hl Hsl]. unfold generate_email.
    rewrite lower_append. simpl Py.lower.
    change (Py.lower_ascii " ") with " "%char.
    rewrite split_two_words; [reflexivity | |]; split;
      try (now rewrite spaceless_lower);
      now rewrite lower_empty.
Qed.

Lemma X24_witness :
  generate_email "John Smith" = Email "john.smith@gov.ke".
Proof.
  apply (proj2 (X24_generate_email "" "John" "Smith"));
    split; try discriminate; reflexivity.
Defined.

End GeneratorProps.
